(** * 4NSIK file fixer: organize, deduplicate, clean up

    A shallow embedding of [456FileFix.py] and of its working-directory
    variant [test_4NSIKfilefix.py], with the properties of the three-stage
    pipeline stated over it.

    The Python code talks to the operating system through [pathlib], [os]
    and [shutil].  The file system is modelled as an ordered table from
    absolute locations to nodes; the order of the table is the enumeration
    order of [os.listdir].  Exceptions are modelled by a state-and-error
    monad in which the file system reached so far survives a raise: the
    code has no [try] block, so a raise ends the run, but what was done
    before stays done.

    Outside the model: symbolic links and hard links (a regular file has
    one name: two names with the same content are two files), the
    resolution of [..] (pathlib keeps the component and the kernel
    resolves it; here every component is looked up as an entry name), the
    limits the kernel puts on names (a NUL byte, more than 255 bytes in a
    name, more than 4095 in a path), permissions on directories, several
    volumes, other processes, the tqdm progress bar and the clock.
    Where a statement below needs a configured path to lead where the
    kernel takes it, it is made for configurations without such
    components ([plain_config]); where it needs a moved file to have left
    its place, it is made for a destination that does not already hold
    the same content, as another name of the file itself would.  The
    records given to [logging.info]
    are kept as a list in the state; the handlers that write them to
    [4NSIKfilefix.log] and to the console are outside the model, so the
    log file is not one of the files of the modelled file system. *)

From Stdlib Require Import Strings.Ascii Strings.String Strings.Byte.
From stdpp Require Import gmap strings list fin_maps.

Open Scope string_scope.
Open Scope list_scope.

(** ** Strings *)

(** [str.endswith]: [ext] is a suffix of [s]. *)
Definition endswith (s ext : string) : bool :=
  String.prefix (String.rev ext) (String.rev s).

(** [s.split("/")]. *)
Fixpoint split_slash (s : string) : list string :=
  match s with
  | EmptyString => [EmptyString]
  | String c s' =>
      if Ascii.eqb c "/"%char then EmptyString :: split_slash s'
      else match split_slash s' with
           | h :: t => String c h :: t
           | [] => [String c EmptyString]
           end
  end.

(** ** pathlib *)

(** A [PurePosixPath]: whether it is anchored at the root, and its parts.
    pathlib drops empty components and [.] when it parses. *)
Record Path := mkPath { anchor : bool; parts : list string }.

Definition proper_part (c : string) : bool :=
  negb (String.eqb c EmptyString) && negb (String.eqb c ".").

Definition PurePath (s : string) : Path :=
  {| anchor := String.prefix "/" s;
     parts := List.filter proper_part (split_slash s) |}.

(** [p / s]: an anchored right operand replaces the left one. *)
Definition truediv (p : Path) (s : string) : Path :=
  let q := PurePath s in
  if anchor q then q
  else {| anchor := anchor p; parts := parts p ++ parts q |}.

Infix "</>" := truediv (at level 40, left associativity).

(** [p.parent]; the parent of an anchor or of the empty path is itself. *)
Definition parent (p : Path) : Path :=
  {| anchor := anchor p; parts := removelast (parts p) |}.

(** [p.name], the last part (the empty string when there is none). *)
Definition basename (p : Path) : string := List.last (parts p) EmptyString.

(** ** The file system *)

(** A location is the list of entry names from the root. *)
Definition loc := list string.

Inductive node :=
  | File (content : list byte) (readable : bool)
  | Dir.

(** The table; the root directory is implicit.  Its order is the order in
    which [os.listdir] enumerates: a new entry goes last, an entry that is
    replaced keeps its place. *)
Definition filesystem := list (loc * node).

#[global] Instance byte_eq_dec : EqDecision byte := Byte.byte_eq_dec.

#[global] Instance node_eq_dec : EqDecision node.
Proof. solve_decision. Defined.

Fixpoint assoc (l : loc) (fs : filesystem) : option node :=
  match fs with
  | [] => None
  | (k, n) :: fs' => if decide (k = l) then Some n else assoc l fs'
  end.

Definition fs_lookup (fs : filesystem) (l : loc) : option node :=
  match l with
  | [] => Some Dir
  | _ => assoc l fs
  end.

Definition fs_delete (l : loc) (fs : filesystem) : filesystem :=
  List.filter (fun kn => negb (bool_decide (kn.1 = l))) fs.

Fixpoint fs_replace (l : loc) (n : node) (fs : filesystem) : filesystem :=
  match fs with
  | [] => []
  | (k, m) :: fs' =>
      if decide (k = l) then (k, n) :: fs' else (k, m) :: fs_replace l n fs'
  end.

Definition fs_put (l : loc) (n : node) (fs : filesystem) : filesystem :=
  match assoc l fs with
  | Some _ => fs_replace l n fs
  | None => fs ++ [(l, n)]
  end.

(** [k] is [l] followed by one name. *)
Fixpoint child_name (l k : loc) : option string :=
  match l, k with
  | [], [n] => Some n
  | a :: l', b :: k' => if decide (a = b) then child_name l' k' else None
  | _, _ => None
  end.

Definition children (fs : filesystem) (l : loc) : list string :=
  omap (fun kn => child_name l kn.1) fs.

(** Python's exceptions, as far as the code can meet them. *)
Inductive exn :=
  | FileNotFoundError
  | NotADirectoryError
  | FileExistsError
  | IsADirectoryError
  | PermissionError
  | DirectoryNotEmpty
  | ShutilError
  | KeyError
  | DirectorySource. (* a directory given to rename: not modelled *)

#[global] Instance exn_eq_dec : EqDecision exn.
Proof. solve_decision. Defined.

(** [stat]: walk from the root; every component before the last must be a
    directory.  Every component is looked up as an entry name, [..]
    included: the table has no link from a directory to its parent. *)
Fixpoint stat_from (fs : filesystem) (cur : loc) (rest : list string)
  : exn + node :=
  match fs_lookup fs cur with
  | None => inl FileNotFoundError
  | Some n =>
      match rest with
      | [] => inr n
      | c :: rest' =>
          match n with
          | Dir => stat_from fs (cur ++ [c]) rest'
          | File _ _ => inl NotADirectoryError
          end
      end
  end.

Definition stat (fs : filesystem) (l : loc) : exn + node := stat_from fs [] l.

(** ** System calls on locations *)

(** [mkdir] of one directory.  No name is refused for what it is made of:
    the limits the kernel puts on names are outside the model. *)
Definition sys_mkdir (fs : filesystem) (l : loc) : exn + filesystem :=
  match l with
  | [] => inl FileExistsError
  | _ =>
      match stat fs (removelast l) with
      | inl e => inl e
      | inr (File _ _) => inl NotADirectoryError
      | inr Dir =>
          match fs_lookup fs l with
          | Some _ => inl FileExistsError
          | None => inr (fs ++ [(l, Dir)])
          end
      end
  end.

Definition sys_listdir (fs : filesystem) (l : loc) : exn + list string :=
  match stat fs l with
  | inl e => inl e
  | inr (File _ _) => inl NotADirectoryError
  | inr Dir => inr (children fs l)
  end.

(** [rename] of a regular file: an existing file at the destination is
    replaced, and renaming a file to itself does nothing.  A file is its
    place in the table: two places that are names of one file (hard
    links), between which the kernel renames nothing, are outside the
    model. *)
Definition sys_rename (fs : filesystem) (src dst : loc) : exn + filesystem :=
  match stat fs src with
  | inl e => inl e
  | inr Dir => inl DirectorySource
  | inr (File c r) =>
      match dst with
      | [] => inl IsADirectoryError
      | _ =>
          match stat fs (removelast dst) with
          | inl e => inl e
          | inr (File _ _) => inl NotADirectoryError
          | inr Dir =>
              match fs_lookup fs dst with
              | Some Dir => inl IsADirectoryError
              | Some (File _ _) =>
                  if decide (src = dst) then inr fs
                  else inr (fs_replace dst (File c r) (fs_delete src fs))
              | None => inr (fs_delete src fs ++ [(dst, File c r)])
              end
          end
      end
  end.

Definition sys_unlink (fs : filesystem) (l : loc) : exn + filesystem :=
  match stat fs l with
  | inl e => inl e
  | inr Dir => inl IsADirectoryError
  | inr (File _ _) => inr (fs_delete l fs)
  end.

Definition sys_rmdir (fs : filesystem) (l : loc) : exn + filesystem :=
  match stat fs l with
  | inl e => inl e
  | inr (File _ _) => inl NotADirectoryError
  | inr Dir =>
      match l, children fs l with
      | [], _ => inl PermissionError
      | _, [] => inr (fs_delete l fs)
      | _, _ :: _ => inl DirectoryNotEmpty
      end
  end.

(** [open(l, "rb").read()]. *)
Definition sys_read (fs : filesystem) (l : loc) : exn + list byte :=
  match stat fs l with
  | inl e => inl e
  | inr Dir => inl IsADirectoryError
  | inr (File c true) => inr c
  | inr (File c false) => inl PermissionError
  end.

(** [open(l, "wb").write(c)]. *)
Definition sys_write (fs : filesystem) (l : loc) (c : list byte)
  : exn + filesystem :=
  match l with
  | [] => inl IsADirectoryError
  | _ =>
      match stat fs (removelast l) with
      | inl e => inl e
      | inr (File _ _) => inl NotADirectoryError
      | inr Dir =>
          match fs_lookup fs l with
          | Some Dir => inl IsADirectoryError
          | Some (File _ r) => inr (fs_replace l (File c r) fs)
          | None => inr (fs ++ [(l, File c true)])
          end
      end
  end.

(** ** The process: state, exceptions, log *)

(** What [logging.info] is given. *)
Inductive event :=
  | Moved (file folder : string)
  | RemovedDuplicate (file folder : string)
  | RemovedEmpty (folder : string).

#[global] Instance event_eq_dec : EqDecision event.
Proof. solve_decision. Defined.

Record state := mkState {
  st_cwd : loc;            (* the working directory of the process *)
  st_fs : filesystem;
  st_log : list event       (* the records given to logging.info *)
}.

(** A computation runs from a state to a result or an exception, and to
    the state it reached either way. *)
Definition M (A : Type) : Type := state -> (exn + A) * state.

Definition ret {A} (x : A) : M A := fun s => (inr x, s).

Definition bind {A B} (m : M A) (k : A -> M B) : M B :=
  fun s => match m s with
           | (inr x, s') => k x s'
           | (inl e, s') => (inl e, s')
           end.

Definition raise {A} (e : exn) : M A := fun s => (inl e, s).

(** [try: m except: h]. *)
Definition catch {A} (m : M A) (h : exn -> M A) : M A :=
  fun s => match m s with
           | (inl e, s') => h e s'
           | r => r
           end.

#[global] Instance M_ret : MRet M := @ret.
#[global] Instance M_bind : MBind M := fun A B k m => bind m k.

(** [for x in xs: body x]. *)
Fixpoint for_each {A} (xs : list A) (body : A -> M unit) : M unit :=
  match xs with
  | [] => ret tt
  | x :: xs' => body x ;; for_each xs' body
  end.

(** A loop that carries a local variable. *)
Fixpoint for_fold {A B} (xs : list A) (acc : B) (body : B -> A -> M B) : M B :=
  match xs with
  | [] => ret acc
  | x :: xs' => acc' ← body acc x; for_fold xs' acc' body
  end.

(** A path is resolved against the working directory unless anchored.
    Nothing more is resolved: a component [..] stays in the location. *)
Definition abspath (cwd : loc) (p : Path) : loc :=
  if anchor p then parts p else cwd ++ parts p.

Definition query {A} (f : filesystem -> loc -> A) (p : Path) : M A :=
  fun s => (inr (f (st_fs s) (abspath (st_cwd s) p)), s).

Definition call {A} (f : filesystem -> loc -> exn + A) (p : Path) : M A :=
  fun s => (f (st_fs s) (abspath (st_cwd s) p), s).

Definition update (f : filesystem -> exn + filesystem) : M unit :=
  fun s => match f (st_fs s) with
           | inl e => (inl e, s)
           | inr fs' => (inr tt, mkState (st_cwd s) fs' (st_log s))
           end.

Definition mutate (f : filesystem -> loc -> exn + filesystem) (p : Path)
  : M unit :=
  fun s => update (fun fs => f fs (abspath (st_cwd s) p)) s.

Definition logging_info (e : event) : M unit :=
  fun s => (inr tt, mkState (st_cwd s) (st_fs s) (st_log s ++ [e])).

(** ** pathlib, os and shutil over the process *)

Definition path_exists : Path -> M bool :=
  query (fun fs l => match stat fs l with inr _ => true | inl _ => false end).

Definition is_file : Path -> M bool :=
  query (fun fs l => match stat fs l with inr (File _ _) => true | _ => false end).

Definition is_dir : Path -> M bool :=
  query (fun fs l => match stat fs l with inr Dir => true | _ => false end).

Definition os_mkdir : Path -> M unit := mutate sys_mkdir.
Definition os_listdir : Path -> M (list string) := call sys_listdir.
Definition os_remove : Path -> M unit := mutate sys_unlink.
Definition path_rmdir : Path -> M unit := mutate sys_rmdir.
Definition read_bytes : Path -> M (list byte) := call sys_read.

Definition os_rename (src dst : Path) : M unit :=
  fun s => mutate (fun fs l => sys_rename fs l (abspath (st_cwd s) dst)) src s.

Definition write_bytes (p : Path) (c : list byte) : M unit :=
  mutate (fun fs l => sys_write fs l c) p.

(** [os.listdir(s)] on a [str]: the empty string names nothing; any other
    string is parsed as pathlib parses it. *)
Definition os_listdir_str (s : string) : M (list string) :=
  if String.eqb s EmptyString then raise FileNotFoundError
  else os_listdir (PurePath s).

(** [Path.mkdir(parents=False, exist_ok)]. *)
Definition mkdir_one (p : Path) (exist_ok : bool) : M unit :=
  catch (os_mkdir p) (fun e =>
    match e with
    | FileNotFoundError => raise e
    | _ => d ← is_dir p; if exist_ok && d then ret tt else raise e
    end).

(** [Path.mkdir(parents=True, exist_ok)], by recursion on the parts of the
    path read from the last one: on [FileNotFoundError] the parent is made
    first (with [exist_ok=True]) and the directory itself after it. *)
Fixpoint mkdir_parents (a : bool) (rparts : list string) (exist_ok : bool)
  : M unit :=
  let self := mkPath a (rev rparts) in
  catch (os_mkdir self) (fun e =>
    match e with
    | FileNotFoundError =>
        match rparts with
        | [] => raise e
        | _ :: rparent =>
            mkdir_parents a rparent true ;; mkdir_one self exist_ok
        end
    | _ => d ← is_dir self; if exist_ok && d then ret tt else raise e
    end).

Definition path_mkdir_parents (p : Path) : M unit :=
  mkdir_parents (anchor p) (rev (parts p)) false.

(** [shutil.copy2] onto a path that is not a directory. *)
Definition shutil_copy2 (src dst : Path) : M unit :=
  c ← read_bytes src; write_bytes dst c.

(** [shutil.move] of a regular file.  Into an existing directory the file
    goes under its own name, which must be free there; otherwise it is
    renamed onto the destination, and when the rename raises it is copied
    and the source removed. *)
Definition shutil_move (src dst : Path) : M unit :=
  d ← is_dir dst;
  real_dst ←
    (if d : bool then
       let inside := mkPath (anchor dst) (parts dst ++ [basename src]) in
       taken ← path_exists inside;
       if taken : bool then raise ShutilError else ret inside
     else ret dst);
  catch (os_rename src real_dst)
        (fun _ => shutil_copy2 src real_dst ;; os_remove src).

(** ** Configuration *)

(** [config["folders"]]: folder names with their suffix lists, in the
    order of the JSON object. *)
Definition rules := list (string * list string).

(** [collections.Counter]: an absent key counts zero. *)
Definition count_of (c : gmap string nat) (k : string) : nat := default 0 (c !! k).
Definition count_incr (c : gmap string nat) (k : string) : gmap string nat :=
  <[k := S (count_of c k)]> c.

(** [any(file.endswith(extension) for extension in extensions)]. *)
Definition any_endswith (file : string) (extensions : list string) : bool :=
  existsb (endswith file) extensions.

Record config := mkConfig {
  cfg_folders : option rules;          (* [None]: the key is absent *)
  cfg_download_dir : option string
}.

(** The configured paths the model reads as the kernel does: no [..]
    component (it would be resolved, not looked up), no NUL byte, no name
    of more than 255 bytes, and no path near the 4096 bytes a path may
    have once a folder, a file name and the separators are joined to the
    download directory. *)
Definition plain_name (n : string) : Prop :=
  n <> ".." ∧ ("000"%char ∉ list_ascii_of_string n) ∧ String.length n <= 255.

Definition plain_path (s : string) : Prop :=
  Forall plain_name (parts (PurePath s)).

Definition plain_config (download_dir : string) (folders : rules) : Prop :=
  plain_path download_dir ∧
  Forall (fun folder =>
            plain_path folder ∧
            String.length download_dir + String.length folder + 520 < 4096)
         folders.*1.

#[global] Instance plain_name_dec n : Decision (plain_name n).
Proof. unfold plain_name. apply _. Defined.

#[global] Instance plain_path_dec s : Decision (plain_path s).
Proof. unfold plain_path. apply _. Defined.

#[global] Instance plain_config_dec dd folders : Decision (plain_config dd folders).
Proof. unfold plain_config. apply _. Defined.

(** [config[key]]. *)
Definition getitem {A} (field : option A) : M A :=
  match field with
  | Some v => ret v
  | None => raise KeyError
  end.

(** [generate_summary] only prints. *)
Definition generate_summary (file_counts : gmap string nat) : M unit := ret tt.

(** ** 456FileFix.py: folders under the download directory *)

Module FileFix.
Section WithHash.

(** [hashlib.sha256(data).hexdigest()]. *)
Variable hexdigest : list byte -> string.

(** The rule loop of [organize_files] for one file; it ends at the first
    folder one of whose suffixes ends the name ([break]). *)
Fixpoint move_to_first (download_dir : string) (file : string)
    (file_path : Path) (folders : rules) (file_counts : gmap string nat)
  : M (gmap string nat) :=
  match folders with
  | [] => ret file_counts
  | (folder, extensions) :: rest =>
      if any_endswith file extensions then
        let destination_path := PurePath download_dir </> folder </> file in
        shutil_move file_path destination_path ;;
        let file_counts := count_incr file_counts folder in
        logging_info (Moved file folder) ;;
        ret file_counts
      else move_to_first download_dir file file_path rest file_counts
  end.

Definition organize_files (folders : rules) (download_dir : string)
  : M (gmap string nat) :=
  for_each folders (fun '(folder, extensions) =>
    let folder_path := PurePath download_dir </> folder in
    e ← path_exists folder_path;
    if e : bool then ret tt else path_mkdir_parents folder_path) ;;
  total_files ← os_listdir_str download_dir;
  files ← os_listdir_str download_dir;
  for_fold files ∅ (fun file_counts file =>
    let file_path := PurePath download_dir </> file in
    f ← is_file file_path;
    if f : bool then move_to_first download_dir file file_path folders file_counts
    else ret file_counts).

(** The body of the folder loop of [remove_duplicates]: one pass over one
    folder, with its own [seen] set. *)
Definition remove_duplicates_in (download_dir : string) (folder : string)
  : M unit :=
  let folder_path := PurePath download_dir </> folder in
  files ← os_listdir folder_path;
  for_fold files (∅ : gset string) (fun seen file =>
    let file_path := folder_path </> file in
    f ← is_file file_path;
    if f : bool then
      data ← read_bytes file_path;
      let file_hash := hexdigest data in
      if decide (file_hash ∈ seen) then
        os_remove file_path ;;
        logging_info (RemovedDuplicate file folder) ;;
        ret seen
      else ret ({[file_hash]} ∪ seen)
    else ret seen) ;;
  ret tt.

Definition remove_duplicates (folders : rules) (download_dir : string)
  : M unit :=
  for_each folders.*1 (remove_duplicates_in download_dir).

Definition clean_up_empty_folders (download_dir : string) : M unit :=
  entries ← os_listdir_str download_dir;
  for_each entries (fun folder =>
    let folder_path := PurePath download_dir </> folder in
    d ← is_dir folder_path;
    if d : bool then
      inner ← os_listdir folder_path;
      match inner with
      | [] => path_rmdir folder_path ;; logging_info (RemovedEmpty folder)
      | _ :: _ => ret tt
      end
    else ret tt).

Definition main (cfg : config) : M unit :=
  folders ← getitem (cfg_folders cfg);
  download_dir ← getitem (cfg_download_dir cfg);
  file_counts ← organize_files folders download_dir;
  remove_duplicates folders download_dir ;;
  clean_up_empty_folders download_dir ;;
  generate_summary file_counts.

End WithHash.
End FileFix.

(** ** test_4NSIKfilefix.py: folders under the working directory *)

Module TestFileFix.
Section WithHash.

Variable hexdigest : list byte -> string.

Fixpoint move_to_first (file : string) (file_path : Path) (folders : rules)
    (file_counts : gmap string nat) : M (gmap string nat) :=
  match folders with
  | [] => ret file_counts
  | (folder, extensions) :: rest =>
      if any_endswith file extensions then
        let destination_path := PurePath folder </> file in
        shutil_move file_path destination_path ;;
        let file_counts := count_incr file_counts folder in
        logging_info (Moved file folder) ;;
        ret file_counts
      else move_to_first file file_path rest file_counts
  end.

Definition organize_files (folders : rules) (download_dir : string)
  : M (gmap string nat) :=
  for_each folders (fun '(folder, extensions) =>
    e ← path_exists (PurePath folder);
    if e : bool then ret tt else path_mkdir_parents (PurePath folder)) ;;
  total_files ← os_listdir_str download_dir;
  files ← os_listdir_str download_dir;
  for_fold files ∅ (fun file_counts file =>
    let file_path := PurePath download_dir </> file in
    f ← is_file file_path;
    if f : bool then move_to_first file file_path folders file_counts
    else ret file_counts).

Definition remove_duplicates_in (folder : string) : M unit :=
  files ← os_listdir_str folder;
  for_fold files (∅ : gset string) (fun seen file =>
    let file_path := PurePath folder </> file in
    f ← is_file file_path;
    if f : bool then
      data ← read_bytes file_path;
      let file_hash := hexdigest data in
      if decide (file_hash ∈ seen) then
        os_remove file_path ;;
        logging_info (RemovedDuplicate file folder) ;;
        ret seen
      else ret ({[file_hash]} ∪ seen)
    else ret seen) ;;
  ret tt.

Definition remove_duplicates (folders : rules) : M unit :=
  for_each folders.*1 remove_duplicates_in.

(** [os.listdir()] lists the working directory; [os.rmdir] takes the
    entry name as a [str]. *)
Definition clean_up_empty_folders : M unit :=
  entries ← os_listdir (PurePath ".");
  for_each entries (fun folder =>
    d ← is_dir (PurePath folder);
    if d : bool then
      inner ← os_listdir_str folder;
      match inner with
      | [] =>
          (if String.eqb folder EmptyString then raise FileNotFoundError
           else path_rmdir (PurePath folder)) ;;
          logging_info (RemovedEmpty folder)
      | _ :: _ => ret tt
      end
    else ret tt).

Definition main (cfg : config) : M unit :=
  folders ← getitem (cfg_folders cfg);
  download_dir ← getitem (cfg_download_dir cfg);
  file_counts ← organize_files folders download_dir;
  remove_duplicates folders ;;
  clean_up_empty_folders ;;
  generate_summary file_counts.

End WithHash.
End TestFileFix.

(** * Properties *)

(** ** Names and paths *)

(** An entry name: a string that pathlib reads as one part, itself.
    ([..] is one, as it is for pathlib; [plain_name] leaves it out.) *)
Definition valid_name (n : string) : Prop := PurePath n = mkPath false [n].

#[global] Instance path_eq_dec : EqDecision Path.
Proof. solve_decision. Defined.

#[global] Instance valid_name_dec n : Decision (valid_name n).
Proof. unfold valid_name. apply _. Defined.

Fixpoint no_slash (s : string) : bool :=
  match s with
  | EmptyString => true
  | String c s' => negb (Ascii.eqb c "/"%char) && no_slash s'
  end.

Lemma split_slash_nonempty s : split_slash s <> [].
Proof.
  destruct s as [|c s]; simpl; [done|].
  destruct (Ascii.eqb c "/"); [done|]. by destruct (split_slash s).
Qed.

Lemma split_slash_no_slash s : no_slash s = true -> split_slash s = [s].
Proof.
  induction s as [|c s IH]; simpl; [done|].
  intros [Hc Hs]%andb_true_iff. apply negb_true_iff in Hc. rewrite Hc.
  by rewrite (IH Hs).
Qed.

Lemma split_slash_pieces s : Forall (fun c => no_slash c = true) (split_slash s).
Proof.
  induction s as [|c s IH]; simpl; [by repeat constructor|].
  destruct (Ascii.eqb c "/") eqn:Hc; [by constructor|].
  destruct (split_slash s) as [|h t]; [by repeat constructor; simpl; rewrite Hc|].
  inversion IH; subst. constructor; [|done]. simpl. by rewrite Hc.
Qed.

Lemma valid_name_intro n :
  no_slash n = true -> proper_part n = true -> valid_name n.
Proof.
  intros Hs Hp. unfold valid_name, PurePath.
  rewrite (split_slash_no_slash _ Hs). simpl. rewrite Hp. f_equal.
  destruct n as [|c n]; [done|]. simpl in *.
  apply andb_true_iff in Hs as [Hc _]. apply negb_true_iff in Hc.
  destruct c as [[] [] [] [] [] [] [] []]; try done.
Qed.

Lemma parts_valid s : Forall valid_name (parts (PurePath s)).
Proof.
  unfold PurePath; simpl. apply Forall_forall. intros c Hc.
  apply list_elem_of_In, filter_In in Hc as [Hin Hp].
  apply valid_name_intro; [|done].
  pose proof (split_slash_pieces s) as H. rewrite Forall_forall in H.
  by apply H, list_elem_of_In.
Qed.

Lemma valid_name_nonempty n : valid_name n -> n <> EmptyString.
Proof. by intros H ->. Qed.

Lemma truediv_name p n :
  valid_name n -> p </> n = mkPath (anchor p) (parts p ++ [n]).
Proof. intros H. unfold truediv. by rewrite H. Qed.

Lemma abspath_child cwd p n :
  valid_name n -> abspath cwd (p </> n) = abspath cwd p ++ [n].
Proof.
  intros H. rewrite (truediv_name _ _ H). unfold abspath; simpl.
  destruct (anchor p); [done|]. by rewrite app_assoc.
Qed.

Lemma basename_child p n : valid_name n -> basename (p </> n) = n.
Proof.
  intros H. rewrite (truediv_name _ _ H). unfold basename; simpl.
  apply last_last.
Qed.

(** ** The table *)

Lemma assoc_None l fs : assoc l fs = None <-> l ∉ fs.*1.
Proof.
  induction fs as [|[k n] fs IH]; simpl.
  - split; [intros _; apply not_elem_of_nil | done].
  - rewrite not_elem_of_cons. destruct (decide (k = l)) as [->|Hne].
    + split; [done | by intros [? _]].
    + rewrite IH. naive_solver.
Qed.

Lemma assoc_Some_elem l n fs : assoc l fs = Some n -> (l, n) ∈ fs.
Proof.
  induction fs as [|[k m] fs IH]; simpl; [done|].
  destruct (decide (k = l)) as [->|Hne].
  - intros [= ->]. apply list_elem_of_here.
  - intros H. apply list_elem_of_further. auto.
Qed.

Lemma assoc_is_Some l fs : is_Some (assoc l fs) <-> l ∈ fs.*1.
Proof.
  destruct (assoc l fs) eqn:E.
  - split; [intros _ | by eauto].
    apply assoc_Some_elem in E. apply list_elem_of_fmap. by exists (l, n).
  - apply assoc_None in E. split; [by intros [? ?] | done].
Qed.

Lemma assoc_app l fs fs' :
  assoc l (fs ++ fs') =
  match assoc l fs with Some n => Some n | None => assoc l fs' end.
Proof.
  induction fs as [|[k n] fs IH]; simpl; [done|].
  by destruct (decide (k = l)).
Qed.

Lemma assoc_delete l k fs :
  assoc l (fs_delete k fs) = if decide (l = k) then None else assoc l fs.
Proof.
  unfold fs_delete. induction fs as [|[k' n] fs IH]; simpl.
  - by destruct (decide (l = k)).
  - destruct (decide (k' = k)) as [->|Hne].
    + rewrite bool_decide_eq_true_2 by done. simpl. rewrite IH.
      destruct (decide (l = k)) as [->|?]; [done|].
      by rewrite decide_False by done.
    + rewrite bool_decide_eq_false_2 by done. simpl. rewrite IH.
      destruct (decide (k' = l)) as [->|?]; [|done].
      by rewrite decide_False by done.
Qed.

Lemma assoc_replace l k n fs :
  assoc l (fs_replace k n fs) =
  if decide (l = k) then (fun _ => n) <$> assoc k fs else assoc l fs.
Proof.
  induction fs as [|[k' m] fs IH]; simpl.
  - by destruct (decide (l = k)).
  - destruct (decide (k' = k)) as [->|Hne]; simpl.
    + repeat case_decide; simplify_eq; done.
    + rewrite IH. repeat case_decide; simplify_eq; done.
Qed.

Lemma keys_delete k fs : (fs_delete k fs).*1 = List.filter (fun k' => negb (bool_decide (k' = k))) fs.*1.
Proof.
  unfold fs_delete. induction fs as [|[k' n] fs IH]; simpl; [done|].
  destruct (negb (bool_decide (k' = k))); simpl; [f_equal|]; exact IH.
Qed.

Lemma keys_replace k n fs : (fs_replace k n fs).*1 = fs.*1.
Proof.
  induction fs as [|[k' m] fs IH]; simpl; [done|].
  destruct (decide (k' = k)); simpl; [done|]. f_equal. exact IH.
Qed.

Lemma elem_of_keys_delete l k fs : l ∈ (fs_delete k fs).*1 <-> l ∈ fs.*1 ∧ l <> k.
Proof.
  rewrite <- !assoc_is_Some, assoc_delete.
  destruct (decide (l = k)) as [->|?].
  - split; [by intros [? ?] | by intros [_ ?]].
  - naive_solver.
Qed.

Lemma NoDup_keys_delete k fs : NoDup fs.*1 -> NoDup (fs_delete k fs).*1.
Proof.
  unfold fs_delete. induction fs as [|[k' n] fs IH]; simpl; [done|].
  intros [Hnin Hnd]%NoDup_cons.
  destruct (negb (bool_decide (k' = k))); simpl; [|by auto].
  apply NoDup_cons. split; [|by auto].
  intros Hin. apply Hnin. by apply (elem_of_keys_delete k' k fs).
Qed.

(** ** Listing a directory *)

Lemma child_name_Some l k n : child_name l k = Some n <-> k = l ++ [n].
Proof.
  revert k. induction l as [|a l IH]; intros k; simpl.
  - destruct k as [|b [|c k]]; naive_solver.
  - destruct k as [|b k]; [naive_solver|].
    destruct (decide (a = b)) as [->|Hne].
    + rewrite IH. naive_solver.
    + naive_solver.
Qed.

Lemma child_name_snoc l n : child_name l (l ++ [n]) = Some n.
Proof. by apply child_name_Some. Qed.

Lemma elem_of_children fs l n : n ∈ children fs l <-> l ++ [n] ∈ fs.*1.
Proof.
  unfold children. rewrite list_elem_of_omap, list_elem_of_fmap. split.
  - intros ([k m] & Hin & Hc). apply child_name_Some in Hc. simpl in Hc.
    exists (k, m). by subst.
  - intros ([k m] & Hk & Hin). simpl in Hk. subst k.
    exists (l ++ [n], m). split; [done|]. apply child_name_snoc.
Qed.

Lemma children_app fs fs' l : children (fs ++ fs') l = children fs l ++ children fs' l.
Proof. apply omap_app. Qed.

Lemma children_replace k n fs l : children (fs_replace k n fs) l = children fs l.
Proof.
  unfold children. induction fs as [|[k' m] fs IH]; simpl; [done|].
  destruct (decide (k' = k)); simpl; [done|].
  destruct (child_name l k'); [f_equal|]; exact IH.
Qed.

Lemma children_cons k m fs l :
  children ((k, m) :: fs) l =
  match child_name l k with
  | Some n => n :: children fs l
  | None => children fs l
  end.
Proof. done. Qed.

Lemma fs_delete_cons k k' m fs :
  fs_delete k ((k', m) :: fs) =
  if decide (k' = k) then fs_delete k fs else (k', m) :: fs_delete k fs.
Proof.
  unfold fs_delete; simpl. destruct (decide (k' = k)).
  - by rewrite bool_decide_eq_true_2.
  - by rewrite bool_decide_eq_false_2.
Qed.

Lemma children_delete k fs l :
  children (fs_delete k fs) l =
  match child_name l k with
  | Some n => List.filter (fun n' => negb (bool_decide (n' = n))) (children fs l)
  | None => children fs l
  end.
Proof.
  induction fs as [|[k' m] fs IH].
  - by destruct (child_name l k).
  - rewrite fs_delete_cons, children_cons.
    destruct (decide (k' = k)) as [->|Hne].
    + rewrite IH. destruct (child_name l k) as [n|]; simpl; [|done].
      by rewrite bool_decide_eq_true_2.
    + rewrite children_cons, IH.
      destruct (child_name l k') as [n'|] eqn:E'; [|done].
      destruct (child_name l k) as [n|] eqn:E; simpl; [|done].
      rewrite bool_decide_eq_false_2; [done|].
      intros ->. apply child_name_Some in E, E'. congruence.
Qed.

Lemma NoDup_children fs l : NoDup fs.*1 -> NoDup (children fs l).
Proof.
  induction fs as [|[k m] fs IH]; [constructor|].
  rewrite children_cons, fmap_cons. intros [Hnin Hnd]%NoDup_cons. simpl in Hnin.
  destruct (child_name l k) as [n|] eqn:E; [|by auto].
  apply NoDup_cons. split; [|by auto].
  apply child_name_Some in E. subst k.
  by rewrite (elem_of_children fs l n).
Qed.

(** ** stat *)

Lemma fs_lookup_app fs fs' l :
  fs_lookup (fs ++ fs') l =
  match fs_lookup fs l with Some n => Some n | None => fs_lookup fs' l end.
Proof. destruct l; [done|]. apply assoc_app. Qed.

Lemma fs_lookup_delete fs k l :
  k <> [] ->
  fs_lookup (fs_delete k fs) l = if decide (l = k) then None else fs_lookup fs l.
Proof.
  intros Hk. destruct l as [|a l]; simpl.
  - by rewrite decide_False.
  - rewrite assoc_delete. repeat case_decide; simplify_eq; done.
Qed.

Lemma fs_lookup_replace fs k n l :
  k <> [] ->
  fs_lookup (fs_replace k n fs) l =
  if decide (l = k) then (fun _ => n) <$> fs_lookup fs k else fs_lookup fs l.
Proof.
  intros Hk. destruct l as [|a l]; simpl.
  - by rewrite decide_False.
  - rewrite assoc_replace. repeat case_decide; simplify_eq; done.
Qed.

Lemma stat_from_snoc fs cur rest n :
  stat_from fs cur (rest ++ [n]) =
  match stat_from fs cur rest with
  | inl e => inl e
  | inr Dir =>
      match fs_lookup fs (cur ++ rest ++ [n]) with
      | Some x => inr x
      | None => inl FileNotFoundError
      end
  | inr (File _ _) => inl NotADirectoryError
  end.
Proof.
  revert cur. induction rest as [|c rest IH]; intros cur; simpl.
  - destruct (fs_lookup fs cur) as [[|]|]; done.
  - destruct (fs_lookup fs cur) as [[|]|]; try done.
    rewrite IH. by rewrite <- app_assoc.
Qed.

Lemma stat_nil fs : stat fs [] = inr Dir.
Proof. done. Qed.

Lemma stat_snoc fs l n :
  stat fs (l ++ [n]) =
  match stat fs l with
  | inl e => inl e
  | inr Dir =>
      match fs_lookup fs (l ++ [n]) with
      | Some x => inr x
      | None => inl FileNotFoundError
      end
  | inr (File _ _) => inl NotADirectoryError
  end.
Proof. apply stat_from_snoc. Qed.

Lemma stat_lookup fs l n : stat fs l = inr n -> fs_lookup fs l = Some n.
Proof.
  destruct l as [|a l _] using rev_ind; [by intros [= <-]|].
  rewrite stat_snoc. destruct (stat fs l) as [|[|]]; try done.
  by destruct (fs_lookup fs (l ++ [a])); intros [= ->].
Qed.

Lemma stat_parent fs l n :
  l <> [] -> stat fs l = inr n -> stat fs (removelast l) = inr Dir.
Proof.
  destruct l as [|a l _] using rev_ind; [done|]. intros _.
  rewrite removelast_last, stat_snoc.
  by destruct (stat fs l) as [|[|]].
Qed.

Lemma stat_child fs l a :
  stat fs l = inr Dir ->
  stat fs (l ++ [a]) =
  match fs_lookup fs (l ++ [a]) with Some x => inr x | None => inl FileNotFoundError end.
Proof. intros H. by rewrite stat_snoc, H. Qed.

(** Two tables with the same directories agree on which locations [stat]
    reaches as directories. *)
Definition same_dirs (fs fs' : filesystem) : Prop :=
  forall l, fs_lookup fs l = Some Dir <-> fs_lookup fs' l = Some Dir.

Lemma same_dirs_refl fs : same_dirs fs fs.
Proof. by intros l. Qed.

Lemma same_dirs_trans fs1 fs2 fs3 :
  same_dirs fs1 fs2 -> same_dirs fs2 fs3 -> same_dirs fs1 fs3.
Proof. intros H1 H2 l. by rewrite (H1 l). Qed.

Lemma same_dirs_sym fs1 fs2 : same_dirs fs1 fs2 -> same_dirs fs2 fs1.
Proof. intros H l. by rewrite (H l). Qed.

Lemma stat_Dir_lookups fs l :
  stat fs l = inr Dir <-> forall p, p `prefix_of` l -> fs_lookup fs p = Some Dir.
Proof.
  induction l as [|a l IH] using rev_ind.
  - split; [|done]. intros _ p Hp. by apply prefix_nil_inv in Hp as ->.
  - rewrite stat_snoc. split.
    + intros H p Hp. destruct (stat fs l) as [|[|]] eqn:E; try done.
      destruct (fs_lookup fs (l ++ [a])) eqn:El; [|done].
      injection H as ->.
      destruct (decide (p = l ++ [a])) as [->|Hne]; [done|].
      apply IH; [done|]. destruct Hp as [k Hk].
      destruct k as [|b k _] using rev_ind.
      * rewrite app_nil_r in Hk. congruence.
      * rewrite app_assoc in Hk. apply app_inj_tail in Hk as [-> _].
        by eexists.
    + intros H. assert (stat fs l = inr Dir) as ->.
      { apply IH. intros p Hp. apply H. by apply prefix_app_r. }
      by rewrite (H (l ++ [a])).
Qed.

Lemma same_dirs_stat_Dir fs fs' l :
  same_dirs fs fs' -> stat fs l = inr Dir -> stat fs' l = inr Dir.
Proof.
  intros Hs. rewrite !stat_Dir_lookups. intros H p Hp. apply Hs. auto.
Qed.

(** ** Well-formed file systems *)

(** No location is bound twice, every component is an entry name, and the
    parent of every entry is a directory. *)
Definition wf_fs (fs : filesystem) : Prop :=
  NoDup fs.*1 ∧
  Forall (fun k => Forall valid_name k ∧ fs_lookup fs (removelast k) = Some Dir)
         fs.*1.

Definition wf (s : state) : Prop :=
  wf_fs (st_fs s) ∧ Forall valid_name (st_cwd s).

#[global] Instance wf_fs_dec fs : Decision (wf_fs fs).
Proof. unfold wf_fs. apply _. Defined.

#[global] Instance wf_dec s : Decision (wf s).
Proof. unfold wf. apply _. Defined.

Lemma wf_fs_key fs k :
  wf_fs fs -> k ∈ fs.*1 ->
  Forall valid_name k ∧ fs_lookup fs (removelast k) = Some Dir.
Proof. intros [_ H] Hk. rewrite Forall_forall in H. auto. Qed.

Lemma fs_lookup_key fs l n : l <> [] -> fs_lookup fs l = Some n -> l ∈ fs.*1.
Proof.
  intros Hl H. destruct l; [done|]. apply assoc_is_Some. by eexists.
Qed.

Lemma wf_stat fs l n : wf_fs fs -> fs_lookup fs l = Some n -> stat fs l = inr n.
Proof.
  intros Hwf. revert n. induction l as [|a l IH] using rev_ind; intros n H.
  - by injection H as <-.
  - assert (l ++ [a] ∈ fs.*1) as Hk.
    { apply (fs_lookup_key _ _ n); [by destruct l | done]. }
    apply (wf_fs_key _ _ Hwf) in Hk as [_ Hp].
    rewrite removelast_last in Hp. rewrite stat_snoc, (IH _ Hp). by rewrite H.
Qed.

Lemma wf_stat_iff fs l n :
  wf_fs fs -> stat fs l = inr n <-> fs_lookup fs l = Some n.
Proof. intros Hwf. split; [apply stat_lookup | by apply wf_stat]. Qed.

Lemma wf_stat_None fs l : fs_lookup fs l = None -> exists e, stat fs l = inl e.
Proof.
  intros H. destruct (stat fs l) as [e|n] eqn:E; [by eauto|].
  apply stat_lookup in E. congruence.
Qed.

Lemma wf_valid_key fs l n :
  wf_fs fs -> fs_lookup fs l = Some n -> Forall valid_name l.
Proof.
  intros Hwf H. destruct l as [|a l]; [constructor|].
  apply (wf_fs_key fs); [done|]. by apply (fs_lookup_key _ _ n).
Qed.

Lemma wf_fs_app fs l n :
  wf_fs fs -> fs_lookup fs l = None -> Forall valid_name l ->
  fs_lookup fs (removelast l) = Some Dir ->
  wf_fs (fs ++ [(l, n)]).
Proof.
  intros [Hnd Hcl] Hnone Hv Hp. split.
  - rewrite fmap_app. apply NoDup_app. split; [done|]. split.
    + intros k Hk [->|[]%elem_of_nil]%elem_of_cons.
      destruct l; [done|]. simpl in Hnone. by apply assoc_None in Hnone.
    + apply NoDup_singleton.
  - rewrite fmap_app. apply Forall_app. split.
    + eapply Forall_impl; [exact Hcl|]. intros k [Hvk Hpk]. split; [done|].
      by rewrite fs_lookup_app, Hpk.
    + constructor; [|constructor]. simpl. split; [done|].
      by rewrite fs_lookup_app, Hp.
Qed.

Lemma wf_fs_delete fs l :
  wf_fs fs -> l <> [] ->
  (forall k, k ∈ fs.*1 -> k <> [] -> removelast k <> l) ->
  wf_fs (fs_delete l fs).
Proof.
  intros [Hnd Hcl] Hl Hch. split; [by apply NoDup_keys_delete|].
  apply Forall_forall. intros k [Hk Hne]%elem_of_keys_delete.
  rewrite Forall_forall in Hcl. destruct (Hcl k Hk) as [Hv Hp].
  split; [done|]. rewrite fs_lookup_delete by done.
  case_decide as He; [|done].
  destruct (decide (k = [])) as [->|Hk0]; [by simpl in He; subst|].
  by destruct (Hch k).
Qed.

Lemma wf_fs_delete_file fs l c r :
  wf_fs fs -> fs_lookup fs l = Some (File c r) -> wf_fs (fs_delete l fs).
Proof.
  intros Hwf H. apply wf_fs_delete; [done|by intros ->|].
  intros k Hk Hk0 He. apply (wf_fs_key _ _ Hwf) in Hk as [_ Hp].
  congruence.
Qed.

Lemma wf_fs_delete_empty fs l :
  wf_fs fs -> l <> [] -> children fs l = [] -> wf_fs (fs_delete l fs).
Proof.
  intros Hwf Hl Hc. apply wf_fs_delete; [done..|].
  intros k Hk Hk0 He. destruct k as [|a k _] using rev_ind; [done|].
  rewrite removelast_last in He. subst k.
  apply elem_of_children in Hk. rewrite Hc in Hk. by apply elem_of_nil in Hk.
Qed.

Lemma wf_fs_replace fs l c r c' r' :
  wf_fs fs -> fs_lookup fs l = Some (File c r) ->
  wf_fs (fs_replace l (File c' r') fs).
Proof.
  intros [Hnd Hcl] H. assert (l <> []) as Hl by (by intros ->).
  split; rewrite keys_replace; [done|].
  eapply Forall_impl; [exact Hcl|]. intros k [Hv Hp]. split; [done|].
  rewrite fs_lookup_replace by done.
  case_decide as He; [|done]. congruence.
Qed.

(** ** The monad *)

Lemma bind_unfold {A B} (m : M A) (k : A -> M B) s :
  (m ≫= k) s =
  match m s with
  | (inr x, s') => k x s'
  | (inl e, s') => (inl e, s')
  end.
Proof. done. Qed.

Lemma bind_ok {A B} (m : M A) (k : A -> M B) s x s' :
  m s = (inr x, s') -> (m ≫= k) s = k x s'.
Proof. intros H. by rewrite bind_unfold, H. Qed.

Lemma bind_err {A B} (m : M A) (k : A -> M B) s e s' :
  m s = (inl e, s') -> (m ≫= k) s = (inl e, s').
Proof. intros H. by rewrite bind_unfold, H. Qed.

Lemma bind_inv {A B} (m : M A) (k : A -> M B) s r s' :
  (m ≫= k) s = (r, s') ->
  (exists e, m s = (inl e, s') ∧ r = inl e) ∨
  (exists x s1, m s = (inr x, s1) ∧ k x s1 = (r, s')).
Proof.
  rewrite bind_unfold. destruct (m s) as [[e|x] s1].
  - intros [= <- <-]. left. by eauto.
  - intros H. right. by eauto.
Qed.

Lemma bind_inv_ok {A B} (m : M A) (k : A -> M B) s y s' :
  (m ≫= k) s = (inr y, s') ->
  exists x s1, m s = (inr x, s1) ∧ k x s1 = (inr y, s').
Proof. intros [(e & _ & [=])|H]%bind_inv; done. Qed.

(** A relation between the state before and the state after, whatever
    the outcome. *)
Definition steps {A} (R : state -> state -> Prop) (m : M A) : Prop :=
  forall s r s', m s = (r, s') -> R s s'.

Section Steps.
Context (R : state -> state -> Prop).
Hypothesis R_refl : forall s, R s s.
Hypothesis R_trans : forall s1 s2 s3, R s1 s2 -> R s2 s3 -> R s1 s3.

Lemma steps_ret {A} (x : A) : steps R (mret x).
Proof. intros s r s' [= <- <-]. apply R_refl. Qed.

Lemma steps_raise {A} e : steps R (@raise A e).
Proof. intros s r s' [= <- <-]. apply R_refl. Qed.

Lemma steps_bind {A B} (m : M A) (k : A -> M B) :
    steps R m -> (forall x, steps R (k x)) -> steps R (m ≫= k).
Proof.
  intros Hm Hk s r s' [(e & H & _)|(x & s1 & H1 & H2)]%bind_inv.
  - by eapply Hm.
  - eapply R_trans; [by eapply Hm | by eapply Hk].
Qed.

Lemma steps_catch {A} (m : M A) h :
    steps R m -> (forall e, steps R (h e)) -> steps R (catch m h).
Proof.
  intros Hm Hh s r s'. unfold catch. destruct (m s) as [[e|x] s1] eqn:E.
  - intros H. eapply R_trans; [by eapply Hm | by eapply Hh].
  - intros [= <- <-]. by eapply Hm.
Qed.

Lemma steps_for_each {A} (xs : list A) body :
    (forall x, x ∈ xs -> steps R (body x)) -> steps R (for_each xs body).
Proof.
  induction xs as [|x xs IH]; intros Hb; simpl.
  - apply (steps_ret tt).
  - apply steps_bind; [apply Hb; left|]. intros _. apply IH.
    intros y Hy. apply Hb. by right.
Qed.

Lemma steps_for_fold {A B} (xs : list A) (acc : B) body :
    (forall acc x, x ∈ xs -> steps R (body acc x)) -> steps R (for_fold xs acc body).
Proof.
  revert acc. induction xs as [|x xs IH]; intros acc Hb; simpl.
  - apply (steps_ret acc).
  - apply steps_bind; [apply Hb; left|]. intros acc'. apply IH.
    intros acc'' y Hy. apply Hb. by right.
Qed.

Lemma steps_query {A} (f : filesystem -> loc -> A) p : steps R (query f p).
Proof. intros s r s' [= <- <-]. apply R_refl. Qed.

Lemma steps_call {A} (f : filesystem -> loc -> exn + A) p : steps R (call f p).
Proof. intros s r s' [= <- <-]. apply R_refl. Qed.
End Steps.

(** ** Primitive steps *)

Lemma mutate_inv f p s r s' :
  mutate f p s = (r, s') ->
  (exists e, f (st_fs s) (abspath (st_cwd s) p) = inl e ∧ r = inl e ∧ s' = s) ∨
  (exists fs', f (st_fs s) (abspath (st_cwd s) p) = inr fs' ∧ r = inr tt ∧
               s' = mkState (st_cwd s) fs' (st_log s)).
Proof.
  unfold mutate, update.
  destruct (f (st_fs s) (abspath (st_cwd s) p)) as [e|fs'];
    intros [= <- <-]; [left|right]; by eauto.
Qed.

Lemma query_eq {A} (f : filesystem -> loc -> A) p s :
  query f p s = (inr (f (st_fs s) (abspath (st_cwd s) p)), s).
Proof. done. Qed.

Lemma call_eq {A} (f : filesystem -> loc -> exn + A) p s :
  call f p s = (f (st_fs s) (abspath (st_cwd s) p), s).
Proof. done. Qed.

Definition valid_path (p : Path) : Prop := Forall valid_name (parts p).

Lemma valid_path_PurePath s : valid_path (PurePath s).
Proof. apply parts_valid. Qed.

Lemma valid_path_truediv p s : valid_path p -> valid_path (p </> s).
Proof.
  intros Hp. unfold truediv, valid_path.
  destruct (anchor (PurePath s)); [apply parts_valid|]. simpl.
  apply Forall_app. split; [done | apply parts_valid].
Qed.

Lemma valid_abspath cwd p :
  Forall valid_name cwd -> valid_path p -> Forall valid_name (abspath cwd p).
Proof.
  intros Hc Hp. unfold abspath. destruct (anchor p); [done|].
  by apply Forall_app.
Qed.

(** What the directory-making steps do: the table grows at its end by
    directories, and nothing else changes. *)
Definition grows (s s' : state) : Prop :=
  st_cwd s' = st_cwd s ∧ st_log s' = st_log s ∧
  (exists new, st_fs s' = st_fs s ++ new ∧ Forall (fun kn => kn.2 = Dir) new) ∧
  (wf s -> wf s').

Lemma grows_refl s : grows s s.
Proof.
  unfold grows. split_and!; try done. exists []. by rewrite app_nil_r.
Qed.

Lemma grows_trans s1 s2 s3 : grows s1 s2 -> grows s2 s3 -> grows s1 s3.
Proof.
  intros (Hc1 & Hl1 & (n1 & Hf1 & Hd1) & Hw1) (Hc2 & Hl2 & (n2 & Hf2 & Hd2) & Hw2).
  unfold grows. split_and!; [congruence | congruence | | by auto].
  exists (n1 ++ n2). split; [by rewrite Hf2, Hf1, app_assoc|].
  by apply Forall_app.
Qed.

Lemma sys_mkdir_inv fs l fs' :
  sys_mkdir fs l = inr fs' ->
  l <> [] ∧ stat fs (removelast l) = inr Dir ∧ fs_lookup fs l = None ∧
  fs' = fs ++ [(l, Dir)].
Proof.
  unfold sys_mkdir. destruct l as [|a l]; [done|].
  destruct (stat fs (removelast (a :: l))) as [|[|]]; try done.
  destruct (fs_lookup fs (a :: l)); [done|]. by intros [= <-].
Qed.

Lemma os_mkdir_grows p : valid_path p -> steps grows (os_mkdir p).
Proof.
  intros Hp s r s' [(e & _ & _ & ->)|(fs' & H & _ & ->)]%mutate_inv.
  - apply grows_refl.
  - apply sys_mkdir_inv in H as (Hl & Hst & Hnone & ->).
    unfold grows. split_and!; simpl; [done | done | |].
    + exists [(abspath (st_cwd s) p, Dir)]. split; [done|]. by repeat constructor.
    + intros [Hwf Hcwd]. split; [|done]. simpl.
      apply wf_fs_app; [done..| |by apply stat_lookup].
      by apply valid_abspath.
Qed.

Lemma is_dir_grows p : steps grows (is_dir p).
Proof. apply steps_query, grows_refl. Qed.

Lemma mkdir_one_grows p ok : valid_path p -> steps grows (mkdir_one p ok).
Proof.
  intros Hp. apply steps_catch; [apply grows_trans | by apply os_mkdir_grows |].
  intros e. destruct e;
    try apply (steps_raise _ grows_refl);
    (apply steps_bind; [apply grows_trans | apply is_dir_grows |]);
    intros d; destruct (ok && d);
    first [apply (steps_ret _ grows_refl) | apply (steps_raise _ grows_refl)].
Qed.

Lemma mkdir_parents_grows a rp ok :
  Forall valid_name rp -> steps grows (mkdir_parents a rp ok).
Proof.
  revert ok. induction rp as [|c rp IH]; intros ok Hv; simpl.
  - apply steps_catch; [apply grows_trans | |].
    { apply os_mkdir_grows. constructor. }
    intros e. destruct e;
      try apply (steps_raise _ grows_refl);
      (apply steps_bind; [apply grows_trans | apply is_dir_grows |]);
      intros d; destruct (ok && d);
      first [apply (steps_ret _ grows_refl) | apply (steps_raise _ grows_refl)].
  - assert (valid_path {| anchor := a; parts := rev rp ++ [c] |}) as Hself.
    { unfold valid_path; simpl. apply Forall_app. split.
      - apply Forall_rev. by inversion Hv.
      - constructor; [by inversion Hv | constructor]. }
    apply steps_catch; [apply grows_trans | by apply os_mkdir_grows |].
    intros e. destruct e;
      try (apply steps_bind; [apply grows_trans | apply is_dir_grows |];
           intros d; destruct (ok && d);
           first [apply (steps_ret _ grows_refl) | apply (steps_raise _ grows_refl)]).
    apply steps_bind; [apply grows_trans | |].
    + apply IH. by inversion Hv.
    + intros _. by apply mkdir_one_grows.
Qed.

Lemma path_mkdir_parents_grows p :
  valid_path p -> steps grows (path_mkdir_parents p).
Proof.
  intros Hp. apply mkdir_parents_grows. by apply Forall_rev.
Qed.

Lemma path_exists_grows p : steps grows (path_exists p).
Proof. apply steps_query, grows_refl. Qed.

(** The working directory never changes. *)
Definition same_cwd (s s' : state) : Prop := st_cwd s' = st_cwd s.

Lemma same_cwd_refl s : same_cwd s s.
Proof. done. Qed.

Lemma same_cwd_trans s1 s2 s3 : same_cwd s1 s2 -> same_cwd s2 s3 -> same_cwd s1 s3.
Proof. unfold same_cwd. congruence. Qed.

Lemma mutate_same_cwd f p : steps same_cwd (mutate f p).
Proof. by intros s r s' [(e & _ & _ & ->)|(fs' & _ & _ & ->)]%mutate_inv. Qed.

Lemma os_rename_same_cwd src dst : steps same_cwd (os_rename src dst).
Proof. intros s r s' H. by apply (mutate_same_cwd _ _ _ _ _ H). Qed.

Lemma logging_info_same_cwd e : steps same_cwd (logging_info e).
Proof. by intros s r s' [= <- <-]. Qed.

(** Goals [steps R m] for a computation built from the primitives. *)
Ltac steps_tac refl trans prim :=
  repeat first
    [ apply (steps_ret _ refl)
    | apply (steps_raise _ refl)
    | apply (steps_query _ refl)
    | apply (steps_call _ refl)
    | prim
    | apply steps_bind; [exact trans | | intros ?]
    | apply steps_catch; [exact trans | | intros ?]
    | apply steps_for_each; [exact refl | exact trans | intros ? ?]
    | apply steps_for_fold; [exact refl | exact trans | intros ? ? ?]
    | match goal with
      | |- steps _ (match ?x with _ => _ end) => destruct x
      end ].

Ltac cwd_prim :=
  first [ apply mutate_same_cwd | apply os_rename_same_cwd
        | apply logging_info_same_cwd ].

Ltac cwd_tac := steps_tac same_cwd_refl same_cwd_trans cwd_prim.

Lemma mkdir_one_same_cwd p ok : steps same_cwd (mkdir_one p ok).
Proof. unfold mkdir_one, os_mkdir, is_dir. cwd_tac. Qed.

Lemma mkdir_parents_same_cwd a rp ok : steps same_cwd (mkdir_parents a rp ok).
Proof.
  revert ok. induction rp as [|c rp IH]; intros ok; simpl;
    unfold os_mkdir, is_dir; cwd_tac; first [apply IH | apply mkdir_one_same_cwd].
Qed.

Lemma shutil_move_same_cwd src dst : steps same_cwd (shutil_move src dst).
Proof.
  unfold shutil_move, shutil_copy2, is_dir, path_exists, read_bytes,
    write_bytes, os_remove. cwd_tac.
Qed.

Lemma catch_inv {A} (m : M A) h s r s' :
  catch m h s = (r, s') ->
  (exists x, m s = (inr x, s') ∧ r = inr x) ∨
  (exists e s1, m s = (inl e, s1) ∧ h e s1 = (r, s')).
Proof.
  unfold catch. destruct (m s) as [[e|x] s1].
  - intros H. right. by eauto.
  - intros [= <- <-]. left. by eauto.
Qed.

Lemma grows_lookup s s' l n :
  grows s s' -> fs_lookup (st_fs s) l = Some n -> fs_lookup (st_fs s') l = Some n.
Proof.
  intros (_ & _ & (new & -> & _) & _) H. by rewrite fs_lookup_app, H.
Qed.

Lemma lookup_all_dirs new l n :
  Forall (fun kn : loc * node => kn.2 = Dir) new ->
  fs_lookup new l = Some n -> n = Dir.
Proof.
  intros Hd H. destruct l as [|a l]; [by injection H|].
  apply assoc_Some_elem in H. rewrite Forall_forall in Hd.
  by apply Hd in H.
Qed.

Lemma grows_lookup_inv s s' l :
  grows s s' ->
  fs_lookup (st_fs s') l = fs_lookup (st_fs s) l ∨
  (fs_lookup (st_fs s) l = None ∧ fs_lookup (st_fs s') l = Some Dir).
Proof.
  intros (_ & _ & (new & -> & Hd) & _). rewrite fs_lookup_app.
  destruct (fs_lookup (st_fs s) l) as [n|] eqn:E; [by left|].
  destruct (fs_lookup new l) as [n|] eqn:E'; [|by left].
  right. split; [done|]. f_equal. by eapply lookup_all_dirs.
Qed.

Lemma grows_file s s' l c r :
  grows s s' ->
  fs_lookup (st_fs s') l = Some (File c r) <-> fs_lookup (st_fs s) l = Some (File c r).
Proof.
  intros Hg. split; [|by apply grows_lookup].
  destruct (grows_lookup_inv _ _ l Hg) as [->|[_ ->]]; done.
Qed.

Lemma os_mkdir_ok p s s' :
  os_mkdir p s = (inr tt, s') ->
  fs_lookup (st_fs s') (abspath (st_cwd s) p) = Some Dir.
Proof.
  intros [(e & _ & [=] & _)|(fs' & H & _ & ->)]%mutate_inv.
  apply sys_mkdir_inv in H as (Hl & _ & Hnone & ->). simpl.
  rewrite fs_lookup_app, Hnone. destruct (abspath (st_cwd s) p); [done|].
  simpl. by rewrite decide_True.
Qed.

Lemma mkdir_one_ok p s s' :
  mkdir_one p false s = (inr tt, s') ->
  fs_lookup (st_fs s') (abspath (st_cwd s) p) = Some Dir.
Proof.
  intros [(x & H & _)|(e & s1 & H1 & H2)]%catch_inv.
  - destruct x. by apply os_mkdir_ok.
  - destruct e; try done; by apply bind_inv_ok in H2 as (d & s2 & _ & [=]).
Qed.

Lemma mkdir_parents_ok a rp s s' :
  mkdir_parents a rp false s = (inr tt, s') ->
  fs_lookup (st_fs s') (abspath (st_cwd s) (mkPath a (rev rp))) = Some Dir.
Proof.
  destruct rp as [|c rp]; simpl.
  - intros [(x & H & _)|(e & s1 & H1 & H2)]%catch_inv.
    + destruct x. by apply os_mkdir_ok in H.
    + destruct e; try done; by apply bind_inv_ok in H2 as (d & s2 & _ & [=]).
  - intros [(x & H & _)|(e & s1 & H1 & H2)]%catch_inv.
    + destruct x. by apply os_mkdir_ok in H.
    + destruct e; try (by apply bind_inv_ok in H2 as (d & s2 & _ & [=])).
      apply bind_inv_ok in H2 as ([] & s2 & Hp & Hone).
      apply mkdir_one_ok in Hone.
      assert (st_cwd s2 = st_cwd s) as Hc; [|by rewrite Hc in Hone].
      transitivity (st_cwd s1).
      * by apply mkdir_parents_same_cwd in Hp.
      * by apply mutate_inv in H1 as [(? & _ & _ & ->)|(? & _ & [=] & _)].
Qed.

(** ** Renaming and removing files *)

(** The table after a regular file moved from [S] to [T]. *)
Definition renamed (fs : filesystem) (S T : loc) (c : list byte) (r : bool)
  : filesystem :=
  if decide (S = T) then fs
  else match fs_lookup fs T with
       | Some _ => fs_replace T (File c r) (fs_delete S fs)
       | None => fs_delete S fs ++ [(T, File c r)]
       end.

Lemma sys_rename_inv fs S T fs' :
  sys_rename fs S T = inr fs' ->
  exists c r, stat fs S = inr (File c r) ∧ T <> [] ∧
    stat fs (removelast T) = inr Dir ∧ fs_lookup fs T <> Some Dir ∧
    fs' = renamed fs S T c r.
Proof.
  unfold sys_rename, renamed. destruct (stat fs S) as [|[c r|]] eqn:ES; try done.
  destruct T as [|a T]; [done|].
  destruct (stat fs (removelast (a :: T))) as [|[|]] eqn:EP; try done.
  destruct (fs_lookup fs (a :: T)) as [[c' r'|]|] eqn:ET; try done.
  - intros H. exists c, r. split_and!; try done.
    by destruct (decide (S = a :: T)); injection H as <-.
  - intros [= <-]. exists c, r. split_and!; try done.
    rewrite decide_False; [done|]. intros ->.
    apply stat_lookup in ES. congruence.
Qed.

Lemma fs_lookup_single k n l :
  l <> [] -> fs_lookup [(k, n)] l = if decide (l = k) then Some n else None.
Proof.
  intros Hl. destruct l; [done|]. simpl.
  repeat case_decide; simplify_eq; done.
Qed.

Lemma renamed_lookup fs S T c r l :
  fs_lookup fs S = Some (File c r) -> T <> [] ->
  fs_lookup (renamed fs S T c r) l =
  if decide (l = T) then Some (File c r)
  else if decide (l = S) then None else fs_lookup fs l.
Proof.
  intros HS HT. assert (S <> []) as HS0 by (by intros ->).
  unfold renamed. destruct (decide (S = T)) as [<-|Hne].
  - repeat case_decide; simplify_eq; done.
  - destruct (fs_lookup fs T) as [n|] eqn:ET.
    + rewrite fs_lookup_replace, !fs_lookup_delete by done.
      repeat case_decide; simplify_eq; try done. by rewrite ET.
    + rewrite fs_lookup_app, !fs_lookup_delete by done.
      repeat case_decide; simplify_eq.
      * rewrite fs_lookup_single by done. by rewrite decide_False.
      * rewrite ET, fs_lookup_single by done. by rewrite decide_True.
      * destruct (fs_lookup fs l) eqn:El; [done|].
        assert (l <> []) by (by intros ->).
        rewrite fs_lookup_single by done. by rewrite decide_False.
Qed.

Lemma renamed_wf fs S T c r :
  wf_fs fs -> fs_lookup fs S = Some (File c r) -> T <> [] ->
  fs_lookup fs (removelast T) = Some Dir -> fs_lookup fs T <> Some Dir ->
  Forall valid_name T ->
  wf_fs (renamed fs S T c r).
Proof.
  intros Hwf HS HT HP HD Hv. assert (S <> []) as HS0 by (by intros ->).
  unfold renamed. destruct (decide (S = T)) as [<-|Hne]; [done|].
  pose proof (wf_fs_delete_file _ _ _ _ Hwf HS) as Hwf'.
  destruct (fs_lookup fs T) as [[c' r'|]|] eqn:ET; [|done|].
  - eapply wf_fs_replace; [done|].
    rewrite fs_lookup_delete by done. rewrite decide_False by done. exact ET.
  - apply wf_fs_app; [done| |done|].
    + rewrite fs_lookup_delete by done. by rewrite decide_False.
    + rewrite fs_lookup_delete by done. case_decide; [congruence|done].
Qed.

Lemma renamed_same_dirs fs S T c r :
  fs_lookup fs S = Some (File c r) -> T <> [] ->
  fs_lookup fs T <> Some Dir ->
  same_dirs fs (renamed fs S T c r).
Proof.
  intros HS HT HD l. rewrite renamed_lookup by done.
  repeat case_decide; simplify_eq; try done; split; congruence.
Qed.

Lemma sys_rename_fail_write fs S T e c r c' :
  sys_rename fs S T = inl e -> stat fs S = inr (File c r) ->
  exists e', sys_write fs T c' = inl e'.
Proof.
  unfold sys_rename, sys_write. intros H HS. rewrite HS in H.
  destruct T as [|a T]; [by eauto|].
  destruct (stat fs (removelast (a :: T))) as [|[|]]; [by eauto..|].
  destruct (fs_lookup fs (a :: T)) as [[|]|]; [|by eauto|done].
  by destruct (decide (S = a :: T)).
Qed.

Lemma sys_unlink_inv fs l fs' :
  sys_unlink fs l = inr fs' ->
  exists c r, stat fs l = inr (File c r) ∧ fs' = fs_delete l fs.
Proof.
  unfold sys_unlink. destruct (stat fs l) as [|[c r|]]; try done.
  intros [= <-]. by eauto.
Qed.

Lemma sys_rmdir_inv fs l fs' :
  sys_rmdir fs l = inr fs' ->
  stat fs l = inr Dir ∧ l <> [] ∧ children fs l = [] ∧ fs' = fs_delete l fs.
Proof.
  unfold sys_rmdir. destruct (stat fs l) as [|[c r|]]; try done.
  destruct l as [|a l]; [done|]. destruct (children fs (a :: l)); [|done].
  by intros [= <-].
Qed.

Lemma os_rename_inv src dst s r s' :
  os_rename src dst s = (r, s') ->
  let S := abspath (st_cwd s) src in
  let T := abspath (st_cwd s) dst in
  (exists e, sys_rename (st_fs s) S T = inl e ∧ r = inl e ∧ s' = s) ∨
  (exists fs', sys_rename (st_fs s) S T = inr fs' ∧ r = inr tt ∧
               s' = mkState (st_cwd s) fs' (st_log s)).
Proof. unfold os_rename. intros H. by apply mutate_inv in H. Qed.

(** [shutil.move] of a regular file either raises and changes nothing, or
    renames the file onto the destination, or under its own name into the
    destination when that is a directory. *)
Definition move_target (fs : filesystem) (T : loc) (name : string) : loc :=
  match stat fs T with
  | inr Dir => T ++ [name]
  | _ => T
  end.

Lemma shutil_move_inv src dst s c r res s' :
  stat (st_fs s) (abspath (st_cwd s) src) = inr (File c r) ->
  shutil_move src dst s = (res, s') ->
  (exists e, res = inl e ∧ s' = s) ∨
  (res = inr tt ∧
   let S := abspath (st_cwd s) src in
   let T := abspath (st_cwd s) dst in
   let real := move_target (st_fs s) T (basename src) in
   (stat (st_fs s) T = inr Dir -> stat (st_fs s) real = inl FileNotFoundError) ∧
   real <> [] ∧ stat (st_fs s) (removelast real) = inr Dir ∧
   fs_lookup (st_fs s) real <> Some Dir ∧
   s' = mkState (st_cwd s) (renamed (st_fs s) S real c r) (st_log s)).
Proof.
  intros HS. unfold shutil_move, is_dir, path_exists.
  rewrite bind_unfold, query_eq.
  set (T := abspath (st_cwd s) dst). set (S := abspath (st_cwd s) src) in *.
  assert (forall real : Path, forall Hd : Prop,
    abspath (st_cwd s) real = move_target (st_fs s) T (basename src) ->
    (stat (st_fs s) T = inr Dir ->
       stat (st_fs s) (move_target (st_fs s) T (basename src)) = inl FileNotFoundError) ->
    catch (os_rename src real)
      (fun _ => shutil_copy2 src real ;; os_remove src) s = (res, s') ->
    (exists e, res = inl e ∧ s' = s) ∨
    (res = inr tt ∧
     (stat (st_fs s) T = inr Dir ->
       stat (st_fs s) (move_target (st_fs s) T (basename src)) = inl FileNotFoundError) ∧
     move_target (st_fs s) T (basename src) <> [] ∧
     stat (st_fs s) (removelast (move_target (st_fs s) T (basename src))) = inr Dir ∧
     fs_lookup (st_fs s) (move_target (st_fs s) T (basename src)) <> Some Dir ∧
     s' = mkState (st_cwd s) (renamed (st_fs s) S (move_target (st_fs s) T (basename src)) c r) (st_log s))) as Hren.
  { intros real _ Hreal Hfree [(x & H & ->)|(e & s1 & H1 & H2)]%catch_inv.
    - right. destruct x.
      apply os_rename_inv in H as [(e & _ & [=] & _)|(fs' & H & _ & ->)].
      rewrite Hreal in H. fold S in H.
      apply sys_rename_inv in H as (c0 & r0 & HS' & Hne & Hp & Hnd & ->).
      rewrite HS in HS'. injection HS' as <- <-. by split_and!.
    - left. apply os_rename_inv in H1 as [(e0 & H & _ & ->)|(? & _ & [=] & _)].
      rewrite Hreal in H. fold S in H.
      unfold shutil_copy2, read_bytes, write_bytes in H2.
      apply bind_inv in H2 as [(e1 & H2 & ->)|(x & s2 & H2 & _)].
      + exists e1. split; [done|].
        apply bind_inv in H2 as [(e2 & H2 & _)|(data & s3 & Hrd & Hwr)].
        * rewrite call_eq in H2. by injection H2.
        * rewrite call_eq in Hrd. injection Hrd as Hrd <-.
          apply mutate_inv in Hwr as [(? & _ & _ & ->)|(fs' & Hw & _ & _)]; [done|].
          rewrite Hreal in Hw.
          destruct (sys_rename_fail_write _ _ _ _ _ _ data H HS) as [e' He'].
          congruence.
      + exfalso.
        apply bind_inv_ok in H2 as (data & s3 & Hrd & Hwr).
        rewrite call_eq in Hrd. injection Hrd as Hrd <-.
        apply mutate_inv in Hwr as [(? & _ & [=] & _)|(fs' & Hw & _ & _)].
        rewrite Hreal in Hw.
        destruct (sys_rename_fail_write _ _ _ _ _ _ data H HS) as [e' He'].
        congruence. }
  unfold move_target in *. fold T.
  destruct (stat (st_fs s) T) as [e|[c' r'|]] eqn:ET.
  - rewrite bind_unfold. simpl. apply (Hren dst True); done.
  - rewrite bind_unfold. simpl. apply (Hren dst True); done.
  - rewrite !bind_unfold, query_eq. simpl.
    replace (abspath (st_cwd s) {| anchor := anchor dst; parts := parts dst ++ [basename src] |})
      with (T ++ [basename src])
      by (unfold T, abspath; simpl; destruct (anchor dst); by rewrite ?app_assoc).
    destruct (stat (st_fs s) (T ++ [basename src])) as [e|n] eqn:EI.
    + simpl. intros H. eapply (Hren _ True); [| |exact H].
      * unfold abspath; simpl. unfold T, abspath.
        destruct (anchor dst); by rewrite ?app_assoc.
      * intros _. rewrite stat_child in EI by done.
        destruct (fs_lookup (st_fs s) (T ++ [basename src])); congruence.
    + simpl. intros [= <- <-]. left. by eauto.
Qed.

(** ** The organize stage *)

(** The folder a file name is routed to: the first one, in the order of
    the rules, one of whose suffixes ends the name. *)
Fixpoint classify (file : string) (folders : rules) : option string :=
  match folders with
  | [] => None
  | (folder, extensions) :: rest =>
      if any_endswith file extensions then Some folder
      else classify file rest
  end.

Definition is_reg (fs : filesystem) (l : loc) : bool :=
  match stat fs l with inr (File _ _) => true | _ => false end.

(** The moves of a pass over [files]: each regular file that has a folder,
    with that folder, in the order of the listing. *)
Definition moves (folders : rules) (fs : filesystem) (D : loc)
    (files : list string) : list (string * string) :=
  omap (fun f => if is_reg fs (D ++ [f])
                 then (fun F => (f, F)) <$> classify f folders
                 else None) files.

(** The counter after the given folders were counted one by one. *)
Definition tally (l : list string) : gmap string nat := foldl count_incr ∅ l.

Definition folder_loc (cwd : loc) (dd F : string) : loc :=
  abspath cwd (PurePath dd </> F).

Lemma classify_Some file folders F :
  classify file folders = Some F <->
  exists pre exts post,
    folders = pre ++ (F, exts) :: post ∧ any_endswith file exts = true ∧
    Forall (fun fe => any_endswith file fe.2 = false) pre.
Proof.
  induction folders as [|[F' exts'] folders IH]; simpl.
  - split; [done|]. intros (pre & exts & post & H & _). by destruct pre.
  - destruct (any_endswith file exts') eqn:E.
    + split.
      * intros [= ->]. exists [], exts', folders. by split_and!.
      * intros ([|[F'' e''] pre] & exts & post & H & Hm & Hpre).
        -- by injection H as -> _ _.
        -- injection H as -> -> _. inversion Hpre; subst. simpl in *. congruence.
    + rewrite IH. split.
      * intros (pre & exts & post & -> & Hm & Hpre).
        exists ((F', exts') :: pre), exts, post. split_and!; try done.
        by constructor.
      * intros ([|[F'' e''] pre] & exts & post & H & Hm & Hpre).
        -- injection H as -> -> _. congruence.
        -- injection H as -> -> ->. exists pre, exts, post.
           split_and!; try done. by inversion Hpre.
Qed.

Lemma move_to_first_eq dd file file_path folders file_counts :
  FileFix.move_to_first dd file file_path folders file_counts =
  match classify file folders with
  | None => mret file_counts
  | Some folder =>
      shutil_move file_path (PurePath dd </> folder </> file) ;;
      logging_info (Moved file folder) ;;
      mret (count_incr file_counts folder)
  end.
Proof.
  induction folders as [|[F exts] folders IH]; simpl; [done|].
  by destruct (any_endswith file exts).
Qed.

Lemma elem_of_moves folders fs D files f F :
  (f, F) ∈ moves folders fs D files <->
  f ∈ files ∧ is_reg fs (D ++ [f]) = true ∧ classify f folders = Some F.
Proof.
  unfold moves. rewrite list_elem_of_omap. split.
  - intros (g & Hg & H). destruct (is_reg fs (D ++ [g])) eqn:E; [|done].
    destruct (classify g folders) eqn:Ec; [|done]. simpl in H.
    injection H as -> ->. done.
  - intros (Hf & Hr & Hc). exists f. by rewrite Hr, Hc.
Qed.

Lemma moves_app folders fs D l1 l2 :
  moves folders fs D (l1 ++ l2) = moves folders fs D l1 ++ moves folders fs D l2.
Proof. apply omap_app. Qed.

Lemma moves_cons folders fs D f l :
  moves folders fs D (f :: l) = moves folders fs D [f] ++ moves folders fs D l.
Proof. apply (moves_app folders fs D [f] l). Qed.

Lemma moves_fst_subset folders fs D files f :
  f ∈ (moves folders fs D files).*1 -> f ∈ files.
Proof.
  intros ([f' F] & -> & H)%list_elem_of_fmap. by apply elem_of_moves in H as (? & _).
Qed.

Lemma NoDup_moves_fst folders fs D files :
  NoDup files -> NoDup (moves folders fs D files).*1.
Proof.
  induction files as [|f files IH]; [constructor|].
  intros [Hnin Hnd]%NoDup_cons.
  change (f :: files) with ([f] ++ files). rewrite moves_app, fmap_app.
  unfold moves at 1. simpl.
  destruct (is_reg fs (D ++ [f])); [|by apply IH].
  destruct (classify f folders); simpl; [|by apply IH].
  apply NoDup_cons. split; [|by apply IH].
  intros H. by apply moves_fst_subset in H.
Qed.

Lemma move_target_last fs T f :
  exists q, move_target fs (T ++ [f]) f = q ++ [f].
Proof.
  unfold move_target. destruct (stat fs (T ++ [f])) as [|[|]]; by eauto.
Qed.

Lemma move_target_same_dirs fs fs' T f :
  wf_fs fs -> wf_fs fs' -> same_dirs fs fs' ->
  move_target fs' T f = move_target fs T f.
Proof.
  intros Hwf Hwf' Hs. unfold move_target.
  destruct (stat fs T) as [e|[c r|]] eqn:E.
  - destruct (stat fs' T) as [e'|[c' r'|]] eqn:E'; try done.
    apply stat_lookup, Hs, (wf_stat _ _ _ Hwf) in E'. congruence.
  - destruct (stat fs' T) as [e'|[c' r'|]] eqn:E'; try done.
    apply stat_lookup, Hs, (wf_stat _ _ _ Hwf) in E'. congruence.
  - apply stat_lookup, Hs, (wf_stat _ _ _ Hwf') in E. by rewrite E.
Qed.

(** The state of the file loop of [organize_files] after the files [done],
    against the state [sm] in which the loop started. *)
Definition org_inv (folders : rules) (dd : string) (sm : state)
    (done : list string) (s : state) : Prop :=
  let D := abspath (st_cwd sm) (PurePath dd) in
  let mv := moves folders (st_fs sm) D done in
  let target f F :=
    move_target (st_fs sm) (folder_loc (st_cwd sm) dd F ++ [f]) f in
  st_cwd s = st_cwd sm ∧ wf s ∧ same_dirs (st_fs sm) (st_fs s) ∧
  st_log s = st_log sm ++ map (fun m => Moved m.1 m.2) mv ∧
  (forall l, (forall f F, (f, F) ∈ mv -> l <> D ++ [f] ∧ l <> target f F) ->
             fs_lookup (st_fs s) l = fs_lookup (st_fs sm) l) ∧
  (forall f F, (f, F) ∈ mv ->
     exists c r, fs_lookup (st_fs sm) (D ++ [f]) = Some (File c r) ∧
       fs_lookup (st_fs s) (target f F) = Some (File c r) ∧
       (target f F <> D ++ [f] -> fs_lookup (st_fs s) (D ++ [f]) = None) ∧
       (target f F = D ++ [f] -> folder_loc (st_cwd sm) dd F = D)).

Lemma org_inv_start folders dd sm : wf sm -> org_inv folders dd sm [] sm.
Proof.
  intros Hwf. unfold org_inv. simpl. split_and!; try done.
  - by rewrite app_nil_r.
  - intros f F H. by apply elem_of_nil in H.
Qed.

Lemma org_inv_untouched folders dd sm done s g :
  org_inv folders dd sm done s ->
  g ∉ (moves folders (st_fs sm) (abspath (st_cwd sm) (PurePath dd)) done).*1 ->
  fs_lookup (st_fs s) (abspath (st_cwd sm) (PurePath dd) ++ [g]) =
  fs_lookup (st_fs sm) (abspath (st_cwd sm) (PurePath dd) ++ [g]).
Proof.
  intros (_ & _ & _ & _ & Hfr & _) Hg. apply Hfr. intros f F Hm.
  assert (f <> g) as Hne.
  { intros ->. apply Hg. apply list_elem_of_fmap. by exists (g, F). }
  split.
  - intros H. by apply app_inj_tail in H as [_ ?].
  - destruct (move_target_last (st_fs sm) (folder_loc (st_cwd sm) dd F) f) as [q ->].
    intros H. by apply app_inj_tail in H as [_ ?].
Qed.

Lemma is_reg_lookup fs l :
  wf_fs fs ->
  is_reg fs l = match fs_lookup fs l with Some (File _ _) => true | _ => false end.
Proof.
  intros Hwf. unfold is_reg. destruct (fs_lookup fs l) as [n|] eqn:E.
  - by rewrite (wf_stat _ _ _ Hwf E).
  - by destruct (wf_stat_None _ _ E) as [e ->].
Qed.

Lemma org_inv_skip folders dd sm done s f :
  moves folders (st_fs sm) (abspath (st_cwd sm) (PurePath dd)) [f] = [] ->
  org_inv folders dd sm done s -> org_inv folders dd sm (done ++ [f]) s.
Proof.
  intros Hm. unfold org_inv. by rewrite moves_app, Hm, app_nil_r.
Qed.

(** The body of the file loop of [FileFix.organize_files]. *)
Definition organize_body (folders : rules) (dd : string)
    (file_counts : gmap string nat) (file : string) : M (gmap string nat) :=
  let file_path := PurePath dd </> file in
  f ← is_file file_path;
  if f : bool then FileFix.move_to_first dd file file_path folders file_counts
  else mret file_counts.

Lemma organize_step folders dd sm done s f counts res s1 :
  wf sm -> org_inv folders dd sm done s -> f ∉ done -> valid_name f ->
  organize_body folders dd counts f s = (res, s1) ->
  (exists e, res = inl e ∧ s1 = s) ∨
  (org_inv folders dd sm (done ++ [f]) s1 ∧
   res = inr (foldl count_incr counts
     (moves folders (st_fs sm) (abspath (st_cwd sm) (PurePath dd)) [f]).*2)).
Proof.
  intros Hwfm Hinv Hnin Hvf.
  pose proof Hinv as (Hcwd & Hwf & Hsd & Hlog & Hfr & Htg).
  set (D := abspath (st_cwd sm) (PurePath dd)) in *.
  assert (fs_lookup (st_fs s) (D ++ [f]) = fs_lookup (st_fs sm) (D ++ [f])) as Hsame.
  { apply (org_inv_untouched _ _ _ _ _ _ Hinv).
    intros H. by apply moves_fst_subset in H. }
  assert (is_reg (st_fs s) (D ++ [f]) = is_reg (st_fs sm) (D ++ [f])) as Hreg.
  { rewrite !is_reg_lookup, Hsame; [done | apply Hwfm | apply Hwf]. }
  unfold organize_body, is_file. rewrite bind_unfold, query_eq.
  rewrite abspath_child, Hcwd by done. fold D.
  change (match stat (st_fs s) (D ++ [f]) with inr (File _ _) => true | _ => false end)
    with (is_reg (st_fs s) (D ++ [f])).
  rewrite Hreg. unfold moves. simpl.
  destruct (is_reg (st_fs sm) (D ++ [f])) eqn:Er; simpl.
  2:{ intros [= <- <-]. right. split; [|done].
      apply org_inv_skip; [|done]. unfold moves; simpl. fold D. by rewrite Er. }
  rewrite move_to_first_eq.
  destruct (classify f folders) as [F|] eqn:Ec; simpl.
  2:{ intros [= <- <-]. right. split; [|done].
      apply org_inv_skip; [|done]. unfold moves; simpl. fold D. by rewrite Er, Ec. }
  rewrite is_reg_lookup in Hreg by apply Hwf.
  destruct (fs_lookup (st_fs s) (D ++ [f])) as [[c r|]|] eqn:ES; try done.
  intros [(e & Hmv & ->)|([] & s2 & Hmv & Hrest)]%bind_inv.
  - left. exists e. split; [done|].
    eapply shutil_move_inv in Hmv as [(e' & _ & ->)|([=] & _)]; [done|].
    rewrite abspath_child, Hcwd by done. fold D. apply wf_stat; [apply Hwf|done].
  - right.
    eapply (shutil_move_inv _ _ _ c r) in Hmv as [(e' & [=] & _)|(_ & Hmv)].
    2:{ rewrite abspath_child, Hcwd by done. fold D. apply wf_stat; [apply Hwf|done]. }
    simpl in Hmv.
    rewrite (abspath_child _ (PurePath dd) f),
      (abspath_child _ (PurePath dd </> F) f), basename_child, !Hcwd in Hmv by done.
    fold D in Hmv. fold (folder_loc (st_cwd sm) dd F) in Hmv.
    rewrite (move_target_same_dirs (st_fs sm)) in Hmv
      by first [apply Hwfm | apply Hwf | done].
    set (t := move_target (st_fs sm) (folder_loc (st_cwd sm) dd F ++ [f]) f) in *.
    destruct Hmv as (Hfree & Ht0 & Hpar & Hnd & ->).
    rewrite !bind_unfold in Hrest. simpl in Hrest. injection Hrest as <- <-.
    split; [|done].
    assert (forall q g, g <> f -> q ++ [g] <> t) as Hlast.
    { intros q g Hg. unfold t.
      destruct (move_target_last (st_fs sm) (folder_loc (st_cwd sm) dd F) f) as [q' ->].
      intros H. by apply app_inj_tail in H as [_ ?]. }
    assert (forall f' F', (f', F') ∈ moves folders (st_fs sm) D done -> f' <> f) as Hdone.
    { intros f' F' H ->. apply elem_of_moves in H as (? & _). done. }
    assert (moves folders (st_fs sm) D (done ++ [f]) =
            moves folders (st_fs sm) D done ++ [(f, F)]) as Hmoves.
    { rewrite moves_app. f_equal. unfold moves; simpl. fold D. by rewrite Er, Ec. }
    unfold org_inv. fold D. rewrite Hmoves. simpl. split_and!.
    + done.
    + split; [|by apply Hwfm]. simpl.
      apply renamed_wf; [apply Hwf | done | done | by apply stat_lookup | done |].
      destruct Hwf as [Hwf1 Hwf2].
      assert (Forall valid_name (folder_loc (st_cwd sm) dd F ++ [f])) as Hv.
      { apply Forall_app. split; [|by repeat constructor].
        apply valid_abspath; [apply Hwfm|].
        apply valid_path_truediv, valid_path_PurePath. }
      unfold t, move_target.
      destruct (stat (st_fs sm) (folder_loc (st_cwd sm) dd F ++ [f])) as [|[|]];
        try done.
      apply Forall_app. split; [done|by repeat constructor].
    + eapply same_dirs_trans; [exact Hsd|].
      apply renamed_same_dirs; done.
    + rewrite Hlog, map_app, <- app_assoc. done.
    + intros l Hl. rewrite renamed_lookup by done.
      destruct (Hl f F) as [Hl1 Hl2]; [apply elem_of_app; right; apply list_elem_of_here|].
      fold t in Hl2. rewrite !decide_False by done.
      apply Hfr. intros f' F' H'. apply Hl. apply elem_of_app. by left.
    + intros f' F' [H'|H']%elem_of_app.
      * destruct (Htg f' F' H') as (c' & r' & Hm1 & Hm2 & Hm3 & Hm4).
        exists c', r'. pose proof (Hdone _ _ H') as Hne.
        split_and!; try done.
        -- rewrite renamed_lookup by done.
           destruct (move_target_last (st_fs sm) (folder_loc (st_cwd sm) dd F') f') as [q' Hq'].
           rewrite Hq' in *.
           rewrite !decide_False; [done| |].
           ++ intros H. by apply app_inj_tail in H as [_ ?].
           ++ by apply Hlast.
        -- intros Hx. rewrite renamed_lookup by done.
           rewrite !decide_False; [by apply Hm3| |].
           ++ intros H. by apply app_inj_tail in H as [_ ?].
           ++ by apply Hlast.
      * apply list_elem_of_singleton in H'. injection H' as -> ->. fold t.
        exists c, r. split_and!.
        -- by rewrite <- Hsame.
        -- rewrite renamed_lookup by done. by rewrite decide_True.
        -- intros Hx. rewrite renamed_lookup by done.
           rewrite decide_False by done. by rewrite decide_True.
        -- intros Hx. unfold t, move_target in Hx, Hfree.
           destruct (stat (st_fs sm) (folder_loc (st_cwd sm) dd F ++ [f])) as [|[|]] eqn:Et.
           ++ by apply app_inj_tail in Hx as [? _].
           ++ by apply app_inj_tail in Hx as [? _].
           ++ exfalso. rewrite Hx in Hfree.
              rewrite (wf_stat _ _ _ (proj1 Hwf) ES) in Hfree.
              assert (stat (st_fs s) (folder_loc (st_cwd sm) dd F ++ [f]) = inr Dir) as Hd.
              { apply wf_stat; [apply Hwf|]. apply Hsd. by apply stat_lookup. }
              by specialize (Hfree Hd).
Qed.

Lemma organize_loop folders dd sm rest :
  forall done s counts res s',
  wf sm -> NoDup (done ++ rest) -> Forall valid_name rest ->
  org_inv folders dd sm done s ->
  for_fold rest counts (organize_body folders dd) s = (res, s') ->
  exists done',
    done' `prefix_of` (done ++ rest) ∧ org_inv folders dd sm done' s' ∧
    (forall c, res = inr c ->
       done' = done ++ rest ∧
       c = foldl count_incr counts
             (moves folders (st_fs sm) (abspath (st_cwd sm) (PurePath dd)) rest).*2).
Proof.
  induction rest as [|f rest IH]; intros done s counts res s' Hwfm Hnd Hv Hinv.
  - simpl. intros [= <- <-]. exists done. rewrite app_nil_r.
    split_and!; [done | done |]. by intros c [= <-].
  - simpl. intros [(e & Hb & ->)|(acc & s1 & Hb & Hrest)]%bind_inv.
    + exists done. split; [by apply prefix_app_r|].
      eapply organize_step in Hb as [(e' & _ & ->)|(_ & [=])]; try done.
      * rewrite NoDup_app in Hnd. destruct Hnd as (_ & Hd & _).
        intros H. apply (Hd f H). by left.
      * by inversion Hv.
    + eapply organize_step in Hb as [(e' & [=] & _)|(Hinv' & [= Hacc])]; try done.
      2:{ rewrite NoDup_app in Hnd. destruct Hnd as (_ & Hd & _).
          intros H. apply (Hd f H). by left. }
      2:{ by inversion Hv. }
      subst acc.
      apply (IH (done ++ [f])) in Hrest as (done' & Hpre & Hinv'' & Hres);
        [|done|by rewrite <- app_assoc|by inversion Hv|done].
      exists done'. rewrite <- app_assoc in Hpre. split_and!; [done..|].
      intros c Hc. destruct (Hres c Hc) as [-> ->].
      split; [by rewrite <- app_assoc|].
      destruct (is_reg (st_fs sm) _); [destruct (classify f folders)|]; done.
Qed.

(** The first loop of [organize_files]: each folder is made, with its
    parents, unless its path exists. *)
Definition make_folders (fp : string -> Path) (folders : rules) : M unit :=
  for_each folders (fun '(folder, extensions) =>
    e ← path_exists (fp folder);
    if e : bool then mret tt else path_mkdir_parents (fp folder)).

Lemma make_folders_grows fp folders :
  (forall F, valid_path (fp F)) -> steps grows (make_folders fp folders).
Proof.
  intros Hv. apply steps_for_each; [apply grows_refl | apply grows_trans|].
  intros [F exts] _. apply steps_bind; [apply grows_trans | apply path_exists_grows|].
  intros []; [apply (steps_ret _ grows_refl) | by apply path_mkdir_parents_grows].
Qed.

Lemma path_mkdir_parents_ok p s s' :
  path_mkdir_parents p s = (inr tt, s') ->
  fs_lookup (st_fs s') (abspath (st_cwd s) p) = Some Dir.
Proof.
  intros H. apply mkdir_parents_ok in H. rewrite rev_involutive in H.
  by destruct p.
Qed.

Lemma make_folders_ok fp folders s s' :
  (forall F, valid_path (fp F)) ->
  make_folders fp folders s = (inr tt, s') ->
  forall F, F ∈ folders.*1 ->
            is_Some (fs_lookup (st_fs s') (abspath (st_cwd s) (fp F))).
Proof.
  intros Hv. revert s. induction folders as [|[F0 exts] folders IH]; intros s H F HF.
  - by apply elem_of_nil in HF.
  - simpl in H. apply bind_inv_ok in H as ([] & s1 & Hb & Hrest).
    assert (grows s s1) as Hg1.
    { revert Hb. apply steps_bind; [apply grows_trans | apply path_exists_grows|].
      intros []; [apply (steps_ret _ grows_refl) | by apply path_mkdir_parents_grows]. }
    assert (grows s1 s') as Hg2 by (by eapply (make_folders_grows fp folders Hv)).
    rewrite fmap_cons in HF. apply elem_of_cons in HF as [->|HF].
    + simpl. apply bind_inv_ok in Hb as (e & s2 & He & Hm).
      unfold path_exists in He. rewrite query_eq in He. injection He as <- <-.
      destruct (stat (st_fs s) (abspath (st_cwd s) (fp F0))) as [e|n] eqn:E.
      * apply path_mkdir_parents_ok in Hm. exists Dir.
        by apply (grows_lookup _ _ _ _ Hg2).
      * exists n. apply (grows_lookup _ _ _ _ Hg2), (grows_lookup _ _ _ _ Hg1).
        by apply stat_lookup.
    + destruct Hg1 as (Hc & _). rewrite <- Hc. by apply IH.
Qed.

Lemma os_listdir_str_inv dd s r s' :
  os_listdir_str dd s = (r, s') ->
  s' = s ∧
  forall l, r = inr l ->
    dd <> EmptyString ∧
    stat (st_fs s) (abspath (st_cwd s) (PurePath dd)) = inr Dir ∧
    l = children (st_fs s) (abspath (st_cwd s) (PurePath dd)).
Proof.
  unfold os_listdir_str. destruct (String.eqb_spec dd EmptyString) as [->|Hne].
  - intros [= <- <-]. split; [done|]. by intros l.
  - unfold os_listdir. rewrite call_eq. intros [= <- <-]. split; [done|].
    intros l. unfold sys_listdir.
    destruct (stat (st_fs s) (abspath (st_cwd s) (PurePath dd))) as [|[|]];
      try done. by intros [= <-].
Qed.

Lemma organize_files_unfold folders dd :
  FileFix.organize_files folders dd =
  (make_folders (fun folder => PurePath dd </> folder) folders ;;
   total_files ← os_listdir_str dd;
   files ← os_listdir_str dd;
   for_fold files ∅ (organize_body folders dd)).
Proof. done. Qed.

Lemma organize_files_inv folders dd s0 res s1 :
  wf s0 -> FileFix.organize_files folders dd s0 = (res, s1) ->
  let D := abspath (st_cwd s0) (PurePath dd) in
  exists sm done,
    grows s0 sm ∧ org_inv folders dd sm done s1 ∧
    (forall c, res = inr c ->
       dd <> EmptyString ∧ stat (st_fs sm) D = inr Dir ∧
       done = children (st_fs sm) D ∧
       c = tally (moves folders (st_fs sm) D done).*2 ∧
       forall F, F ∈ folders.*1 ->
                 is_Some (fs_lookup (st_fs sm) (folder_loc (st_cwd s0) dd F))).
Proof.
  intros Hwf. rewrite organize_files_unfold. intros H D.
  assert (forall F, valid_path (PurePath dd </> F)) as Hvp.
  { intros F. apply valid_path_truediv, valid_path_PurePath. }
  apply bind_inv in H as [(e & Hmk & ->)|([] & sm & Hmk & H)].
  { exists s1, []. pose proof (make_folders_grows _ _ Hvp _ _ _ Hmk) as Hg.
    split_and!; [done | apply org_inv_start; by apply Hg | done]. }
  pose proof (make_folders_grows _ _ Hvp _ _ _ Hmk) as Hg.
  pose proof (make_folders_ok _ _ _ _ Hvp Hmk) as Hok.
  assert (wf sm) as Hwfm by (by apply Hg).
  assert (st_cwd sm = st_cwd s0) as Hcwd by apply Hg.
  apply bind_inv in H as [(e & Hl & ->)|(total & s2 & Hl & H)].
  { apply os_listdir_str_inv in Hl as [-> _].
    exists sm, []. split_and!; [done | by apply org_inv_start | done]. }
  apply os_listdir_str_inv in Hl as [-> _].
  apply bind_inv in H as [(e & Hl & ->)|(files & s2 & Hl & H)].
  { apply os_listdir_str_inv in Hl as [-> _].
    exists sm, []. split_and!; [done | by apply org_inv_start | done]. }
  apply os_listdir_str_inv in Hl as [-> Hfiles].
  destruct (Hfiles files eq_refl) as (Hdd & HD & ->). rewrite Hcwd in HD. fold D in HD.
  rewrite Hcwd in H. fold D in H.
  assert (NoDup ([] ++ children (st_fs sm) D)) as Hnd.
  { simpl. apply NoDup_children, Hwfm. }
  assert (Forall valid_name (children (st_fs sm) D)) as Hvn.
  { apply Forall_forall. intros f Hf. apply elem_of_children in Hf.
    apply (wf_fs_key _ _ (proj1 Hwfm)) in Hf as [Hv _].
    apply Forall_app in Hv as [_ Hv]. by inversion Hv. }
  apply (organize_loop _ _ sm _ [] _ _ _ _ Hwfm Hnd Hvn (org_inv_start _ _ _ Hwfm))
    in H as (done & Hpre & Hinv & Hres).
  exists sm, done. split_and!; [done..|].
  intros c Hc. destruct (Hres c Hc) as [-> ->]. simpl. rewrite Hcwd. fold D.
  split_and!; done.
Qed.

(** ** Counters *)

(** [sum(file_counts.values())]. *)
Definition total_count (c : gmap string nat) : nat :=
  map_fold (fun _ n acc => n + acc) 0 c.

Lemma count_of_incr c k k' :
  count_of (count_incr c k) k' =
  if decide (k' = k) then S (count_of c k) else count_of c k'.
Proof.
  unfold count_of, count_incr. case_decide as H.
  - subst. by rewrite lookup_insert_eq.
  - by rewrite lookup_insert_ne.
Qed.

Lemma total_count_insert (c : gmap string nat) k v :
  c !! k = None -> total_count (<[k := v]> c) = v + total_count c.
Proof.
  intros H. unfold total_count.
  rewrite map_fold_insert_L; [done| |done]. intros. lia.
Qed.

Lemma total_count_incr c k : total_count (count_incr c k) = S (total_count c).
Proof.
  unfold count_incr, count_of. destruct (c !! k) as [v|] eqn:E; simpl.
  - rewrite <- (insert_delete_eq c k (S v)).
    rewrite total_count_insert by apply lookup_delete_eq.
    rewrite <- (insert_id c k v E) at 2.
    rewrite <- (insert_delete_eq c k v).
    rewrite total_count_insert by apply lookup_delete_eq. done.
  - by rewrite total_count_insert.
Qed.

Lemma tally_snoc l F : tally (l ++ [F]) = count_incr (tally l) F.
Proof. unfold tally. by rewrite foldl_app. Qed.

Lemma count_of_tally l F :
  count_of (tally l) F = length (List.filter (fun F' => bool_decide (F' = F)) l).
Proof.
  induction l as [|F' l IH] using rev_ind; [done|].
  rewrite tally_snoc, count_of_incr, List.filter_app, length_app. simpl.
  case_decide as H.
  - subst. rewrite bool_decide_eq_true_2 by done. simpl. lia.
  - rewrite bool_decide_eq_false_2 by done. simpl. lia.
Qed.

Lemma total_count_tally l : total_count (tally l) = length l.
Proof.
  induction l as [|F' l IH] using rev_ind; [done|].
  rewrite tally_snoc, total_count_incr, length_app. simpl. lia.
Qed.

(** ** The organize stage against the state before it *)

(** The regular files of the source directory, in listing order, that
    have a folder, each with its folder. *)
Definition planned (folders : rules) (dd : string) (s : state)
  : list (string * string) :=
  let D := abspath (st_cwd s) (PurePath dd) in
  moves folders (st_fs s) D (children (st_fs s) D).

Lemma grows_is_reg s s' l :
  wf s -> grows s s' -> is_reg (st_fs s') l = is_reg (st_fs s) l.
Proof.
  intros Hwf Hg. assert (wf s') as Hwf' by (by apply Hg).
  rewrite !is_reg_lookup by first [apply Hwf | apply Hwf'].
  destruct (fs_lookup (st_fs s') l) as [[c r|]|] eqn:E.
  - apply (grows_file _ _ _ _ _ Hg) in E. by rewrite E.
  - destruct (grows_lookup_inv _ _ l Hg) as [H|[-> _]]; [|done].
    by rewrite <- H, E.
  - destruct (grows_lookup_inv _ _ l Hg) as [H|[-> _]]; [|done].
    by rewrite <- H, E.
Qed.

Lemma moves_new_dirs folders fs new D :
  NoDup (fs ++ new).*1 -> Forall (fun kn : loc * node => kn.2 = Dir) new ->
  wf_fs (fs ++ new) ->
  moves folders (fs ++ new) D (children new D) = [].
Proof.
  intros Hnd Hd Hwf.
  assert (forall f, f ∈ children new D -> is_reg (fs ++ new) (D ++ [f]) = false) as H.
  { intros f Hf. rewrite is_reg_lookup by done. rewrite fs_lookup_app.
    apply elem_of_children in Hf.
    assert (fs_lookup fs (D ++ [f]) = None) as ->.
    { destruct D; simpl; apply assoc_None; intros Hin;
        rewrite fmap_app in Hnd; apply NoDup_app in Hnd as (_ & Hx & _);
        by apply (Hx _ Hin). }
    destruct (fs_lookup new (D ++ [f])) as [n|] eqn:E; [|done].
    by rewrite (lookup_all_dirs _ _ _ Hd E). }
  induction (children new D) as [|f l IH]; [done|].
  rewrite moves_cons, IH; [|intros g Hg; apply H; by right].
  unfold moves; simpl. by rewrite H by left.
Qed.

Lemma moves_ext folders fs fs' D files :
  (forall f, f ∈ files -> is_reg fs (D ++ [f]) = is_reg fs' (D ++ [f])) ->
  moves folders fs D files = moves folders fs' D files.
Proof.
  induction files as [|f files IH]; intros H; [done|].
  rewrite (moves_cons _ fs), (moves_cons _ fs'), IH.
  - f_equal. unfold moves; simpl. by rewrite H by left.
  - intros g Hg. apply H. by right.
Qed.

Lemma planned_grows folders dd s s' :
  wf s -> grows s s' ->
  moves folders (st_fs s') (abspath (st_cwd s) (PurePath dd))
        (children (st_fs s') (abspath (st_cwd s) (PurePath dd))) =
  planned folders dd s.
Proof.
  intros Hwf Hg. assert (wf s') as Hwf' by (by apply Hg).
  pose proof Hg as (_ & _ & (new & Hfs & Hd) & _).
  unfold planned. set (D := abspath (st_cwd s) (PurePath dd)).
  rewrite Hfs, children_app, moves_app.
  rewrite moves_new_dirs; [|rewrite <- Hfs; apply Hwf'|done|rewrite <- Hfs; apply Hwf'].
  rewrite app_nil_r, <- Hfs. apply moves_ext.
  intros f _. by apply grows_is_reg.
Qed.

Lemma classify_folder file folders F :
  classify file folders = Some F -> F ∈ folders.*1.
Proof.
  intros (pre & exts & post & -> & _)%classify_Some.
  rewrite fmap_app, fmap_cons. apply elem_of_app. right. by left.
Qed.

Lemma classify_None file folders :
  classify file folders = None <->
  forall folder exts ext,
    (folder, exts) ∈ folders -> ext ∈ exts -> endswith file ext = false.
Proof.
  induction folders as [|[F exts] folders IH]; simpl.
  - split; [|done]. intros _ ? ? ? H. by apply elem_of_nil in H.
  - destruct (any_endswith file exts) eqn:E.
    + split; [done|]. intros H. exfalso.
      unfold any_endswith in E. apply existsb_exists in E as (ext & Hin & He).
      rewrite (H F exts ext) in He; [done|by left|by apply list_elem_of_In].
    + rewrite IH. split.
      * intros H folder exts' ext [[= -> ->]|Hin]%elem_of_cons Hext.
        -- unfold any_endswith in E.
           destruct (endswith file ext) eqn:E'; [|done].
           assert (existsb (endswith file) exts = true); [|congruence].
           apply existsb_exists. exists ext. split; [by apply list_elem_of_In|done].
        -- by eapply H.
      * intros H folder exts' ext Hin. apply (H folder). by right.
Qed.

Lemma moves_count folders fs D files F :
  length (List.filter (fun F' => bool_decide (F' = F)) (moves folders fs D files).*2) =
  length (List.filter
            (fun f => is_reg fs (D ++ [f]) && bool_decide (classify f folders = Some F))
            files).
Proof.
  induction files as [|f files IH]; [done|].
  rewrite moves_cons, fmap_app, List.filter_app, length_app, IH.
  unfold moves; simpl.
  destruct (is_reg fs (D ++ [f])); simpl; [|done].
  destruct (classify f folders) as [F'|]; simpl.
  - destruct (decide (F' = F)) as [->|Hne].
    + by rewrite !bool_decide_eq_true_2.
    + rewrite !bool_decide_eq_false_2; [done| congruence | done].
  - done.
Qed.

Lemma filter_snd_length (l : list (string * string)) F :
  length (List.filter (fun F' => bool_decide (F' = F)) l.*2) =
  length (List.filter (fun m => bool_decide (m.2 = F)) l).
Proof.
  induction l as [|[f F'] l IH]; [done|].
  rewrite fmap_cons. cbn [List.filter snd].
  destruct (bool_decide (F' = F)); cbn [length]; by rewrite IH.
Qed.

(** A completed organize stage, against the state it started from. *)
Lemma organize_files_ok folders dd s0 counts s1 :
  wf s0 -> FileFix.organize_files folders dd s0 = (inr counts, s1) ->
  let D := abspath (st_cwd s0) (PurePath dd) in
  let mv := planned folders dd s0 in
  exists sm,
    grows s0 sm ∧ wf sm ∧ wf s1 ∧ st_cwd s1 = st_cwd s0 ∧
    same_dirs (st_fs sm) (st_fs s1) ∧
    dd <> EmptyString ∧ stat (st_fs sm) D = inr Dir ∧
    st_log s1 = st_log s0 ++ map (fun m => Moved m.1 m.2) mv ∧
    counts = tally mv.*2 ∧
    (forall F, F ∈ folders.*1 ->
               is_Some (fs_lookup (st_fs sm) (folder_loc (st_cwd s0) dd F))) ∧
    (forall l,
       (forall f F, (f, F) ∈ mv ->
          l <> D ++ [f] ∧
          l <> move_target (st_fs sm) (folder_loc (st_cwd s0) dd F ++ [f]) f) ->
       fs_lookup (st_fs s1) l = fs_lookup (st_fs sm) l) ∧
    (forall f F, (f, F) ∈ mv ->
       let t := move_target (st_fs sm) (folder_loc (st_cwd s0) dd F ++ [f]) f in
       exists c r, fs_lookup (st_fs s0) (D ++ [f]) = Some (File c r) ∧
         fs_lookup (st_fs s1) t = Some (File c r) ∧
         (t <> D ++ [f] -> fs_lookup (st_fs s1) (D ++ [f]) = None) ∧
         (t = D ++ [f] -> folder_loc (st_cwd s0) dd F = D)).
Proof.
  intros Hwf H D mv. subst D mv.
  destruct (organize_files_inv _ _ _ _ _ Hwf H) as (sm & done & Hg & Hinv & Hres).
  destruct (Hres counts eq_refl) as (Hdd & HD & -> & -> & Hex).
  assert (st_cwd sm = st_cwd s0) as Hcwd by apply Hg.
  assert (wf sm) as Hwfm by (by apply Hg).
  unfold org_inv in Hinv. rewrite Hcwd in Hinv.
  rewrite (planned_grows _ _ _ _ Hwf Hg) in Hinv.
  destruct Hinv as (Hc1 & Hwf1 & Hsd & Hlog & Hfr & Htg).
  exists sm. rewrite (planned_grows _ _ _ _ Hwf Hg).
  split_and!; try done.
  - rewrite Hlog. by destruct Hg as (_ & -> & _).
  - intros f F Hm. destruct (Htg f F Hm) as (c & r & H1 & H2 & H3 & H4).
    exists c, r. split_and!; try done. by apply (grows_file _ _ _ _ _ Hg).
Qed.

(** ** Claims about the organize stage *)

Lemma wf_parent_dir fs l n :
  wf_fs fs -> fs_lookup fs l = Some n -> fs_lookup fs (removelast l) = Some Dir.
Proof.
  intros Hwf H. destruct l as [|a l]; [done|].
  apply (wf_fs_key fs (a :: l) Hwf). by apply (fs_lookup_key _ _ n).
Qed.

(** The organize stage, however it ends: the directories are made, then
    the files of a first part [done] of the listing are gone through, and
    a completed stage has gone through all of them. *)
Lemma organize_files_trace folders dd s0 res s1 :
  wf s0 -> FileFix.organize_files folders dd s0 = (res, s1) ->
  let D := abspath (st_cwd s0) (PurePath dd) in
  exists sm done,
    grows s0 sm ∧ org_inv folders dd sm done s1 ∧
    moves folders (st_fs sm) D done `prefix_of` planned folders dd s0 ∧
    (forall c, res = inr c ->
       moves folders (st_fs sm) D done = planned folders dd s0 ∧
       c = tally (planned folders dd s0).*2).
Proof.
  intros Hwf Hrun D. rewrite organize_files_unfold in Hrun.
  assert (forall e, res = inl e -> grows s0 s1 ->
            exists sm done,
              grows s0 sm ∧ org_inv folders dd sm done s1 ∧
              moves folders (st_fs sm) D done `prefix_of` planned folders dd s0 ∧
              (forall c, res = inr c ->
                 moves folders (st_fs sm) D done = planned folders dd s0 ∧
                 c = tally (planned folders dd s0).*2)) as Hearly.
  { intros e -> Hg. exists s1, []. split_and!; [done| | |done].
    - apply org_inv_start. by apply Hg.
    - apply prefix_nil. }
  apply bind_inv in Hrun as [(e & Hmk & ->)|([] & sm & Hmk & Hrun)].
  { apply (Hearly e eq_refl). eapply make_folders_grows; [|exact Hmk].
    intros F. apply valid_path_truediv, valid_path_PurePath. }
  assert (grows s0 sm) as Hg.
  { eapply make_folders_grows; [|exact Hmk].
    intros F. apply valid_path_truediv, valid_path_PurePath. }
  pose proof Hg as (Hcm & Hlm & _ & Hwfm). specialize (Hwfm Hwf).
  apply bind_inv in Hrun as [(e & Hl & ->)|(total & s' & Hl & Hrun)].
  { apply os_listdir_str_inv in Hl as [-> _]. by apply (Hearly e). }
  apply os_listdir_str_inv in Hl as [-> _].
  apply bind_inv in Hrun as [(e & Hl & ->)|(files & s' & Hl & Hrun)].
  { apply os_listdir_str_inv in Hl as [-> _]. by apply (Hearly e). }
  clear Hearly.
  apply os_listdir_str_inv in Hl as [-> Hl].
  destruct (Hl files eq_refl) as (_ & _ & ->). rewrite Hcm in Hrun. fold D in Hrun.
  destruct (organize_loop folders dd sm (children (st_fs sm) D) [] sm ∅ res s1)
    as (done' & Hpre & Hinv & Hok); [done| | |by apply org_inv_start|done|].
  { apply NoDup_children, Hwfm. }
  { apply Forall_forall. intros f Hf. apply elem_of_children in Hf.
    apply (wf_fs_key _ _ (proj1 Hwfm)) in Hf as [Hv _].
    apply Forall_app in Hv as [_ Hv]. by inversion Hv. }
  rewrite Hcm in Hok. fold D in Hok.
  pose proof (planned_grows folders dd s0 sm Hwf Hg) as Hpl. fold D in Hpl.
  exists sm, done'. split_and!; [done|done| |].
  - rewrite <- Hpl. destruct Hpre as [later Hlater]. simpl in Hlater.
    rewrite Hlater, moves_app. by apply prefix_app_r.
  - intros c ->. destruct (Hok c eq_refl) as [Hd Hc]. simpl in Hd, Hc.
    rewrite Hd, Hpl. split; [done|]. by rewrite Hc, Hpl.
Qed.

Lemma prefix_NoDup_fst {A B} (l1 l2 : list (A * B)) :
  l1 `prefix_of` l2 -> NoDup l2.*1 -> NoDup l1.*1.
Proof.
  intros [k ->]. rewrite fmap_app. by intros [? _]%NoDup_app.
Qed.

(** What the invariant of the file loop says of one move, read in the
    state the stage ends in. *)
Lemma org_inv_moved folders dd s0 sm done s1 f F :
  wf s0 -> grows s0 sm -> org_inv folders dd sm done s1 ->
  let D := abspath (st_cwd s0) (PurePath dd) in
  let T := folder_loc (st_cwd s0) dd F ++ [f] in
  (f, F) ∈ moves folders (st_fs sm) D done ->
  exists c r,
    stat (st_fs s0) (D ++ [f]) = inr (File c r) ∧
    stat (st_fs s1) (move_target (st_fs s1) T f) = inr (File c r) ∧
    (T <> D ++ [f] -> stat (st_fs s1) (D ++ [f]) = inl FileNotFoundError).
Proof.
  intros Hwf Hg Hinv D T Hin.
  pose proof Hg as (Hcm & _ & _ & Hwfm). specialize (Hwfm Hwf).
  destruct Hinv as (_ & Hwf1 & Hsd & _ & _ & Hmoved).
  rewrite Hcm in Hmoved. fold D in Hmoved.
  destruct (Hmoved f F Hin) as (c & r & Hsrc & Htgt & Hgone & Hhome).
  fold T in Htgt, Hgone, Hhome.
  exists c, r. split_and!.
  - apply wf_stat; [apply Hwf|]. by apply (grows_file _ _ _ _ _ Hg).
  - rewrite (move_target_same_dirs (st_fs sm)) by first [apply Hwfm|apply Hwf1|done].
    by apply wf_stat; [apply Hwf1|].
  - intros Hne. rewrite stat_child.
    + rewrite Hgone; [done|]. intros Heq. apply Hne. unfold T.
      by rewrite (Hhome Heq).
    + apply wf_stat; [apply Hwf1|]. apply Hsd.
      apply (wf_parent_dir _ _ _ (proj1 Hwfm)) in Hsrc.
      by rewrite removelast_last in Hsrc.
Qed.

(** C10. In every run of the organize stage, however it ends, the moves
    are those of regular files of the snapshot, each to its first
    matching folder and each file at most once, and they are moves in the
    file system: the file is at its destination with its content, it has
    left the download directory (when the destination is another place
    and did not already hold that content), and the regular files that
    were not moved are where they were.  A completed stage has moved
    every regular file that has a folder; the count of a folder is the
    number of moves into it, and the counts add up to the number of
    moves. *)
Theorem organize_moves_each_file_once folders dd s0 res s1 :
  wf s0 -> FileFix.organize_files folders dd s0 = (res, s1) ->
  let D := abspath (st_cwd s0) (PurePath dd) in
  exists moved : list (string * string),
    st_log s1 = st_log s0 ++ map (fun m => Moved m.1 m.2) moved ∧
    NoDup moved.*1 ∧
    (forall f F, (f, F) ∈ moved ->
       f ∈ children (st_fs s0) D ∧ classify f folders = Some F ∧
       let T := folder_loc (st_cwd s0) dd F ++ [f] in
       exists c r,
         stat (st_fs s0) (D ++ [f]) = inr (File c r) ∧
         stat (st_fs s1) (move_target (st_fs s1) T f) = inr (File c r) ∧
         (plain_config dd folders -> T <> D ++ [f] ->
          (forall r', fs_lookup (st_fs s0) T <> Some (File c r')) ->
          stat (st_fs s1) (D ++ [f]) = inl FileNotFoundError)) ∧
    (forall f c r, f ∉ moved.*1 ->
       stat (st_fs s0) (D ++ [f]) = inr (File c r) ->
       stat (st_fs s1) (D ++ [f]) = inr (File c r)) ∧
    (forall counts, res = inr counts ->
       (forall f F, (f, F) ∈ moved <->
          f ∈ children (st_fs s0) D ∧ is_reg (st_fs s0) (D ++ [f]) = true ∧
          classify f folders = Some F) ∧
       (forall F, count_of counts F =
                  length (List.filter (fun m => bool_decide (m.2 = F)) moved)) ∧
       total_count counts = length moved).
Proof.
  intros Hwf Hrun D.
  destruct (organize_files_trace _ _ _ _ _ Hwf Hrun) as (sm & done & Hg & Hinv & Hpre & Hok).
  fold D in Hpre, Hok.
  pose proof Hg as (Hcm & Hlm & _ & Hwfm). specialize (Hwfm Hwf).
  set (moved := moves folders (st_fs sm) D done) in *.
  assert (forall f F, (f, F) ∈ moved -> (f, F) ∈ planned folders dd s0) as Hpl.
  { intros f F Hin. destruct Hpre as [k ->]. apply elem_of_app. by left. }
  exists moved. split_and!.
  - destruct Hinv as (_ & _ & _ & Hlog & _). rewrite Hcm in Hlog. fold D in Hlog.
    by rewrite Hlog, Hlm.
  - eapply prefix_NoDup_fst; [exact Hpre|].
    apply NoDup_moves_fst, NoDup_children, Hwf.
  - intros f F Hin.
    pose proof (Hpl f F Hin) as (Hch & _ & Hc)%elem_of_moves.
    split_and!; [done..|].
    destruct (org_inv_moved _ _ _ _ _ _ f F Hwf Hg Hinv Hin) as (c & r & H0 & H1 & Hgone).
    exists c, r. split_and!; [done..|]. intros _ Hne _. by apply Hgone.
  - intros f c r Hf Hst.
    pose proof (org_inv_untouched _ _ _ _ _ f Hinv) as Hu.
    rewrite Hcm in Hu. fold D moved in Hu.
    apply wf_stat; [apply Hinv|]. rewrite (Hu Hf).
    apply (grows_lookup _ _ _ _ Hg). by apply stat_lookup.
  - intros counts ->. destruct (Hok counts eq_refl) as [Hall ->].
    fold moved in Hall. rewrite <- Hall. split_and!.
    + intros f F. rewrite Hall. apply elem_of_moves.
    + intros F. by rewrite count_of_tally, filter_snd_length.
    + by rewrite total_count_tally, length_fmap.
Qed.

(** C6. A regular file of the source directory whose name ends with no
    configured suffix is still there, with its content, after the organize
    stage, however the stage ends; no move of it is logged, and the counts
    of a completed stage are those of the other files. *)
Theorem organize_leaves_unmatched folders dd s0 res s1 f c r :
  wf s0 -> FileFix.organize_files folders dd s0 = (res, s1) ->
  let D := abspath (st_cwd s0) (PurePath dd) in
  stat (st_fs s0) (D ++ [f]) = inr (File c r) ->
  (forall folder exts ext,
     (folder, exts) ∈ folders -> ext ∈ exts -> endswith f ext = false) ->
  stat (st_fs s1) (D ++ [f]) = inr (File c r) ∧
  (exists evs, st_log s1 = st_log s0 ++ evs ∧ forall F, Moved f F ∉ evs) ∧
  (forall counts F, res = inr counts ->
     count_of counts F =
     length (List.filter
               (fun g => negb (bool_decide (g = f)) &&
                         (is_reg (st_fs s0) (D ++ [g]) &&
                          bool_decide (classify g folders = Some F)))
               (children (st_fs s0) D))).
Proof.
  intros Hwf H D Hf Hno. apply classify_None in Hno.
  destruct (organize_files_inv _ _ _ _ _ Hwf H) as (sm & done & Hg & Hinv & _).
  assert (st_cwd sm = st_cwd s0) as Hcwd by apply Hg.
  pose proof Hinv as (_ & Hwf1 & _ & Hlog & _).
  assert (forall F, (f, F) ∉ moves folders (st_fs sm)
                      (abspath (st_cwd sm) (PurePath dd)) done) as Hnm.
  { intros F (_ & _ & Hc)%elem_of_moves. congruence. }
  rewrite Hcwd in Hnm, Hlog. fold D in Hnm, Hlog.
  split_and!.
  - apply wf_stat; [apply Hwf1|].
    pose proof (org_inv_untouched _ _ _ _ _ f Hinv) as Hu.
    rewrite Hcwd in Hu. fold D in Hu. rewrite Hu.
    + apply (grows_lookup _ _ _ _ Hg). by apply stat_lookup.
    + intros ([f' F] & Hf' & Hm)%list_elem_of_fmap. simpl in Hf'. subst f'.
      by apply (Hnm F).
  - eexists. split.
    + rewrite Hlog. destruct Hg as (_ & -> & _). done.
    + intros F ([f' F'] & Heq & Hm)%list_elem_of_In%in_map_iff.
      simpl in Heq. injection Heq as -> ->.
      apply list_elem_of_In in Hm. by apply (Hnm F).
  - intros counts F ->.
    destruct (organize_files_ok _ _ _ _ _ Hwf H)
      as (_ & _ & _ & _ & _ & _ & _ & _ & _ & -> & _).
    rewrite count_of_tally. unfold planned. rewrite moves_count. fold D.
    f_equal. apply List.filter_ext. intros g.
    destruct (decide (g = f)) as [->|Hne].
    + rewrite (bool_decide_eq_false_2 (classify f folders = Some F)) by congruence.
      by rewrite !andb_false_r.
    + by rewrite (bool_decide_eq_false_2 (g = f)).
Qed.

(** C1, as the code has it.  For a configuration of plain paths: after a
    completed organize stage a regular file of the source directory whose
    first matching folder is [F] is at [F/name] with its content, or at
    [F/name/name] when [F/name] is a directory; it has left the source
    directory when [F/name] is another place than the one it was at and
    did not already hold that content; the count of every folder is the
    number of regular files of the source directory whose first matching
    folder it is. *)
Theorem organize_routes_matched folders dd s0 counts s1 :
  wf s0 -> plain_config dd folders ->
  FileFix.organize_files folders dd s0 = (inr counts, s1) ->
  let D := abspath (st_cwd s0) (PurePath dd) in
  (forall f c r F pre exts post,
     stat (st_fs s0) (D ++ [f]) = inr (File c r) ->
     folders = pre ++ (F, exts) :: post ->
     any_endswith f exts = true ->
     Forall (fun fe => any_endswith f fe.2 = false) pre ->
     let T := folder_loc (st_cwd s0) dd F ++ [f] in
     stat (st_fs s1) (move_target (st_fs s1) T f) = inr (File c r) ∧
     (T <> D ++ [f] ->
      (forall r', fs_lookup (st_fs s0) T <> Some (File c r')) ->
      stat (st_fs s1) (D ++ [f]) = inl FileNotFoundError)) ∧
  (forall F,
     count_of counts F =
     length (List.filter
               (fun f => is_reg (st_fs s0) (D ++ [f]) &&
                         bool_decide (classify f folders = Some F))
               (children (st_fs s0) D))).
Proof.
  intros Hwf _ H D.
  destruct (organize_files_trace _ _ _ _ _ Hwf H)
    as (sm & done & Hg & Hinv & _ & Hok).
  destruct (Hok counts eq_refl) as [Hall ->]. fold D in Hall. split.
  - intros f c r F pre exts post Hf Hfol Hm Hpre T.
    assert (classify f folders = Some F) as Hc.
    { apply classify_Some. by exists pre, exts, post. }
    assert ((f, F) ∈ planned folders dd s0) as Hin.
    { apply elem_of_moves. fold D. split_and!; [|by unfold is_reg; rewrite Hf|done].
      apply elem_of_children. apply (fs_lookup_key _ _ (File c r)).
      - by destruct D.
      - by apply stat_lookup. }
    rewrite <- Hall in Hin.
    destruct (org_inv_moved _ _ _ _ _ _ f F Hwf Hg Hinv Hin)
      as (c' & r' & H0 & Ht & Hgone).
    fold D in H0, Hgone. rewrite Hf in H0. injection H0 as <- <-.
    split; [done|]. intros Hne _. by apply Hgone.
  - intros F. rewrite count_of_tally. unfold planned. by rewrite moves_count.
Qed.

(** ** A second organize stage *)

Lemma mkdir_parents_first a rp ok s s' :
  os_mkdir (mkPath a (rev rp)) s = (inr tt, s') ->
  mkdir_parents a rp ok s = (inr tt, s').
Proof. intros H. destruct rp; simpl in *; unfold catch; by rewrite H. Qed.

Lemma path_mkdir_parents_fresh p s :
  wf s ->
  abspath (st_cwd s) p <> [] ->
  fs_lookup (st_fs s) (removelast (abspath (st_cwd s) p)) = Some Dir ->
  fs_lookup (st_fs s) (abspath (st_cwd s) p) = None ->
  path_mkdir_parents p s =
  (inr tt, mkState (st_cwd s) (st_fs s ++ [(abspath (st_cwd s) p, Dir)]) (st_log s)).
Proof.
  intros Hwf Hne Hp Hnone. unfold path_mkdir_parents.
  apply mkdir_parents_first. rewrite rev_involutive.
  replace {| anchor := anchor p; parts := parts p |} with p by (by destruct p).
  unfold os_mkdir, mutate, update, sys_mkdir.
  destruct (abspath (st_cwd s) p) as [|a l] eqn:E; [done|].
  rewrite (wf_stat _ _ _ (proj1 Hwf) Hp). by rewrite Hnone.
Qed.

Lemma make_folders_total fp folders :
  (forall F, valid_path (fp F)) ->
  forall s, wf s ->
  (forall F, F ∈ folders.*1 ->
     fs_lookup (st_fs s) (removelast (abspath (st_cwd s) (fp F))) = Some Dir) ->
  exists s', make_folders fp folders s = (inr tt, s').
Proof.
  intros Hv. induction folders as [|[F0 exts] folders IH]; intros s Hwf Hpar.
  - by exists s.
  - assert (exists s1, (e ← path_exists (fp F0);
                        if e : bool then mret tt else path_mkdir_parents (fp F0)) s
                       = (inr tt, s1)) as [s1 H1].
    { rewrite bind_unfold. unfold path_exists. rewrite query_eq.
      destruct (stat (st_fs s) (abspath (st_cwd s) (fp F0))) as [e|n] eqn:E.
      - eexists. apply path_mkdir_parents_fresh; [done| |apply Hpar; by left|].
        + intros H0. by rewrite H0 in E.
        + destruct (fs_lookup (st_fs s) (abspath (st_cwd s) (fp F0))) eqn:El; [|done].
          apply (wf_stat _ _ _ (proj1 Hwf)) in El. congruence.
      - by eexists. }
    assert (grows s s1) as Hg.
    { revert H1. apply steps_bind; [apply grows_trans | apply path_exists_grows|].
      intros []; [apply (steps_ret _ grows_refl) | by apply path_mkdir_parents_grows]. }
    destruct (IH s1) as [s' Hs'].
    + by apply Hg.
    + intros F HF. pose proof Hg as (Hc & _). rewrite Hc.
      apply (grows_lookup _ _ _ _ Hg). apply Hpar. by right.
    + exists s'. unfold make_folders. simpl. rewrite bind_unfold, H1. exact Hs'.
Qed.

Lemma organize_loop_idle folders dd files s counts :
  Forall valid_name files ->
  (forall f, f ∈ files ->
     is_reg (st_fs s) (abspath (st_cwd s) (PurePath dd) ++ [f]) = true ->
     classify f folders = None) ->
  for_fold files counts (organize_body folders dd) s = (inr counts, s).
Proof.
  induction files as [|f files IH]; intros Hv Hidle; [done|].
  simpl. rewrite bind_unfold.
  assert (organize_body folders dd counts f s = (inr counts, s)) as ->.
  { unfold organize_body, is_file. rewrite bind_unfold, query_eq.
    rewrite abspath_child by (by inversion Hv).
    change (match stat (st_fs s) (abspath (st_cwd s) (PurePath dd) ++ [f])
            with inr (File _ _) => true | _ => false end)
      with (is_reg (st_fs s) (abspath (st_cwd s) (PurePath dd) ++ [f])).
    destruct (is_reg (st_fs s) (abspath (st_cwd s) (PurePath dd) ++ [f])) eqn:E; [|done].
    rewrite move_to_first_eq, (Hidle f); [done | by left | done]. }
  apply IH; [by inversion Hv|]. intros g Hg. apply Hidle. by right.
Qed.

Lemma os_listdir_str_ok dd s :
  dd <> EmptyString ->
  stat (st_fs s) (abspath (st_cwd s) (PurePath dd)) = inr Dir ->
  os_listdir_str dd s =
  (inr (children (st_fs s) (abspath (st_cwd s) (PurePath dd))), s).
Proof.
  intros Hdd HD. unfold os_listdir_str.
  destruct (String.eqb_spec dd EmptyString) as [|_]; [done|].
  unfold os_listdir. rewrite call_eq. unfold sys_listdir. by rewrite HD.
Qed.

(** C5, as the code has it.  For a configuration of plain paths in which
    no configured folder is the download directory itself, and a source
    directory none of whose files has its content already at the place it
    is to be moved to: an organize stage run again right after a completed
    one completes too, counts nothing, logs no move, and leaves every file
    where it is: at most it makes directories. *)
Theorem organize_again_moves_nothing folders dd s0 counts s1 :
  wf s0 -> plain_config dd folders ->
  FileFix.organize_files folders dd s0 = (inr counts, s1) ->
  (forall F, F ∈ folders.*1 ->
     folder_loc (st_cwd s0) dd F <> abspath (st_cwd s0) (PurePath dd)) ->
  (forall f F c r,
     stat (st_fs s0) (abspath (st_cwd s0) (PurePath dd) ++ [f]) = inr (File c r) ->
     classify f folders = Some F ->
     forall r', fs_lookup (st_fs s0) (folder_loc (st_cwd s0) dd F ++ [f])
                <> Some (File c r')) ->
  exists s2,
    FileFix.organize_files folders dd s1 = (inr ∅, s2) ∧
    (forall F, count_of ∅ F = 0) ∧
    st_log s2 = st_log s1 ∧
    (forall l c r, fs_lookup (st_fs s2) l = Some (File c r) <->
                   fs_lookup (st_fs s1) l = Some (File c r)).
Proof.
  intros Hwf _ H Hnot _.
  destruct (organize_files_ok _ _ _ _ _ Hwf H)
    as (sm & Hg & Hwfm & Hwf1 & Hcwd & Hsd & Hdd & HD & Hlog & -> & Hex & Hfr & Htg).
  set (D := abspath (st_cwd s0) (PurePath dd)) in *.
  assert (forall F, valid_path (PurePath dd </> F)) as Hvp.
  { intros F. apply valid_path_truediv, valid_path_PurePath. }
  destruct (make_folders_total (fun F => PurePath dd </> F) folders Hvp s1 Hwf1)
    as [sm2 Hmk].
  { intros F HF. rewrite Hcwd. apply Hsd.
    destruct (Hex F HF) as [n Hn]. by apply (wf_parent_dir _ _ n); [apply Hwfm|]. }
  pose proof (make_folders_grows _ _ Hvp _ _ _ Hmk) as Hg2.
  assert (wf sm2) as Hwf2 by (by apply Hg2).
  assert (st_cwd sm2 = st_cwd s0) as Hcwd2.
  { destruct Hg2 as (-> & _). done. }
  assert (stat (st_fs sm2) D = inr Dir) as HD2.
  { apply wf_stat; [apply Hwf2|]. apply (grows_lookup _ _ _ _ Hg2).
    apply Hsd. by apply stat_lookup. }
  exists sm2. split_and!.
  - rewrite organize_files_unfold, bind_unfold, Hmk.
    rewrite bind_unfold, os_listdir_str_ok by (by rewrite ?Hcwd2).
    rewrite bind_unfold, os_listdir_str_ok by (by rewrite ?Hcwd2).
    rewrite Hcwd2. fold D. apply organize_loop_idle.
    + apply Forall_forall. intros f Hf. apply elem_of_children in Hf.
      apply (wf_fs_key _ _ (proj1 Hwf2)) in Hf as [Hv _].
      apply Forall_app in Hv as [_ Hv]. by inversion Hv.
    + rewrite Hcwd2. fold D. intros f _ Hreg.
      rewrite (grows_is_reg _ _ _ Hwf1 Hg2) in Hreg.
      rewrite is_reg_lookup in Hreg by apply Hwf1.
      destruct (fs_lookup (st_fs s1) (D ++ [f])) as [[c r|]|] eqn:E1; try done.
      destruct (classify f folders) as [F|] eqn:Ec; [exfalso|done].
      destruct (decide ((f, F) ∈ planned folders dd s0)) as [Hin|Hnin].
      * destruct (Htg f F Hin) as (c' & r' & _ & _ & Hsrc & Hself).
        destruct (decide (move_target (st_fs sm) (folder_loc (st_cwd s0) dd F ++ [f]) f
                          = D ++ [f])) as [Heq|Hne].
        -- apply (Hnot F); [by eapply classify_folder|by apply Hself].
        -- rewrite Hsrc in E1 by done. done.
      * assert (fs_lookup (st_fs s1) (D ++ [f]) = fs_lookup (st_fs sm) (D ++ [f])) as Hu.
        { apply Hfr. intros f' F' Hm.
          assert (f' <> f) as Hne.
          { intros ->. pose proof Hm as (_ & _ & Hc')%elem_of_moves.
            rewrite Ec in Hc'. injection Hc' as <-. by apply Hnin. }
          split.
          - intros Hx. by apply app_inj_tail in Hx as [_ ?].
          - destruct (move_target_last (st_fs sm) (folder_loc (st_cwd s0) dd F') f')
              as [q ->].
            intros Hx. by apply app_inj_tail in Hx as [_ ?]. }
        rewrite E1 in Hu. symmetry in Hu.
        apply Hnin. rewrite <- (planned_grows _ _ _ _ Hwf Hg). fold D.
        apply elem_of_moves. split_and!; [| |done].
        -- apply elem_of_children. apply (fs_lookup_key _ _ (File c r)); [|done].
           by destruct D.
        -- rewrite is_reg_lookup by apply Hwfm. by rewrite Hu.
  - done.
  - by destruct Hg2 as (_ & -> & _).
  - intros l c r. by apply grows_file.
Qed.

(** ** The deduplicate stage *)

(** The regular file named [f] in directory [P], with its content. *)
Definition entry (fs : filesystem) (P : loc) (f : string)
  : option (string * list byte) :=
  match stat fs (P ++ [f]) with
  | inr (File c _) => Some (f, c)
  | _ => None
  end.

(** The regular files of [P] with their contents, in listing order. *)
Definition regular_entries (fs : filesystem) (P : loc)
  : list (string * list byte) :=
  omap (entry fs P) (children fs P).

(** The entries whose digest no earlier entry (nor [seen]) has. *)
Fixpoint keep_first (h : list byte -> string) (seen : gset string)
    (es : list (string * list byte)) : list (string * list byte) :=
  match es with
  | [] => []
  | (f, c) :: rest =>
      if decide (h c ∈ seen) then keep_first h seen rest
      else (f, c) :: keep_first h ({[h c]} ∪ seen) rest
  end.

(** The body of the file loop of [FileFix.remove_duplicates]. *)
Definition dedup_body (hexdigest : list byte -> string) (folder_path : Path)
    (folder : string) (seen : gset string) (file : string) : M (gset string) :=
  let file_path := folder_path </> file in
  f ← is_file file_path;
  if f : bool then
    data ← read_bytes file_path;
    let file_hash := hexdigest data in
    if decide (file_hash ∈ seen) then
      os_remove file_path ;;
      logging_info (RemovedDuplicate file folder) ;;
      mret seen
    else mret ({[file_hash]} ∪ seen)
  else mret seen.

Lemma remove_duplicates_in_unfold h dd folder :
  FileFix.remove_duplicates_in h dd folder =
  (files ← os_listdir (PurePath dd </> folder);
   for_fold files ∅ (dedup_body h (PurePath dd </> folder) folder) ;;
   mret tt).
Proof. done. Qed.

Lemma entry_lookup fs P f :
  wf_fs fs ->
  entry fs P f =
  match fs_lookup fs (P ++ [f]) with
  | Some (File c _) => Some (f, c)
  | _ => None
  end.
Proof.
  intros Hwf. unfold entry. destruct (fs_lookup fs (P ++ [f])) as [n|] eqn:E.
  - by rewrite (wf_stat _ _ _ Hwf E).
  - by destruct (wf_stat_None _ _ E) as [e ->].
Qed.

Lemma omap_cons_eq {A B} (f : A -> option B) (x : A) (l : list A) :
  omap f (x :: l) = match f x with Some y => y :: omap f l | None => omap f l end.
Proof. done. Qed.

Lemma omap_ext_in {A B} (f g : A -> option B) (l : list A) :
  (forall x, x ∈ l -> f x = g x) -> omap f l = omap g l.
Proof.
  induction l as [|x l IH]; intros H; [done|].
  rewrite !omap_cons_eq, (H x) by left.
  rewrite IH; [done|]. intros y Hy. apply H. by right.
Qed.

Lemma omap_filter_none {A B} (g : A -> option B) (p : A -> bool) (l : list A) :
  (forall x, x ∈ l -> p x = false -> g x = None) ->
  omap g (List.filter p l) = omap g l.
Proof.
  induction l as [|x l IH]; intros H; [done|].
  cbn [List.filter]. rewrite omap_cons_eq.
  destruct (p x) eqn:E.
  - rewrite omap_cons_eq, IH; [done|]. intros y Hy. apply H. by right.
  - rewrite (H x) by (done || left). apply IH. intros y Hy. apply H. by right.
Qed.

(** One step of the file loop, whatever it does. *)
Lemma dedup_step h fp folder seen f s res s1 :
  wf s -> valid_name f ->
  dedup_body h fp folder seen f s = (res, s1) ->
  let L := abspath (st_cwd s) fp ++ [f] in
  match fs_lookup (st_fs s) L with
  | Some (File c r) =>
      if r then
        if decide (h c ∈ seen) then
          res = inr seen ∧
          s1 = mkState (st_cwd s) (fs_delete L (st_fs s))
                       (st_log s ++ [RemovedDuplicate f folder])
        else res = inr ({[h c]} ∪ seen) ∧ s1 = s
      else res = inl PermissionError ∧ s1 = s
  | _ => res = inr seen ∧ s1 = s
  end.
Proof.
  intros Hwf Hv. unfold dedup_body, is_file, read_bytes, os_remove.
  rewrite bind_unfold, query_eq, abspath_child by done. simpl.
  destruct (fs_lookup (st_fs s) (abspath (st_cwd s) fp ++ [f])) as [[c r|]|] eqn:E.
  - rewrite (wf_stat _ _ _ (proj1 Hwf) E). rewrite bind_unfold, call_eq.
    rewrite abspath_child by done. unfold sys_read.
    rewrite (wf_stat _ _ _ (proj1 Hwf) E). destruct r.
    + destruct (decide (h c ∈ seen)).
      * rewrite bind_unfold. unfold mutate, update, sys_unlink.
        rewrite abspath_child by done.
        rewrite (wf_stat _ _ _ (proj1 Hwf) E). simpl. by intros [= <- <-].
      * by intros [= <- <-].
    + by intros [= <- <-].
  - rewrite (wf_stat _ _ _ (proj1 Hwf) E). by intros [= <- <-].
  - destruct (wf_stat_None _ _ E) as [e ->]. by intros [= <- <-].
Qed.

Lemma dedup_loop h fp folder rest :
  forall s seen seen' s',
  wf s -> NoDup rest -> Forall valid_name rest ->
  for_fold rest seen (dedup_body h fp folder) s = (inr seen', s') ->
  let P := abspath (st_cwd s) fp in
  wf s' ∧ st_cwd s' = st_cwd s ∧
  (forall l, (forall f, f ∈ rest -> l <> P ++ [f]) ->
             fs_lookup (st_fs s') l = fs_lookup (st_fs s) l) ∧
  omap (entry (st_fs s') P) (children (st_fs s') P) =
    omap (entry (st_fs s') P) (children (st_fs s) P) ∧
  omap (entry (st_fs s') P) rest =
    keep_first h seen (omap (entry (st_fs s) P) rest).
Proof.
  induction rest as [|f rest IH]; intros s seen seen' s' Hwf Hnd Hv;
    cbn [for_fold].
  - intros [= <- <-]. by split_and!.
  - intros (seen1 & s1 & Hb & Hrest)%bind_inv_ok. cbv zeta.
    apply NoDup_cons in Hnd as [Hnin Hnd].
    inversion Hv as [|? ? Hvf Hvr]; subst.
    pose proof (dedup_step _ _ _ _ _ _ _ _ Hwf Hvf Hb) as Hstep. simpl in Hstep.
    set (P := abspath (st_cwd s) fp) in *.
    assert (wf s1 ∧ st_cwd s1 = st_cwd s ∧
            (forall l, l <> P ++ [f] -> fs_lookup (st_fs s1) l = fs_lookup (st_fs s) l) ∧
            (children (st_fs s1) P = children (st_fs s) P ∨
             children (st_fs s1) P =
               List.filter (fun g => negb (bool_decide (g = f))) (children (st_fs s) P) ∧
             fs_lookup (st_fs s1) (P ++ [f]) = None))
      as (Hwf1 & Hc1 & Hfr1 & Hch1).
    { destruct (fs_lookup (st_fs s) (P ++ [f])) as [[c r|]|] eqn:E;
        [destruct r; [destruct (decide (h c ∈ seen))|]|..];
        destruct Hstep as [_ ->]; try (split_and!; by auto).
      assert (P ++ [f] <> []) as Hne by (by destruct P).
      split_and!; simpl.
      - split; [|apply Hwf]. simpl. eapply wf_fs_delete_file; [apply Hwf|done].
      - done.
      - intros l Hl. rewrite fs_lookup_delete by done. by rewrite decide_False.
      - right. split.
        + by rewrite children_delete, child_name_snoc.
        + rewrite fs_lookup_delete by done. by rewrite decide_True. }
    rewrite <- Hc1 in *. fold P.
    destruct (IH s1 _ _ _ Hwf1 Hnd Hvr Hrest) as (Hwf' & Hc' & Hfr' & Hch' & Hkeep).
    rewrite Hc1 in *. fold P in Hfr', Hch', Hkeep.
    assert (forall g, g <> f ->
              entry (st_fs s1) P g = entry (st_fs s) P g) as Hent.
    { intros g Hg. rewrite !entry_lookup by first [apply Hwf | apply Hwf1].
      rewrite Hfr1; [done|]. intros Hx. by apply app_inj_tail in Hx as [_ ?]. }
    assert (fs_lookup (st_fs s') (P ++ [f]) = fs_lookup (st_fs s1) (P ++ [f])) as Hf'.
    { apply Hfr'. intros g Hg Hx. apply app_inj_tail in Hx as [_ <-]. done. }
    split_and!; try done.
    + intros l Hl. rewrite Hfr'; [apply Hfr1|].
      * apply Hl. by left.
      * intros g Hg. apply Hl. by right.
    + rewrite Hch'. destruct Hch1 as [->|[-> Hgone]]; [done|].
      apply omap_filter_none. intros g Hg Hnone.
      apply negb_false_iff, bool_decide_eq_true in Hnone. subst g.
      rewrite entry_lookup by apply Hwf'. by rewrite Hf', Hgone.
    + rewrite (omap_ext_in (entry (st_fs s1) P) (entry (st_fs s) P)) in Hkeep.
      2:{ intros g Hg. apply Hent. by intros ->. }
      rewrite !omap_cons_eq.
      rewrite (entry_lookup (st_fs s')), Hf', (entry_lookup (st_fs s) P f)
        by first [apply Hwf | apply Hwf'].
      destruct (fs_lookup (st_fs s) (P ++ [f])) as [[c r|]|] eqn:E;
        [destruct r; [destruct (decide (h c ∈ seen)) as [Hin|Hin]|]|..];
        destruct Hstep as [[= ->] ->]; cbn [keep_first st_fs];
        rewrite ?fs_lookup_delete by (by destruct P); rewrite ?E;
        repeat case_decide; try done; by rewrite Hkeep.
Qed.

Lemma keep_first_subset h seen es e : e ∈ keep_first h seen es -> e ∈ es.
Proof.
  revert seen. induction es as [|[f c] es IH]; intros seen; simpl; [done|].
  destruct (decide (h c ∈ seen)).
  - intros H. right. by eapply IH.
  - intros [->|H]%elem_of_cons; [left|right; by eapply IH].
Qed.

Lemma keep_first_fresh h seen es e : e ∈ keep_first h seen es -> h e.2 ∉ seen.
Proof.
  revert seen. induction es as [|[f c] es IH]; intros seen; simpl.
  - by intros ?%elem_of_nil.
  - destruct (decide (h c ∈ seen)); [by apply IH|].
    intros [->|H]%elem_of_cons; [done|]. apply IH in H. set_solver.
Qed.

Lemma keep_first_NoDup h seen es :
  NoDup (map (fun e => h e.2) (keep_first h seen es)).
Proof.
  revert seen. induction es as [|[f c] es IH]; intros seen; simpl; [constructor|].
  destruct (decide (h c ∈ seen)); [by apply IH|]. simpl.
  apply NoDup_cons. split; [|by apply IH].
  intros (e & He & Hin)%list_elem_of_In%in_map_iff.
  apply list_elem_of_In, keep_first_fresh in Hin. set_solver.
Qed.

Lemma keep_first_elem h seen pre f c post :
  NoDup (pre ++ (f, c) :: post).*1 ->
  (f, c) ∈ keep_first h seen (pre ++ (f, c) :: post) <->
  (h c ∉ seen) ∧ forall e, e ∈ pre -> h e.2 <> h c.
Proof.
  revert seen. induction pre as [|[f0 c0] pre IH]; intros seen Hnd; simpl.
  - destruct (decide (h c ∈ seen)) as [Hin|Hin].
    + split; [|by intros [? _]]. intros H%keep_first_subset.
      simpl in Hnd. apply NoDup_cons in Hnd as [Hn _]. exfalso. apply Hn.
      apply list_elem_of_fmap. by exists (f, c).
    + split; [|intros _; left]. intros _. split; [done|].
      by intros e ?%elem_of_nil.
  - simpl in Hnd. apply NoDup_cons in Hnd as [Hn Hnd].
    assert ((f, c) <> (f0, c0)) as Hne.
    { intros [= -> ->]. apply Hn. rewrite fmap_app, fmap_cons.
      apply elem_of_app. right. left. }
    destruct (decide (h c0 ∈ seen)) as [Hin|Hin].
    + rewrite (IH seen Hnd). split.
      * intros [Hc Hp]. split; [done|].
        intros e [->|He]%elem_of_cons; [simpl; congruence | by apply Hp].
      * intros [Hc Hp]. split; [done|]. intros e He. apply Hp. by right.
    + rewrite elem_of_cons, (IH _ Hnd). split.
      * intros [?|[Hc Hp]]; [done|]. split; [set_solver|].
        intros e [->|He]%elem_of_cons; [simpl; set_solver | by apply Hp].
      * intros [Hc Hp]. right. split.
        -- assert (h c0 <> h c) by (apply (Hp (f0, c0)); left). set_solver.
        -- intros e He. apply Hp. by right.
Qed.

Lemma entry_fst fs P f e : entry fs P f = Some e -> e.1 = f.
Proof.
  unfold entry. destruct (stat fs (P ++ [f])) as [|[c r|]]; try done.
  by intros [= <-].
Qed.

Lemma regular_entries_NoDup fs P : NoDup fs.*1 -> NoDup (regular_entries fs P).*1.
Proof.
  intros Hnd. unfold regular_entries.
  pose proof (NoDup_children fs P Hnd) as H.
  induction (children fs P) as [|f l IH]; [constructor|].
  apply NoDup_cons in H as [Hn H]. rewrite omap_cons_eq.
  destruct (entry fs P f) as [e|] eqn:E; [|by apply IH].
  rewrite fmap_cons. apply NoDup_cons. split; [|by apply IH].
  intros (e' & He' & Hin)%list_elem_of_fmap.
  apply list_elem_of_omap in Hin as (g & Hg & Hge).
  apply entry_fst in E, Hge. apply Hn. congruence.
Qed.

(** What the file-removing steps do: some regular files go. *)
Definition prunes (s s' : state) : Prop :=
  st_cwd s' = st_cwd s ∧ (wf s -> wf s') ∧
  forall l, fs_lookup (st_fs s') l = fs_lookup (st_fs s) l ∨
            (fs_lookup (st_fs s') l = None ∧
             exists c r, fs_lookup (st_fs s) l = Some (File c r)).

Lemma prunes_refl s : prunes s s.
Proof. unfold prunes. split_and!; try done. by left. Qed.

Lemma prunes_trans s1 s2 s3 : prunes s1 s2 -> prunes s2 s3 -> prunes s1 s3.
Proof.
  intros (Hc1 & Hw1 & Hl1) (Hc2 & Hw2 & Hl2). unfold prunes.
  split_and!; [congruence | by auto |].
  intros l. destruct (Hl2 l) as [->|[-> (c & r & H)]]; [apply Hl1|].
  right. split; [done|]. destruct (Hl1 l) as [<-|[? _]]; [by eauto | congruence].
Qed.

Lemma os_remove_prunes p : steps prunes (os_remove p).
Proof.
  intros s r s' [(e & _ & _ & ->)|(fs' & H & _ & ->)]%mutate_inv.
  - apply prunes_refl.
  - apply sys_unlink_inv in H as (c & r0 & Hst & ->). apply stat_lookup in Hst.
    assert (abspath (st_cwd s) p <> []) as Hne by (by intros Hx; rewrite Hx in Hst).
    unfold prunes. split_and!; simpl; [done | |].
    + intros [Hwf Hcwd]. split; [|done]. simpl. by eapply wf_fs_delete_file.
    + intros l. rewrite fs_lookup_delete by done.
      case_decide; [subst; right; by eauto | by left].
Qed.

Lemma logging_info_prunes e : steps prunes (logging_info e).
Proof.
  intros s r s' [= <- <-]. unfold prunes. split_and!; try done. by left.
Qed.

Ltac prunes_tac :=
  steps_tac prunes_refl prunes_trans
            ltac:(first [apply os_remove_prunes | apply logging_info_prunes]).

Lemma dedup_body_prunes h fp folder seen f :
  steps prunes (dedup_body h fp folder seen f).
Proof. unfold dedup_body, is_file, read_bytes. prunes_tac. Qed.

Lemma remove_duplicates_in_prunes h dd folder :
  steps prunes (FileFix.remove_duplicates_in h dd folder).
Proof.
  rewrite remove_duplicates_in_unfold. unfold os_listdir.
  apply steps_bind; [apply prunes_trans | apply steps_call, prunes_refl |].
  intros files.
  apply steps_bind; [apply prunes_trans | | intros ?; apply (steps_ret _ prunes_refl)].
  apply steps_for_fold; [apply prunes_refl | apply prunes_trans |].
  intros seen f _. apply dedup_body_prunes.
Qed.

Lemma remove_duplicates_prunes h folders dd :
  steps prunes (FileFix.remove_duplicates h folders dd).
Proof.
  unfold FileFix.remove_duplicates.
  apply steps_for_each; [apply prunes_refl | apply prunes_trans |].
  intros folder _. apply remove_duplicates_in_prunes.
Qed.

Lemma os_listdir_inv p s r s' :
  os_listdir p s = (r, s') ->
  s' = s ∧
  forall l, r = inr l ->
    stat (st_fs s) (abspath (st_cwd s) p) = inr Dir ∧
    l = children (st_fs s) (abspath (st_cwd s) p).
Proof.
  unfold os_listdir. rewrite call_eq. intros [= <- <-]. split; [done|].
  intros l. unfold sys_listdir.
  destruct (stat (st_fs s) (abspath (st_cwd s) p)) as [|[|]]; try done.
  by intros [= <-].
Qed.

(** C2. After a completed pass over a folder the regular files left in it
    have pairwise different digests; a regular file is left exactly when
    no file listed before it had its digest, and otherwise it is gone: of
    each group of equal digest the first listed survives. *)
Theorem dedup_keeps_first_listed h dd folder s0 s1 :
  wf s0 -> FileFix.remove_duplicates_in h dd folder s0 = (inr tt, s1) ->
  let P := folder_loc (st_cwd s0) dd folder in
  let before := regular_entries (st_fs s0) P in
  let after := regular_entries (st_fs s1) P in
  NoDup (map (fun e => h e.2) after) ∧
  after = keep_first h ∅ before ∧
  (forall pre f c post, before = pre ++ (f, c) :: post ->
     ((f, c) ∈ after <-> forall e, e ∈ pre -> h e.2 <> h c) ∧
     ((exists e, e ∈ pre ∧ h e.2 = h c) ->
      stat (st_fs s1) (P ++ [f]) = inl FileNotFoundError)).
Proof.
  intros Hwf H P before after.
  pose proof (remove_duplicates_in_prunes _ _ _ _ _ _ H) as (Hcwd & Hwf1 & Hpr).
  specialize (Hwf1 Hwf).
  rewrite remove_duplicates_in_unfold in H.
  apply bind_inv_ok in H as (files & s' & Hl & H).
  apply os_listdir_inv in Hl as [-> Hfiles].
  destruct (Hfiles files eq_refl) as [HP ->]. fold (folder_loc (st_cwd s0) dd folder) in HP.
  fold P in HP.
  apply bind_inv_ok in H as (seen' & s2 & Hloop & Hret). injection Hret as <-.
  apply dedup_loop in Hloop as (_ & _ & _ & Hch & Hkeep);
    [|done|apply NoDup_children, Hwf|].
  2:{ apply Forall_forall. intros f Hf. apply elem_of_children in Hf.
      apply (wf_fs_key _ _ (proj1 Hwf)) in Hf as [Hv _].
      apply Forall_app in Hv as [_ Hv]. by inversion Hv. }
  fold (folder_loc (st_cwd s0) dd folder) in Hch, Hkeep. fold P in Hch, Hkeep.
  assert (after = keep_first h ∅ before) as Hafter.
  { unfold after, before, regular_entries. by rewrite Hch, Hkeep. }
  split_and!.
  - rewrite Hafter. apply keep_first_NoDup.
  - done.
  - intros pre f c post Hb.
    assert ((f, c) ∈ after <-> forall e, e ∈ pre -> h e.2 <> h c) as Hiff.
    { rewrite Hafter, Hb. rewrite keep_first_elem.
      - split; [by intros [_ ?] | intros ?; split; [set_solver | done]].
      - rewrite <- Hb. apply regular_entries_NoDup, Hwf. }
    split; [done|]. intros (e & He & Heq).
    assert ((f, c) ∉ after) as Hnot.
    { intros Hin. by apply (proj1 Hiff Hin e). }
    assert ((f, c) ∈ before) as Hin.
    { rewrite Hb. apply elem_of_app. right. left. }
    apply list_elem_of_omap in Hin as (g & Hg & Hent).
    pose proof (entry_fst _ _ _ _ Hent) as Hgf. simpl in Hgf. subst g.
    rewrite entry_lookup in Hent by apply Hwf.
    rewrite stat_child.
    2:{ apply wf_stat; [apply Hwf1|]. apply stat_lookup in HP.
        destruct (Hpr P) as [->|[_ (? & ? & ?)]]; [done | congruence]. }
    destruct (Hpr (P ++ [f])) as [Hsame|[-> _]]; [|done].
    exfalso. apply Hnot. unfold after, regular_entries.
    rewrite Hch. apply list_elem_of_omap. exists f. split; [done|].
    rewrite entry_lookup by apply Hwf1. by rewrite Hsame.
Qed.

(** ** Exceptions end the run *)

Lemma for_each_app {A} (xs ys : list A) body s :
  for_each (xs ++ ys) body s = (for_each xs body ;; for_each ys body) s.
Proof.
  revert s. induction xs as [|x xs IH]; intros s; [done|].
  cbn [for_each app]. rewrite !bind_unfold.
  destruct (body x s) as [[e|[]] s1]; [done|]. rewrite IH. by rewrite bind_unfold.
Qed.

Lemma for_fold_app {A B} (xs ys : list A) (acc : B) body s :
  for_fold (xs ++ ys) acc body s =
  (acc' ← for_fold xs acc body; for_fold ys acc' body) s.
Proof.
  revert acc s. induction xs as [|x xs IH]; intros acc s; [done|].
  cbn [for_fold app]. rewrite !bind_unfold.
  destruct (body acc x s) as [[e|acc1] s1]; [done|]. rewrite IH.
  by rewrite bind_unfold.
Qed.

(** A pass over files that can all be read completes. *)
Lemma dedup_loop_total h fp folder rest :
  forall s seen,
  wf s -> NoDup rest -> Forall valid_name rest ->
  (forall g c r, g ∈ rest ->
     fs_lookup (st_fs s) (abspath (st_cwd s) fp ++ [g]) = Some (File c r) ->
     r = true) ->
  exists seen' s', for_fold rest seen (dedup_body h fp folder) s = (inr seen', s').
Proof.
  induction rest as [|f rest IH]; intros s seen Hwf Hnd Hv Hrd.
  - by exists seen, s.
  - cbn [for_fold]. rewrite bind_unfold.
    apply NoDup_cons in Hnd as [Hnin Hnd].
    inversion Hv as [|? ? Hvf Hvr]; subst.
    destruct (dedup_body h fp folder seen f s) as [res s1] eqn:Hb.
    pose proof (dedup_step _ _ _ _ _ _ _ _ Hwf Hvf Hb) as Hstep. simpl in Hstep.
    pose proof (dedup_body_prunes _ _ _ _ _ _ _ _ Hb) as (Hc1 & Hwf1 & Hpr).
    assert (exists seen1, res = inr seen1) as [seen1 ->].
    { destruct (fs_lookup (st_fs s) (abspath (st_cwd s) fp ++ [f])) as [[c r|]|] eqn:E.
      - rewrite (Hrd f c r) in Hstep by (done || left).
        destruct (decide (h c ∈ seen)); destruct Hstep as [-> _]; by eauto.
      - destruct Hstep as [-> _]; by eauto.
      - destruct Hstep as [-> _]; by eauto. }
    apply IH; [by apply Hwf1 | done | done |].
    intros g c r Hg Hl. rewrite Hc1 in Hl.
    destruct (Hpr (abspath (st_cwd s) fp ++ [g])) as [Hsame|[Hnone _]]; [|congruence].
    rewrite Hsame in Hl. eapply Hrd; [by right | done].
Qed.

Lemma main_unfold h folders dd :
  FileFix.main h (mkConfig (Some folders) (Some dd)) =
  (file_counts ← FileFix.organize_files folders dd;
   FileFix.remove_duplicates h folders dd ;;
   FileFix.clean_up_empty_folders dd ;;
   generate_summary file_counts).
Proof. done. Qed.

(** C3, as the code has it.  No step is guarded: the first regular file
    of a folder that cannot be read ends the pass with [PermissionError];
    the file is kept and so is every entry listed after it; the later
    folders are not deduplicated, and the run ends there, before the
    cleanup stage. *)
Theorem unreadable_file_ends_the_run h dd folder s0 pre f c post :
  wf s0 ->
  let P := folder_loc (st_cwd s0) dd folder in
  sys_listdir (st_fs s0) P = inr (pre ++ f :: post) ->
  (forall g c' r', g ∈ pre ->
     stat (st_fs s0) (P ++ [g]) = inr (File c' r') -> r' = true) ->
  stat (st_fs s0) (P ++ [f]) = inr (File c false) ->
  exists s1,
    FileFix.remove_duplicates_in h dd folder s0 = (inl PermissionError, s1) ∧
    stat (st_fs s1) (P ++ [f]) = inr (File c false) ∧
    (forall g, g ∈ post ->
       fs_lookup (st_fs s1) (P ++ [g]) = fs_lookup (st_fs s0) (P ++ [g])) ∧
    (forall earlier exts later sA,
       FileFix.remove_duplicates h earlier dd sA = (inr tt, s0) ->
       FileFix.remove_duplicates h (earlier ++ (folder, exts) :: later) dd sA
       = (inl PermissionError, s1)) ∧
    (forall earlier exts later sI counts sA,
       let folders := earlier ++ (folder, exts) :: later in
       FileFix.organize_files folders dd sI = (inr counts, sA) ->
       FileFix.remove_duplicates h earlier dd sA = (inr tt, s0) ->
       FileFix.main h (mkConfig (Some folders) (Some dd)) sI
       = (inl PermissionError, s1)).
Proof.
  intros Hwf P Hlist Hpre Hf.
  assert (stat (st_fs s0) P = inr Dir ∧ children (st_fs s0) P = pre ++ f :: post)
    as [HP Hch].
  { unfold sys_listdir in Hlist. destruct (stat (st_fs s0) P) as [|[|]]; try done.
    by injection Hlist as ->. }
  pose proof (NoDup_children (st_fs s0) P (proj1 (proj1 Hwf))) as Hnd.
  rewrite Hch in Hnd.
  assert (Forall valid_name (pre ++ f :: post)) as Hv.
  { rewrite <- Hch. apply Forall_forall. intros g Hg. apply elem_of_children in Hg.
    apply (wf_fs_key _ _ (proj1 Hwf)) in Hg as [Hv _].
    apply Forall_app in Hv as [_ Hv]. by inversion Hv. }
  apply NoDup_app in Hnd as (Hnd1 & Hdisj & Hnd2).
  apply Forall_app in Hv as [Hv1 Hv2].
  destruct (dedup_loop_total h (PurePath dd </> folder) folder pre s0 ∅ Hwf Hnd1 Hv1)
    as (seen1 & s1 & Hloop).
  { intros g c' r' Hg Hl. apply (Hpre g c' r' Hg). by apply wf_stat; [apply Hwf|]. }
  destruct (dedup_loop _ _ _ _ _ _ _ _ Hwf Hnd1 Hv1 Hloop) as (Hwf1 & Hc1 & Hfr & _).
  fold (folder_loc (st_cwd s0) dd folder) in Hfr. fold P in Hfr.
  assert (forall g, g ∈ f :: post ->
            fs_lookup (st_fs s1) (P ++ [g]) = fs_lookup (st_fs s0) (P ++ [g])) as Hlater.
  { intros g Hg. apply Hfr. intros g' Hg' Hx. apply app_inj_tail in Hx as [_ ->].
    by apply (Hdisj g'). }
  assert (FileFix.remove_duplicates_in h dd folder s0 = (inl PermissionError, s1)) as Hpass.
  { rewrite remove_duplicates_in_unfold. rewrite bind_unfold.
    unfold os_listdir. rewrite call_eq. fold (folder_loc (st_cwd s0) dd folder).
    fold P. rewrite Hlist. rewrite bind_unfold, for_fold_app, bind_unfold, Hloop.
    cbn [for_fold]. rewrite bind_unfold.
    destruct (dedup_body h (PurePath dd </> folder) folder seen1 f s1) as [res s2] eqn:Hb.
    apply dedup_step in Hb; [|done|by inversion Hv2]. simpl in Hb.
    rewrite Hc1 in Hb. fold (folder_loc (st_cwd s0) dd folder) in Hb. fold P in Hb.
    rewrite Hlater in Hb by left. rewrite (stat_lookup _ _ _ Hf) in Hb.
    by destruct Hb as [-> ->]. }
  exists s1. split_and!.
  - done.
  - apply wf_stat; [apply Hwf1|]. rewrite Hlater by left. by apply stat_lookup.
  - intros g Hg. apply Hlater. by right.
  - intros earlier exts later sA Hearlier. unfold FileFix.remove_duplicates in *.
    rewrite fmap_app, for_each_app, bind_unfold, Hearlier.
    rewrite fmap_cons. cbn [for_each fst]. by rewrite bind_unfold, Hpass.
  - intros earlier exts later sI counts sA folders Horg Hearlier.
    rewrite main_unfold, bind_unfold, Horg, bind_unfold.
    unfold folders, FileFix.remove_duplicates in *.
    rewrite fmap_app, for_each_app, bind_unfold, Hearlier.
    rewrite fmap_cons. cbn [for_each fst]. by rewrite bind_unfold, Hpass.
Qed.

(** ** The cleanup stage *)

(** A directory with no entry. *)
Definition empty_dir (fs : filesystem) (l : loc) : bool :=
  match stat fs l, children fs l with
  | inr Dir, [] => true
  | _, _ => false
  end.

(** [l] is an entry of [D], one of [names], and an empty directory. *)
Definition empty_child (fs : filesystem) (D : loc) (names : list string)
    (l : loc) : bool :=
  match child_name D l with
  | Some n => bool_decide (n ∈ names) && empty_dir fs l
  | None => false
  end.

(** The body of the loop of [FileFix.clean_up_empty_folders]. *)
Definition cleanup_body (dd : string) (folder : string) : M unit :=
  let folder_path := PurePath dd </> folder in
  d ← is_dir folder_path;
  if d : bool then
    inner ← os_listdir folder_path;
    match inner with
    | [] => path_rmdir folder_path ;; logging_info (RemovedEmpty folder)
    | _ :: _ => mret tt
    end
  else mret tt.

Lemma clean_up_unfold dd :
  FileFix.clean_up_empty_folders dd =
  (entries ← os_listdir_str dd; for_each entries (cleanup_body dd)).
Proof. done. Qed.

Lemma empty_dir_lookup fs l :
  wf_fs fs ->
  empty_dir fs l =
  match fs_lookup fs l, children fs l with
  | Some Dir, [] => true
  | _, _ => false
  end.
Proof.
  intros Hwf. unfold empty_dir. destruct (fs_lookup fs l) as [n|] eqn:E.
  - by rewrite (wf_stat _ _ _ Hwf E).
  - by destruct (wf_stat_None _ _ E) as [e ->].
Qed.

Lemma sys_rmdir_ok fs l :
  stat fs l = inr Dir -> l <> [] -> children fs l = [] ->
  sys_rmdir fs l = inr (fs_delete l fs).
Proof.
  intros Hs Hl Hc. unfold sys_rmdir. rewrite Hs.
  destruct l; [done|]. by rewrite Hc.
Qed.

Lemma cleanup_step dd n s :
  valid_name n ->
  let L := abspath (st_cwd s) (PurePath dd) ++ [n] in
  cleanup_body dd n s =
  (inr tt,
   if empty_dir (st_fs s) L
   then mkState (st_cwd s) (fs_delete L (st_fs s)) (st_log s ++ [RemovedEmpty n])
   else s).
Proof.
  intros Hv L. unfold cleanup_body, is_dir, os_listdir, path_rmdir, empty_dir.
  rewrite bind_unfold, query_eq, abspath_child by done. fold L.
  destruct (stat (st_fs s) L) as [e|[c r|]] eqn:E; try done.
  rewrite bind_unfold, call_eq, abspath_child by done. fold L.
  unfold sys_listdir. rewrite E.
  destruct (children (st_fs s) L) as [|x xs] eqn:Ec; [|done].
  assert (L <> []) as HL by (unfold L; by destruct (abspath (st_cwd s) (PurePath dd))).
  rewrite bind_unfold. unfold mutate, update.
  rewrite abspath_child by done. fold L.
  by rewrite (sys_rmdir_ok _ _ E HL Ec).
Qed.

Lemma child_name_sibling D n m : child_name (D ++ [m]) (D ++ [n]) = None.
Proof.
  destruct (child_name (D ++ [m]) (D ++ [n])) as [x|] eqn:E; [|done].
  apply child_name_Some in E. apply (f_equal length) in E.
  rewrite !length_app in E. simpl in E. lia.
Qed.

Lemma cleanup_loop dd rest :
  forall s, wf s -> NoDup rest -> Forall valid_name rest ->
  let D := abspath (st_cwd s) (PurePath dd) in
  exists s',
    for_each rest (cleanup_body dd) s = (inr tt, s') ∧
    wf s' ∧ st_cwd s' = st_cwd s ∧
    (forall l, fs_lookup (st_fs s') l =
               if empty_child (st_fs s) D rest l then None
               else fs_lookup (st_fs s) l) ∧
    st_log s' = st_log s ++
      map RemovedEmpty
          (List.filter (fun n => empty_dir (st_fs s) (D ++ [n])) rest).
Proof.
  induction rest as [|n rest IH]; intros s Hwf Hnd Hv D.
  - exists s. split_and!; try done.
    + intros l. unfold empty_child. by destruct (child_name D l).
    + by rewrite app_nil_r.
  - apply NoDup_cons in Hnd as [Hnin Hnd].
    inversion Hv as [|? ? Hvn Hvr]; subst.
    cbn [for_each]. rewrite bind_unfold, (cleanup_step dd n s Hvn). fold D.
    set (s1 := if empty_dir (st_fs s) (D ++ [n])
               then mkState (st_cwd s) (fs_delete (D ++ [n]) (st_fs s))
                            (st_log s ++ [RemovedEmpty n])
               else s).
    assert (D ++ [n] <> []) as HL by (by destruct D).
    assert (wf s1 ∧ st_cwd s1 = st_cwd s) as [Hwf1 Hc1].
    { unfold s1. destruct (empty_dir (st_fs s) (D ++ [n])) eqn:E; [|done].
      split; [|done]. split; [|apply Hwf]. simpl.
      apply wf_fs_delete_empty; [apply Hwf | done |].
      unfold empty_dir in E. destruct (stat (st_fs s) (D ++ [n])) as [|[|]]; try done.
      by destruct (children (st_fs s) (D ++ [n])). }
    assert (forall l, l <> D ++ [n] ->
              fs_lookup (st_fs s1) l = fs_lookup (st_fs s) l) as Hfr1.
    { intros l Hl. unfold s1. destruct (empty_dir (st_fs s) (D ++ [n])); [|done].
      simpl. rewrite fs_lookup_delete by done. by rewrite decide_False. }
    assert (forall m, m <> n ->
              empty_dir (st_fs s1) (D ++ [m]) = empty_dir (st_fs s) (D ++ [m])) as Hemp.
    { intros m Hm. rewrite !empty_dir_lookup by first [apply Hwf | apply Hwf1].
      rewrite Hfr1 by (intros Hx; by apply app_inj_tail in Hx as [_ ?]).
      unfold s1. destruct (empty_dir (st_fs s) (D ++ [n])); [|done]. simpl.
      by rewrite children_delete, child_name_sibling. }
    destruct (IH s1 Hwf1 Hnd Hvr) as (s' & Hrun & Hwf' & Hc' & Hlk & Hlog).
    rewrite Hc1 in Hlk, Hlog. fold D in Hlk, Hlog.
    exists s'. split_and!; [done | done | congruence | |].
    + intros l. rewrite Hlk. unfold empty_child.
      destruct (child_name D l) as [m|] eqn:Em.
      * apply child_name_Some in Em. subst l.
        destruct (decide (m = n)) as [->|Hmn].
        -- rewrite (bool_decide_eq_false_2 (n ∈ rest)) by done.
           rewrite (bool_decide_eq_true_2 (n ∈ n :: rest)) by left. simpl.
           unfold s1. destruct (empty_dir (st_fs s) (D ++ [n])); [|done].
           simpl. rewrite fs_lookup_delete by done. by rewrite decide_True.
        -- rewrite (Hemp m Hmn), Hfr1
             by (intros Hx; by apply app_inj_tail in Hx as [_ ?]).
           destruct (decide (m ∈ rest)) as [Hin|Hin].
           ++ rewrite !bool_decide_eq_true_2; [done | by right | done].
           ++ rewrite !bool_decide_eq_false_2; [done | | done].
              by intros [?|?]%elem_of_cons.
      * apply Hfr1. intros ->. by rewrite child_name_snoc in Em.
    + rewrite Hlog. cbn [List.filter].
      rewrite (List.filter_ext_in _ (fun n0 => empty_dir (st_fs s) (D ++ [n0])) rest).
      2:{ intros m Hm. apply Hemp. intros ->. by apply list_elem_of_In in Hm. }
      unfold s1. destruct (empty_dir (st_fs s) (D ++ [n])); [|done].
      simpl. by rewrite <- app_assoc.
Qed.

Lemma empty_child_all fs D l :
  empty_child fs D (children fs D) l =
  match child_name D l with
  | Some _ => empty_dir fs l
  | None => false
  end.
Proof.
  unfold empty_child. destruct (child_name D l) as [n|] eqn:E; [|done].
  apply child_name_Some in E. subst l. unfold empty_dir.
  destruct (stat fs (D ++ [n])) as [|[|]] eqn:Es; rewrite ?andb_false_r; try done.
  rewrite bool_decide_eq_true_2; [done|].
  apply elem_of_children. apply stat_lookup in Es.
  apply (fs_lookup_key _ _ Dir); [by destruct D | done].
Qed.

(** C7. On a directory that can be listed, the cleanup stage completes;
    afterwards a location is gone exactly when it was an entry of the
    scanned directory and an empty directory at scan time, and every
    other location is as it was, whatever it holds.  One removal is
    logged per such directory, in listing order. *)
Theorem cleanup_removes_the_empty_entries dd s0 entries :
  wf s0 -> dd <> EmptyString ->
  let D := abspath (st_cwd s0) (PurePath dd) in
  sys_listdir (st_fs s0) D = inr entries ->
  exists s1,
    FileFix.clean_up_empty_folders dd s0 = (inr tt, s1) ∧
    (forall l, fs_lookup (st_fs s1) l =
               match child_name D l with
               | Some _ => if empty_dir (st_fs s0) l then None
                           else fs_lookup (st_fs s0) l
               | None => fs_lookup (st_fs s0) l
               end) ∧
    st_log s1 = st_log s0 ++
      map RemovedEmpty
          (List.filter (fun n => empty_dir (st_fs s0) (D ++ [n])) entries).
Proof.
  intros Hwf Hdd D Hlist.
  assert (stat (st_fs s0) D = inr Dir ∧ entries = children (st_fs s0) D) as [HD ->].
  { unfold sys_listdir in Hlist. destruct (stat (st_fs s0) D) as [|[|]]; try done.
    by injection Hlist as <-. }
  destruct (cleanup_loop dd (children (st_fs s0) D) s0 Hwf)
    as (s1 & Hrun & _ & _ & Hlk & Hlog).
  { apply NoDup_children, Hwf. }
  { apply Forall_forall. intros f Hf. apply elem_of_children in Hf.
    apply (wf_fs_key _ _ (proj1 Hwf)) in Hf as [Hv _].
    apply Forall_app in Hv as [_ Hv]. by inversion Hv. }
  exists s1. split_and!.
  - by rewrite clean_up_unfold, bind_unfold, os_listdir_str_ok.
  - intros l. rewrite Hlk. fold D. rewrite empty_child_all.
    by destruct (child_name D l).
  - done.
Qed.

(** ** The whole run *)

Lemma prunes_dir s s' l :
  prunes s s' -> fs_lookup (st_fs s) l = Some Dir -> fs_lookup (st_fs s') l = Some Dir.
Proof.
  intros (_ & _ & Hpr) H. destruct (Hpr l) as [->|[_ (c & r & Hx)]]; congruence.
Qed.

Lemma prunes_children_nil s s' l :
  prunes s s' -> children (st_fs s) l = [] -> children (st_fs s') l = [].
Proof.
  intros (_ & _ & Hpr) H.
  destruct (children (st_fs s') l) as [|n ns] eqn:E; [done|]. exfalso.
  assert (n ∈ children (st_fs s') l) as Hn by (rewrite E; left).
  apply elem_of_children, assoc_is_Some in Hn as [x Hx].
  assert (fs_lookup (st_fs s') (l ++ [n]) = Some x) as Hx' by (by destruct l).
  destruct (Hpr (l ++ [n])) as [Hs|[Hs _]]; [|congruence].
  rewrite Hx' in Hs. symmetry in Hs.
  assert (n ∈ children (st_fs s) l) as Hin.
  { apply elem_of_children. apply (fs_lookup_key _ _ x); [by destruct l | done]. }
  rewrite H in Hin. by apply elem_of_nil in Hin.
Qed.

(** C8, as the code has it.  For a configuration of plain paths: a
    configured folder whose path leads to an entry [n] of the download
    directory (as [docs], [docs/], [./docs] or the absolute path of such
    an entry do), which did not exist and which holds no entry after the
    organize stage, is made by that stage and is gone after a completed
    run. *)
Theorem unused_folder_is_made_and_removed h folders dd s0 counts s1 s3 F n :
  wf s0 -> plain_config dd folders ->
  FileFix.organize_files folders dd s0 = (inr counts, s1) ->
  FileFix.main h (mkConfig (Some folders) (Some dd)) s0 = (inr tt, s3) ->
  F ∈ folders.*1 ->
  let L := folder_loc (st_cwd s0) dd F in
  L = abspath (st_cwd s0) (PurePath dd) ++ [n] ->
  fs_lookup (st_fs s0) L = None ->
  children (st_fs s1) L = [] ->
  stat (st_fs s1) L = inr Dir ∧ fs_lookup (st_fs s3) L = None.
Proof.
  intros Hwf _ Horg Hmain HF L HLn Hfresh Hempty.
  destruct (organize_files_ok _ _ _ _ _ Hwf Horg)
    as (sm & Hg & Hwfm & Hwf1 & Hcwd & Hsd & Hdd & HD & _ & _ & Hex & _).
  set (D := abspath (st_cwd s0) (PurePath dd)) in *.
  assert (folder_loc (st_cwd s0) dd F = L) as HL by done.
  assert (fs_lookup (st_fs s1) L = Some Dir) as HL1.
  { apply Hsd. destruct (Hex F HF) as [n0 Hn]. rewrite HL in Hn.
    destruct (grows_lookup_inv _ _ L Hg) as [Hs|[_ ?]]; [congruence | done]. }
  split; [by apply wf_stat; [apply Hwf1|]|].
  rewrite main_unfold, bind_unfold, Horg in Hmain.
  apply bind_inv_ok in Hmain as ([] & s2 & Hdd2 & Hmain).
  apply bind_inv_ok in Hmain as ([] & s3' & Hcl & Hsum). injection Hsum as ->.
  pose proof (remove_duplicates_prunes _ _ _ _ _ _ Hdd2) as Hpr.
  assert (wf s2) as Hwf2 by (by apply Hpr).
  assert (st_cwd s2 = st_cwd s0) as Hcwd2 by (destruct Hpr as (-> & _); done).
  rewrite clean_up_unfold in Hcl.
  rewrite bind_unfold, os_listdir_str_ok in Hcl; [|done|].
  2:{ rewrite Hcwd2. fold D. apply wf_stat; [apply Hwf2|].
      apply (prunes_dir _ _ _ Hpr), Hsd. by apply stat_lookup. }
  rewrite Hcwd2 in Hcl. fold D in Hcl.
  destruct (cleanup_loop dd (children (st_fs s2) D) s2 Hwf2)
    as (s3' & Hrun & _ & _ & Hlk & _).
  { apply NoDup_children, Hwf2. }
  { apply Forall_forall. intros f Hf. apply elem_of_children in Hf.
    apply (wf_fs_key _ _ (proj1 Hwf2)) in Hf as [Hvf _].
    apply Forall_app in Hvf as [_ Hvf]. by inversion Hvf. }
  rewrite Hrun in Hcl. injection Hcl as <-.
  rewrite Hlk, Hcwd2. fold D. rewrite empty_child_all.
  assert (child_name D L = Some n) as -> by (rewrite HLn; apply child_name_snoc).
  rewrite empty_dir_lookup by apply Hwf2.
  rewrite (prunes_dir _ _ _ Hpr HL1). by rewrite (prunes_children_nil _ _ _ Hpr Hempty).
Qed.

(** ** The two variants *)

(** The primitives see a path only through the location it names. *)
Lemma query_place {A} (f : filesystem -> loc -> A) p q s :
  abspath (st_cwd s) p = abspath (st_cwd s) q -> query f p s = query f q s.
Proof. intros H. unfold query. by rewrite H. Qed.

Lemma call_place {A} (f : filesystem -> loc -> exn + A) p q s :
  abspath (st_cwd s) p = abspath (st_cwd s) q -> call f p s = call f q s.
Proof. intros H. unfold call. by rewrite H. Qed.

Lemma mutate_place f p q s :
  abspath (st_cwd s) p = abspath (st_cwd s) q -> mutate f p s = mutate f q s.
Proof. intros H. unfold mutate. by rewrite H. Qed.

Lemma os_rename_place src p q s :
  abspath (st_cwd s) p = abspath (st_cwd s) q ->
  os_rename src p s = os_rename src q s.
Proof. intros H. unfold os_rename. by rewrite H. Qed.

Lemma mutate_err_state f p s e s' : mutate f p s = (inl e, s') -> s' = s.
Proof. by intros [(? & _ & _ & ->)|(? & _ & [=] & _)]%mutate_inv. Qed.

Lemma move_tail_place src p q s :
  abspath (st_cwd s) p = abspath (st_cwd s) q ->
  catch (os_rename src p) (fun _ => shutil_copy2 src p ;; os_remove src) s =
  catch (os_rename src q) (fun _ => shutil_copy2 src q ;; os_remove src) s.
Proof.
  intros H. unfold catch. rewrite (os_rename_place src p q s H).
  destruct (os_rename src q s) as [[e|x] s1] eqn:E; [|done].
  assert (s1 = s) as ->.
  { by apply os_rename_inv in E as [(? & _ & _ & ->)|(? & _ & [=] & _)]. }
  unfold shutil_copy2, read_bytes, write_bytes. rewrite !bind_unfold, !call_eq.
  destruct (sys_read (st_fs s) (abspath (st_cwd s) src)); [done|].
  by rewrite (mutate_place _ p q s H).
Qed.

Lemma shutil_move_place src p q s :
  abspath (st_cwd s) p = abspath (st_cwd s) q ->
  shutil_move src p s = shutil_move src q s.
Proof.
  intros H. unfold shutil_move, is_dir, path_exists.
  rewrite !bind_unfold, !query_eq, H.
  assert (abspath (st_cwd s) {| anchor := anchor p; parts := parts p ++ [basename src] |} =
          abspath (st_cwd s) {| anchor := anchor q; parts := parts q ++ [basename src] |})
    as Hin.
  { transitivity (abspath (st_cwd s) p ++ [basename src]).
    - unfold abspath; simpl. destruct (anchor p); by rewrite ?app_assoc.
    - rewrite H. unfold abspath; simpl. destruct (anchor q); by rewrite ?app_assoc. }
  destruct (stat (st_fs s) (abspath (st_cwd s) q)) as [e|[c r|]].
  - rewrite !bind_unfold. simpl. by apply move_tail_place.
  - rewrite !bind_unfold. simpl. by apply move_tail_place.
  - rewrite !bind_unfold, !query_eq, Hin.
    destruct (stat (st_fs s) _) as [e|n]; simpl; [|done].
    by apply move_tail_place.
Qed.

Lemma mkdir_one_place p q ok s :
  abspath (st_cwd s) p = abspath (st_cwd s) q ->
  mkdir_one p ok s = mkdir_one q ok s.
Proof.
  intros H. unfold mkdir_one, catch, os_mkdir. rewrite (mutate_place _ p q s H).
  destruct (mutate sys_mkdir q s) as [[e|x] s1] eqn:E; [|done].
  assert (s1 = s) as -> by (by eapply mutate_err_state).
  destruct e; try done; unfold is_dir; by rewrite !bind_unfold, (query_place _ p q s H).
Qed.

Lemma sys_mkdir_exists fs l n :
  stat fs l = inr n -> sys_mkdir fs l = inl FileExistsError.
Proof.
  intros H. unfold sys_mkdir. destruct l as [|y l]; [done|].
  rewrite (stat_parent fs (y :: l) n); [|done|done].
  by rewrite (stat_lookup _ _ _ H).
Qed.

(** Making a directory below the working directory: the parents that
    pathlib walks up to are the same whether the path is written from
    the working directory or through it. *)
Lemma mkdir_parents_home a pd pf :
  forall ok s,
  abspath (st_cwd s) (mkPath a pd) = st_cwd s ->
  stat (st_fs s) (st_cwd s) = inr Dir ->
  mkdir_parents a (rev (pd ++ pf)) ok s = mkdir_parents false (rev pf) ok s.
Proof.
  induction pf as [|x pf IH] using rev_ind; intros ok s Hhome Hdir.
  - rewrite app_nil_r. simpl rev at 2.
    assert (forall rp, abspath (st_cwd s) (mkPath a (rev rp)) = st_cwd s ->
              mkdir_parents a rp ok s =
              (d ← is_dir (mkPath a (rev rp));
               if ok && d then mret tt else raise FileExistsError) s) as Hex.
    { intros rp Hrp.
      assert (os_mkdir (mkPath a (rev rp)) s = (inl FileExistsError, s)) as Hmk.
      { unfold os_mkdir, mutate, update. rewrite Hrp.
        by rewrite (sys_mkdir_exists _ _ _ Hdir). }
      destruct rp; simpl in *; unfold catch; by rewrite Hmk. }
    rewrite (Hex (rev pd)) by (by rewrite rev_involutive).
    assert (mkdir_parents false [] ok s =
            (d ← is_dir (mkPath false []);
             if ok && d then mret tt else raise FileExistsError) s) as ->.
    { assert (os_mkdir (mkPath false []) s = (inl FileExistsError, s)) as Hmk.
      { unfold os_mkdir, mutate, update.
        replace (abspath (st_cwd s) (mkPath false [])) with (st_cwd s)
          by (unfold abspath; simpl; by rewrite app_nil_r).
        by rewrite (sys_mkdir_exists _ _ _ Hdir). }
      simpl. unfold catch. by rewrite Hmk. }
    unfold is_dir. rewrite !bind_unfold.
    rewrite (query_place _ (mkPath a (rev (rev pd))) (mkPath false []) s); [done|].
    rewrite rev_involutive, Hhome. unfold abspath; simpl. by rewrite app_nil_r.
  - rewrite app_assoc, !rev_unit. cbn [mkdir_parents].
    assert (abspath (st_cwd s) {| anchor := a; parts := rev (x :: rev (pd ++ pf)) |} =
            abspath (st_cwd s) {| anchor := false; parts := rev (x :: rev pf) |}) as Hself.
    { simpl. rewrite !rev_involutive. unfold abspath in *. simpl in *.
      destruct a; rewrite <- ?app_assoc.
      - by rewrite Hhome at 1.
      - rewrite (app_assoc (st_cwd s) pd). by rewrite Hhome. }
    unfold catch, os_mkdir. rewrite (mutate_place _ _ _ s Hself).
    destruct (mutate sys_mkdir _ s) as [[e|y] s1] eqn:E; [|done].
    assert (s1 = s) as -> by (by eapply mutate_err_state).
    destruct e;
      try (unfold is_dir; by rewrite !bind_unfold, (query_place _ _ _ s Hself)).
    rewrite !bind_unfold, (IH true s Hhome Hdir).
    destruct (mkdir_parents false (rev pf) true s) as [[e|[]] s2] eqn:E2; [done|].
    apply mkdir_one_place.
    assert (st_cwd s2 = st_cwd s) as Hc by (by eapply mkdir_parents_same_cwd).
    by rewrite Hc.
Qed.

Lemma for_each_agree {A} (I : state -> Prop) (b1 b2 : A -> M unit) xs :
  (forall x s, x ∈ xs -> I s -> b1 x s = b2 x s) ->
  (forall x s r s', x ∈ xs -> I s -> b2 x s = (r, s') -> I s') ->
  forall s, I s -> for_each xs b1 s = for_each xs b2 s.
Proof.
  induction xs as [|x xs IH]; intros Heq Hpres s Hs; [done|].
  cbn [for_each]. rewrite !bind_unfold, (Heq x s) by (done || left).
  destruct (b2 x s) as [[e|[]] s1] eqn:E; [done|].
  apply IH.
  - intros y s' Hy. apply Heq. by right.
  - intros y s' r s'' Hy. apply Hpres. by right.
  - eapply Hpres; [left | done | done].
Qed.

Lemma for_fold_agree {A B} (I : state -> Prop) (b1 b2 : B -> A -> M B) xs :
  (forall acc x s, x ∈ xs -> I s -> b1 acc x s = b2 acc x s) ->
  (forall acc x s r s', x ∈ xs -> I s -> b2 acc x s = (r, s') -> I s') ->
  forall acc s, I s -> for_fold xs acc b1 s = for_fold xs acc b2 s.
Proof.
  induction xs as [|x xs IH]; intros Heq Hpres acc s Hs; [done|].
  cbn [for_fold]. rewrite !bind_unfold, (Heq acc x s) by (done || left).
  destruct (b2 acc x s) as [[e|acc1] s1] eqn:E; [done|].
  apply IH.
  - intros acc' y s' Hy. apply Heq. by right.
  - intros acc' y s' r s'' Hy. apply Hpres. by right.
  - eapply Hpres; [left | done | done].
Qed.

(** A path written from the working directory and the same path written
    through the download directory, when the two directories are one. *)
Lemma home_folder c dd F :
  abspath c (PurePath dd) = c ->
  abspath c (PurePath F) = abspath c (PurePath dd </> F).
Proof.
  intros H. unfold truediv. destruct (PurePath F) as [aq pq]. cbn [anchor parts].
  destruct aq; [done|]. unfold abspath in *. cbn [anchor parts].
  destruct (anchor (PurePath dd)); [by rewrite H|].
  by rewrite app_assoc, H.
Qed.

Lemma place_truediv c p q x :
  abspath c p = abspath c q -> abspath c (p </> x) = abspath c (q </> x).
Proof.
  intros H. unfold truediv. destruct (PurePath x) as [ax px]. cbn [anchor parts].
  destruct ax; [done|]. unfold abspath in *. cbn [anchor parts].
  destruct (anchor p), (anchor q); rewrite ?app_assoc; by rewrite H.
Qed.

(** The loop bodies of [test_4NSIKfilefix.py]. *)
Definition test_organize_body (folders : rules) (dd : string)
    (file_counts : gmap string nat) (file : string) : M (gmap string nat) :=
  let file_path := PurePath dd </> file in
  f ← is_file file_path;
  if f : bool
  then TestFileFix.move_to_first file file_path folders file_counts
  else mret file_counts.

Definition test_cleanup_body (folder : string) : M unit :=
  d ← is_dir (PurePath folder);
  if d : bool then
    inner ← os_listdir_str folder;
    match inner with
    | [] =>
        (if String.eqb folder EmptyString then raise FileNotFoundError
         else path_rmdir (PurePath folder)) ;;
        logging_info (RemovedEmpty folder)
    | _ :: _ => mret tt
    end
  else mret tt.

Lemma test_organize_files_unfold folders dd :
  TestFileFix.organize_files folders dd =
  (make_folders PurePath folders ;;
   total_files ← os_listdir_str dd;
   files ← os_listdir_str dd;
   for_fold files ∅ (test_organize_body folders dd)).
Proof. done. Qed.

Lemma test_remove_duplicates_in_unfold h folder :
  TestFileFix.remove_duplicates_in h folder =
  (files ← os_listdir_str folder;
   for_fold files ∅ (dedup_body h (PurePath folder) folder) ;;
   mret tt).
Proof. done. Qed.

Lemma test_clean_up_unfold :
  TestFileFix.clean_up_empty_folders =
  (entries ← os_listdir (PurePath "."); for_each entries test_cleanup_body).
Proof. done. Qed.

Lemma test_main_unfold h folders dd :
  TestFileFix.main h (mkConfig (Some folders) (Some dd)) =
  (file_counts ← TestFileFix.organize_files folders dd;
   TestFileFix.remove_duplicates h folders ;;
   TestFileFix.clean_up_empty_folders ;;
   generate_summary file_counts).
Proof. done. Qed.

Lemma move_to_first_agree dd file fp folders counts s :
  abspath (st_cwd s) (PurePath dd) = st_cwd s ->
  TestFileFix.move_to_first file fp folders counts s =
  FileFix.move_to_first dd file fp folders counts s.
Proof.
  intros Hhome. induction folders as [|[F exts] folders IH]; [done|].
  cbn [TestFileFix.move_to_first FileFix.move_to_first].
  destruct (any_endswith file exts); [|done].
  rewrite !bind_unfold.
  rewrite (shutil_move_place fp (PurePath F </> file) (PurePath dd </> F </> file)); [done|].
  by apply place_truediv, home_folder.
Qed.

Lemma organize_body_same_cwd folders dd counts f :
  steps same_cwd (organize_body folders dd counts f).
Proof.
  unfold organize_body, is_file.
  apply steps_bind; [apply same_cwd_trans | apply steps_query, same_cwd_refl |].
  intros []; [|apply (steps_ret _ same_cwd_refl)].
  rewrite move_to_first_eq. destruct (classify f folders); [|apply (steps_ret _ same_cwd_refl)].
  apply steps_bind; [apply same_cwd_trans | apply shutil_move_same_cwd |].
  intros _. cwd_tac.
Qed.

Lemma organize_files_agree folders dd s :
  wf s -> abspath (st_cwd s) (PurePath dd) = st_cwd s ->
  stat (st_fs s) (st_cwd s) = inr Dir ->
  TestFileFix.organize_files folders dd s = FileFix.organize_files folders dd s.
Proof.
  intros Hwf Hhome Hdir.
  rewrite test_organize_files_unfold, organize_files_unfold, !bind_unfold.
  assert (forall F, valid_path (PurePath dd </> F)) as Hvp.
  { intros F. apply valid_path_truediv, valid_path_PurePath. }
  assert (make_folders PurePath folders s =
          make_folders (fun F => PurePath dd </> F) folders s) as ->.
  { apply (for_each_agree
             (fun s' => st_cwd s' = st_cwd s ∧
                        stat (st_fs s') (st_cwd s) = inr Dir ∧ wf s')); [| |done].
    - intros [F exts] s' _ (Hc & Hd & Hw). rewrite <- Hc in Hhome, Hd.
      unfold path_exists. rewrite !bind_unfold.
      rewrite (query_place _ (PurePath F) (PurePath dd </> F)) by (by apply home_folder).
      rewrite query_eq.
      destruct (stat (st_fs s') (abspath (st_cwd s') (PurePath dd </> F))); [|done].
      unfold path_mkdir_parents, truediv.
      destruct (PurePath F) as [[] pq]; cbn [anchor parts]; [done|].
      symmetry. apply mkdir_parents_home; [|done].
      by destruct (PurePath dd).
    - intros [F exts] s' r s'' _ (Hc & Hd & Hw) Hb.
      assert (grows s' s'') as Hg.
      { revert Hb. apply steps_bind; [apply grows_trans | apply path_exists_grows|].
        intros []; [apply (steps_ret _ grows_refl) | by apply path_mkdir_parents_grows]. }
      pose proof Hg as (Hc' & _ & _ & Hw'). split_and!; [congruence | | by auto].
      apply wf_stat; [by apply Hw'|]. apply (grows_lookup _ _ _ _ Hg).
      by apply stat_lookup. }
  destruct (make_folders _ folders s) as [[e|[]] s1] eqn:Emk; [done|].
  assert (st_cwd s1 = st_cwd s) as Hc1.
  { by apply (make_folders_grows _ _ Hvp) in Emk as (? & _). }
  rewrite !bind_unfold.
  destruct (os_listdir_str dd s1) as [[e|total] s2] eqn:El1; [done|].
  apply os_listdir_str_inv in El1 as [-> _].
  rewrite !bind_unfold.
  destruct (os_listdir_str dd s1) as [[e|files] s3] eqn:El2; [done|].
  apply os_listdir_str_inv in El2 as [-> _].
  apply (for_fold_agree (fun s' => st_cwd s' = st_cwd s)); [| |done].
  - intros acc f s' _ Hc. unfold test_organize_body, organize_body.
    rewrite !bind_unfold. destruct (is_file (PurePath dd </> f) s') as [[e|[]] s''] eqn:Ei;
      try done.
    assert (s'' = s') as -> by (unfold is_file in Ei; rewrite query_eq in Ei; congruence).
    apply move_to_first_agree. by rewrite Hc.
  - intros acc f s' r s'' _ Hc Hb. apply organize_body_same_cwd in Hb.
    unfold same_cwd in Hb. congruence.
Qed.

Lemma dedup_body_place h p q folder seen file s :
  abspath (st_cwd s) p = abspath (st_cwd s) q ->
  dedup_body h p folder seen file s = dedup_body h q folder seen file s.
Proof.
  intros H. pose proof (place_truediv _ _ _ file H) as Hf.
  unfold dedup_body, is_file, read_bytes, os_remove.
  rewrite !bind_unfold, (query_place _ _ _ s Hf), query_eq.
  destruct (stat (st_fs s) _) as [|[c r|]]; try done.
  rewrite !bind_unfold, (call_place _ _ _ s Hf), call_eq.
  destruct (sys_read (st_fs s) _); [done|]. simpl.
  destruct (decide _); [|done].
  by rewrite !bind_unfold, (mutate_place _ _ _ s Hf).
Qed.

Lemma os_listdir_str_nonempty F s :
  F <> EmptyString -> os_listdir_str F s = os_listdir (PurePath F) s.
Proof.
  intros H. unfold os_listdir_str.
  by destruct (String.eqb_spec F EmptyString).
Qed.

Lemma remove_duplicates_in_agree h dd F s :
  abspath (st_cwd s) (PurePath dd) = st_cwd s -> F <> EmptyString ->
  TestFileFix.remove_duplicates_in h F s = FileFix.remove_duplicates_in h dd F s.
Proof.
  intros Hhome HF.
  rewrite test_remove_duplicates_in_unfold, remove_duplicates_in_unfold.
  pose proof (home_folder _ _ F Hhome) as Hp.
  rewrite !bind_unfold, (os_listdir_str_nonempty F s HF).
  unfold os_listdir. rewrite (call_place _ _ _ s Hp), call_eq.
  destruct (sys_listdir (st_fs s) _) as [e|files]; [done|].
  rewrite !bind_unfold.
  rewrite (for_fold_agree (fun s' => st_cwd s' = st_cwd s)
             (dedup_body h (PurePath F) F)
             (dedup_body h (PurePath dd </> F) F)); [done| | |done].
  - intros seen f s' _ Hc. apply dedup_body_place. by rewrite Hc.
  - intros seen f s' r s'' _ Hc Hb. apply dedup_body_prunes in Hb as (? & _).
    congruence.
Qed.

Lemma remove_duplicates_agree h folders dd s :
  abspath (st_cwd s) (PurePath dd) = st_cwd s ->
  (forall F, F ∈ folders.*1 -> F <> EmptyString) ->
  TestFileFix.remove_duplicates h folders s = FileFix.remove_duplicates h folders dd s.
Proof.
  intros Hhome HF. unfold TestFileFix.remove_duplicates, FileFix.remove_duplicates.
  apply (for_each_agree (fun s' => st_cwd s' = st_cwd s)); [| |done].
  - intros F s' HFin Hc. apply remove_duplicates_in_agree; [by rewrite Hc | by apply HF].
  - intros F s' r s'' _ Hc Hb. apply remove_duplicates_in_prunes in Hb as (? & _).
    congruence.
Qed.

Lemma test_cleanup_body_agree dd n s :
  abspath (st_cwd s) (PurePath dd) = st_cwd s -> valid_name n ->
  test_cleanup_body n s = cleanup_body dd n s.
Proof.
  intros Hhome Hv. pose proof (valid_name_nonempty _ Hv) as Hne.
  pose proof (home_folder _ _ n Hhome) as Hp.
  unfold test_cleanup_body, cleanup_body, is_dir.
  rewrite !bind_unfold, (query_place _ _ _ s Hp), query_eq.
  destruct (stat (st_fs s) _) as [|[|]]; try done.
  rewrite !bind_unfold, (os_listdir_str_nonempty n s Hne).
  unfold os_listdir. rewrite (call_place _ _ _ s Hp), call_eq.
  destruct (sys_listdir (st_fs s) _) as [e|[|x xs]]; try done.
  rewrite !bind_unfold. destruct (String.eqb_spec n EmptyString); [done|].
  unfold path_rmdir. by rewrite (mutate_place _ _ _ s Hp).
Qed.

Lemma cleanup_body_keeps_wf dd n s r s' :
  wf s -> valid_name n -> cleanup_body dd n s = (r, s') ->
  wf s' ∧ st_cwd s' = st_cwd s.
Proof.
  intros Hwf Hv. rewrite (cleanup_step dd n s Hv). intros [= <- <-].
  set (L := abspath (st_cwd s) (PurePath dd) ++ [n]).
  destruct (empty_dir (st_fs s) L) eqn:E; [|done].
  split; [|done]. split; [|apply Hwf]. simpl.
  apply wf_fs_delete_empty; [apply Hwf | unfold L; by destruct (abspath _ _) |].
  unfold empty_dir in E. destruct (stat (st_fs s) L) as [|[|]]; try done.
  by destruct (children (st_fs s) L).
Qed.

Lemma clean_up_agree dd s :
  wf s -> abspath (st_cwd s) (PurePath dd) = st_cwd s -> dd <> EmptyString ->
  TestFileFix.clean_up_empty_folders s = FileFix.clean_up_empty_folders dd s.
Proof.
  intros Hwf Hhome Hdd. rewrite test_clean_up_unfold, clean_up_unfold.
  rewrite !bind_unfold, (os_listdir_str_nonempty dd s Hdd).
  assert (abspath (st_cwd s) (PurePath ".") = abspath (st_cwd s) (PurePath dd)) as Hp.
  { rewrite Hhome. unfold abspath. simpl. by rewrite app_nil_r. }
  unfold os_listdir. rewrite (call_place _ _ _ s Hp), call_eq.
  destruct (sys_listdir (st_fs s) _) as [e|entries] eqn:El; [done|].
  assert (entries = children (st_fs s) (abspath (st_cwd s) (PurePath dd))) as ->.
  { unfold sys_listdir in El. destruct (stat (st_fs s) _) as [|[|]]; try done.
    by injection El as <-. }
  set (D := abspath (st_cwd s) (PurePath dd)).
  apply (for_each_agree
           (fun s' => wf s' ∧ st_cwd s' = st_cwd s ∧
                      forall l, is_Some (fs_lookup (st_fs s') l) ->
                                is_Some (fs_lookup (st_fs s) l))).
  - intros n s' Hn (Hw & Hc & _). apply test_cleanup_body_agree; [by rewrite Hc|].
    apply elem_of_children in Hn.
    apply (wf_fs_key _ _ (proj1 Hwf)) in Hn as [Hv _].
    apply Forall_app in Hv as [_ Hv]. by inversion Hv.
  - intros n s' r s'' Hn (Hw & Hc & Hsub) Hb.
    assert (valid_name n) as Hv.
    { apply elem_of_children in Hn.
      apply (wf_fs_key _ _ (proj1 Hwf)) in Hn as [Hv _].
      apply Forall_app in Hv as [_ Hv]. by inversion Hv. }
    destruct (cleanup_body_keeps_wf _ _ _ _ _ Hw Hv Hb) as [Hw' Hc'].
    split_and!; [done | congruence |].
    intros l Hl. apply Hsub. rewrite (cleanup_step dd n s' Hv) in Hb.
    injection Hb as _ <-.
    destruct (empty_dir (st_fs s') _); [|done]. simpl in Hl.
    destruct l as [|a l]; [done|]. simpl in *.
    rewrite assoc_delete in Hl. by case_decide; [destruct Hl|].
  - split_and!; done.
Qed.

(** C9, as the code has it.  When the working directory is the download
    directory (an existing directory) and no folder name is the empty
    string, the two variants do the same: [organize_files] returns the
    same counts and leaves the same state, and so does the whole run,
    whatever the outcome. *)
Theorem variants_agree_at_home h folders dd s :
  wf s ->
  abspath (st_cwd s) (PurePath dd) = st_cwd s ->
  stat (st_fs s) (st_cwd s) = inr Dir ->
  (forall F, F ∈ folders.*1 -> F <> EmptyString) ->
  TestFileFix.organize_files folders dd s = FileFix.organize_files folders dd s ∧
  TestFileFix.main h (mkConfig (Some folders) (Some dd)) s =
  FileFix.main h (mkConfig (Some folders) (Some dd)) s.
Proof.
  intros Hwf Hhome Hdir HF.
  pose proof (organize_files_agree folders dd s Hwf Hhome Hdir) as Horg.
  split; [done|].
  rewrite test_main_unfold, main_unfold, !bind_unfold, Horg.
  destruct (FileFix.organize_files folders dd s) as [[e|counts] s1] eqn:E1; [done|].
  destruct (organize_files_ok _ _ _ _ _ Hwf E1)
    as (sm & _ & _ & Hwf1 & Hc1 & _ & Hdd & _).
  rewrite !bind_unfold.
  rewrite (remove_duplicates_agree h folders dd s1) by (by rewrite ?Hc1).
  destruct (FileFix.remove_duplicates h folders dd s1) as [[e|[]] s2] eqn:E2; [done|].
  pose proof (remove_duplicates_prunes _ _ _ _ _ _ E2) as (Hc2 & Hwf2 & _).
  rewrite !bind_unfold.
  rewrite (clean_up_agree dd s2); [done | by auto | by rewrite Hc2, Hc1 | done].
Qed.

(** * Further properties of the stages *)

(** ** More about the organize stage *)

(** X1. However the organize stage ends, every directory that existed is
    still a directory, and the working directory is the same: the stage
    makes directories and moves regular files, and an entry of the
    download directory that is a directory is never moved, whatever its
    name ends with. *)
Theorem organize_keeps_directories folders dd s0 res s1 l :
  wf s0 -> FileFix.organize_files folders dd s0 = (res, s1) ->
  fs_lookup (st_fs s0) l = Some Dir ->
  fs_lookup (st_fs s1) l = Some Dir ∧ st_cwd s1 = st_cwd s0.
Proof.
  intros Hwf Hrun Hl.
  destruct (organize_files_inv _ _ _ _ _ Hwf Hrun) as (sm & done & Hg & Hinv & _).
  destruct Hinv as (Hcwd & _ & Hsd & _). split.
  - apply Hsd. by eapply grows_lookup.
  - rewrite Hcwd. apply Hg.
Qed.

(** X2. However the organize stage ends, the regular files there are
    afterwards are regular files there were before, each one its own:
    every file after the stage comes from a file before it with the same
    name, the same content and the same permission, and two files after
    the stage come from two files before it.  So the stage renames no
    file, writes no content, and neither creates nor copies a file. *)
Theorem organize_keeps_names_and_contents folders dd s0 res s1 :
  wf s0 -> FileFix.organize_files folders dd s0 = (res, s1) ->
  exists origin : loc -> loc,
    (forall l c r,
       fs_lookup (st_fs s1) l = Some (File c r) ->
       last (origin l) = last l ∧
       fs_lookup (st_fs s0) (origin l) = Some (File c r)) ∧
    (forall l l' c r c' r',
       fs_lookup (st_fs s1) l = Some (File c r) ->
       fs_lookup (st_fs s1) l' = Some (File c' r') ->
       origin l = origin l' -> l = l').
Proof.
  intros Hwf Hrun.
  destruct (organize_files_inv _ _ _ _ _ Hwf Hrun) as (sm & done & Hg & Hinv & _).
  destruct Hinv as (_ & _ & _ & _ & Hframe & Hmoved).
  set (D := abspath (st_cwd sm) (PurePath dd)) in *.
  set (mv := moves folders (st_fs sm) D done) in *.
  set (target := fun f F =>
         move_target (st_fs sm) (folder_loc (st_cwd sm) dd F ++ [f]) f) in *.
  set (origin := fun l : loc =>
         match List.find (fun m => bool_decide (target m.1 m.2 = l)) mv with
         | Some m => D ++ [m.1]
         | None => l
         end).
  assert (forall l m,
            List.find (fun m => bool_decide (target m.1 m.2 = l)) mv = Some m ->
            (m.1, m.2) ∈ mv ∧ target m.1 m.2 = l) as Hsome.
  { intros l [f F] [Hin Ht]%List.find_some. simpl in *.
    split; [by apply list_elem_of_In|]. by apply bool_decide_eq_true in Ht. }
  assert (forall l f F,
            List.find (fun m => bool_decide (target m.1 m.2 = l)) mv = None ->
            (f, F) ∈ mv -> target f F <> l) as Hnone.
  { intros l f F Hn Hin. apply list_elem_of_In in Hin.
    pose proof (List.find_none _ _ Hn _ Hin) as Hb. simpl in Hb.
    by apply bool_decide_eq_false in Hb. }
  assert (forall l f F c r,
            List.find (fun m => bool_decide (target m.1 m.2 = l)) mv = None ->
            (f, F) ∈ mv -> fs_lookup (st_fs s1) l = Some (File c r) ->
            l <> D ++ [f]) as Hleft.
  { intros l f F c r Hn Hin Hl ->.
    destruct (Hmoved f F Hin) as (c0 & r0 & _ & _ & Hgone & _).
    rewrite Hgone in Hl; [done|]. by apply Hnone. }
  exists origin. split.
  - intros l c r Hl. unfold origin.
    destruct (List.find _ mv) as [[f F]|] eqn:E.
    + destruct (Hsome _ _ E) as [Hin Ht]. simpl in *.
      destruct (Hmoved f F Hin) as (c0 & r0 & Hsrc & Htgt & _).
      change (fs_lookup (st_fs s1) (target f F) = Some (File c0 r0)) in Htgt.
      rewrite Ht, Hl in Htgt. injection Htgt as <- <-. split.
      * destruct (move_target_last (st_fs sm) (folder_loc (st_cwd sm) dd F) f)
          as [q Hq].
        rewrite <- Ht. unfold target. rewrite Hq. by rewrite !last_snoc.
      * by apply (grows_file _ _ _ _ _ Hg).
    + split; [done|]. apply (grows_file _ _ _ _ _ Hg).
      rewrite <- Hframe; [done|]. intros f F Hin. split.
      * by apply (Hleft l f F c r).
      * intros ->. by apply (Hnone _ f F E).
  - intros l l' c r c' r' Hl Hl'. unfold origin.
    destruct (List.find _ mv) as [[f F]|] eqn:E;
      destruct (List.find (fun m => bool_decide (target m.1 m.2 = l')) mv)
        as [[f' F']|] eqn:E'; simpl.
    + intros Heq. apply app_inj_tail in Heq as [_ <-].
      destruct (Hsome _ _ E) as [Hin Ht]. destruct (Hsome _ _ E') as [Hin' Ht'].
      simpl in *.
      apply elem_of_moves in Hin as (_ & _ & Hc).
      apply elem_of_moves in Hin' as (_ & _ & Hc').
      rewrite Hc in Hc'. injection Hc' as <-. by rewrite <- Ht, <- Ht'.
    + intros <-. destruct (Hsome _ _ E) as [Hin _]. simpl in *.
      by destruct (Hleft _ f F c' r' E' Hin Hl').
    + intros ->. destruct (Hsome _ _ E') as [Hin _]. simpl in *.
      by destruct (Hleft _ f' F' c r E Hin Hl).
    + done.
Qed.

Lemma planned_intro folders dd s f c r F :
  stat (st_fs s) (abspath (st_cwd s) (PurePath dd) ++ [f]) = inr (File c r) ->
  classify f folders = Some F ->
  (f, F) ∈ planned folders dd s.
Proof.
  intros Hf Hc. apply elem_of_moves.
  split_and!; [|by unfold is_reg; rewrite Hf|done].
  apply elem_of_children. apply (fs_lookup_key _ _ (File c r)).
  - by destruct (abspath (st_cwd s) (PurePath dd)).
  - by apply stat_lookup.
Qed.

(** X3. For a configuration of plain paths: a regular file with another
    content that is already at [folder/name] is replaced by the file
    moved there: after a completed stage [folder/name] has the content of
    the file of the download directory, which has left it; the content
    that was at [folder/name] is lost. *)
Theorem organize_replaces_same_name folders dd s0 counts s1 f c r F c' r' :
  wf s0 -> plain_config dd folders ->
  FileFix.organize_files folders dd s0 = (inr counts, s1) ->
  let D := abspath (st_cwd s0) (PurePath dd) in
  let T := folder_loc (st_cwd s0) dd F ++ [f] in
  stat (st_fs s0) (D ++ [f]) = inr (File c r) ->
  classify f folders = Some F ->
  stat (st_fs s0) T = inr (File c' r') -> T <> D ++ [f] -> c' <> c ->
  stat (st_fs s1) T = inr (File c r) ∧
  stat (st_fs s1) (D ++ [f]) = inl FileNotFoundError.
Proof.
  intros Hwf _ Hrun D T Hf Hc HT Hne _.
  destruct (organize_files_ok _ _ _ _ _ Hwf Hrun)
    as (sm & Hg & Hwfm & Hwf1 & Hcwd & Hsd & Hdd & HD & _ & _ & _ & _ & Htg).
  fold D in HD, Htg.
  destruct (Htg f F (planned_intro _ _ _ _ _ _ _ Hf Hc))
    as (c0 & r0 & H0 & Ht & Hsrc & _).
  apply stat_lookup in Hf. rewrite Hf in H0. injection H0 as <- <-.
  assert (move_target (st_fs sm) T f = T) as Hmt.
  { unfold move_target. apply stat_lookup in HT.
    apply (grows_lookup _ _ _ _ Hg) in HT.
    by rewrite (wf_stat _ _ _ (proj1 Hwfm) HT). }
  fold T in Ht, Hsrc. rewrite Hmt in Ht, Hsrc. split.
  - apply wf_stat; [apply Hwf1|done].
  - rewrite stat_child.
    + by rewrite (Hsrc Hne).
    + eapply same_dirs_stat_Dir; [exact Hsd | exact HD].
Qed.

(** X4. When the path of a configured folder is a regular file the folder
    is not made ([exists()] holds), and the stage raises as soon as a file
    is routed to it: with a regular file of the download directory whose
    first matching folder it is, the stage does not complete, and that
    file is still in the download directory. *)
Theorem organize_stops_at_a_file_for_a_folder folders dd s0 f c r F c' r' :
  wf s0 ->
  let D := abspath (st_cwd s0) (PurePath dd) in
  stat (st_fs s0) (D ++ [f]) = inr (File c r) ->
  classify f folders = Some F ->
  stat (st_fs s0) (folder_loc (st_cwd s0) dd F) = inr (File c' r') ->
  exists e s1,
    FileFix.organize_files folders dd s0 = (inl e, s1) ∧
    stat (st_fs s1) (D ++ [f]) = inr (File c r).
Proof.
  intros Hwf D Hf Hc HF.
  destruct (FileFix.organize_files folders dd s0) as [res s1] eqn:Hrun.
  destruct (organize_files_inv _ _ _ _ _ Hwf Hrun) as (sm & done & Hg & Hinv & Hok).
  pose proof Hinv as (Hcwd & Hwf1 & Hsd & _ & _ & Hmoved).
  assert (st_cwd sm = st_cwd s0) as Hcm by apply Hg.
  rewrite Hcm in Hmoved.
  assert (wf sm) as Hwfm by (by apply Hg).
  set (mv := moves folders (st_fs sm) D done) in *.
  assert (forall g, (g, F) ∉ mv) as Hnot.
  { intros g Hin. destruct (Hmoved g F Hin) as (c0 & r0 & _ & Ht & _).
    unfold move_target in Ht.
    assert (fs_lookup (st_fs sm) (folder_loc (st_cwd s0) dd F) = Some (File c' r'))
      as HFm.
    { apply (grows_lookup _ _ _ _ Hg). by apply stat_lookup. }
    rewrite stat_snoc, (wf_stat _ _ _ (proj1 Hwfm) HFm) in Ht.
    apply (wf_parent_dir _ _ _ (proj1 Hwf1)) in Ht.
    rewrite removelast_last in Ht. apply Hsd in Ht. congruence. }
  destruct res as [e|counts].
  - exists e, s1. split; [done|].
    assert (f ∉ mv.*1) as Hf'.
    { intros ([g G] & -> & Hin)%list_elem_of_fmap. simpl in *.
      pose proof Hin as Hin'. apply elem_of_moves in Hin' as (_ & _ & Hc').
      rewrite Hc in Hc'. injection Hc' as <-. by apply (Hnot g). }
    unfold mv, D in Hf'. rewrite <- Hcm in Hf'.
    pose proof (org_inv_untouched _ _ _ _ _ _ Hinv Hf') as Hu.
    rewrite Hcm in Hu. fold D in Hu.
    apply stat_lookup in Hf as Hl.
    apply (grows_lookup _ _ _ _ Hg) in Hl. rewrite <- Hu in Hl.
    apply wf_stat; [apply Hwf1|done].
  - exfalso. destruct (Hok counts eq_refl) as (_ & HD & -> & _).
    rewrite Hcm in *. fold D in HD. apply (Hnot f).
    apply elem_of_moves. split_and!; [| |done].
    + apply elem_of_children. apply (fs_lookup_key _ _ (File c r)).
      * intros [_ [=]]%app_eq_nil.
      * apply (grows_lookup _ _ _ _ Hg). by apply stat_lookup.
    + unfold is_reg. apply stat_lookup in Hf.
      apply (grows_lookup _ _ _ _ Hg) in Hf.
      by rewrite (wf_stat _ _ _ (proj1 Hwfm) Hf).
Qed.

Lemma tally_lookup l F n :
  tally l !! F = Some n -> 0 < n ∧ F ∈ l.
Proof.
  revert n. induction l as [|G l IH] using rev_ind; intros n; [done|].
  rewrite tally_snoc. unfold count_incr.
  destruct (decide (F = G)) as [->|Hne].
  - rewrite lookup_insert_eq. intros [= <-]. split; [lia|].
    apply elem_of_app. right. left.
  - rewrite lookup_insert_ne by done. intros [? ?]%IH. split; [done|].
    apply elem_of_app. by left.
Qed.

Lemma tally_lookup_None l F : tally l !! F = None -> F ∉ l.
Proof.
  induction l as [|G l IH] using rev_ind; [intros _; apply not_elem_of_nil|].
  rewrite tally_snoc. unfold count_incr.
  destruct (decide (F = G)) as [->|Hne].
  - by rewrite lookup_insert_eq.
  - rewrite lookup_insert_ne by done. intros H%IH.
    intros [?|?%list_elem_of_singleton]%elem_of_app; done.
Qed.

(** X5. The counter that a completed stage returns has a key exactly for
    the folders a file was moved to: a key has a count of at least one,
    is a configured folder and has a move in the log, and a folder
    without a key has no file to receive. *)
Theorem organize_counts_the_used_folders folders dd s0 counts s1 F :
  wf s0 -> FileFix.organize_files folders dd s0 = (inr counts, s1) ->
  match counts !! F with
  | Some n => 0 < n ∧ F ∈ folders.*1 ∧ exists f, Moved f F ∈ st_log s1
  | None => forall f, (f, F) ∉ planned folders dd s0
  end.
Proof.
  intros Hwf Hrun.
  destruct (organize_files_ok _ _ _ _ _ Hwf Hrun)
    as (sm & _ & _ & _ & _ & _ & _ & _ & Hlog & -> & _).
  destruct (tally (planned folders dd s0).*2 !! F) as [n|] eqn:E.
  - apply tally_lookup in E as [Hn ([f F'] & -> & Hin)%list_elem_of_fmap].
    simpl in *. split_and!; [done| |].
    + apply elem_of_moves in Hin as (_ & _ & Hc). by eapply classify_folder.
    + exists f. rewrite Hlog. apply elem_of_app. right.
      apply list_elem_of_fmap. by exists (f, F').
  - intros f Hin. apply tally_lookup_None in E. apply E.
    apply list_elem_of_fmap. by exists (f, F).
Qed.

Lemma endswith_empty s : endswith s "" = true.
Proof. unfold endswith. simpl. by destruct (String.rev s). Qed.

Lemma omap_length_filter {A B} (g : A -> option B) (p : A -> bool) (l : list A) :
  (forall x, x ∈ l -> p x = bool_decide (is_Some (g x))) ->
  length (omap g l) = length (List.filter p l).
Proof.
  induction l as [|x l IH]; intros H; [done|].
  rewrite omap_cons_eq. simpl. rewrite (H x) by left.
  destruct (g x) as [y|] eqn:E.
  - rewrite bool_decide_true by (by eexists). simpl. f_equal.
    apply IH. intros y' Hy. apply H. by right.
  - rewrite bool_decide_false by (by intros [? ?]).
    apply IH. intros y' Hy. apply H. by right.
Qed.

(** X6. Every name ends with the empty string: when some folder lists the
    suffix [""], every regular file of the download directory has a
    folder, and the counts of a completed stage add up to the number of
    regular files of the download directory. *)
Theorem organize_moves_every_file_with_an_empty_suffix
    folders dd s0 counts s1 F0 exts :
  wf s0 -> FileFix.organize_files folders dd s0 = (inr counts, s1) ->
  (F0, exts) ∈ folders -> EmptyString ∈ exts ->
  let D := abspath (st_cwd s0) (PurePath dd) in
  total_count counts =
  length (List.filter (fun f => is_reg (st_fs s0) (D ++ [f]))
                      (children (st_fs s0) D)).
Proof.
  intros Hwf Hrun HF Hext D.
  destruct (organize_files_ok _ _ _ _ _ Hwf Hrun)
    as (sm & _ & _ & _ & _ & _ & _ & _ & _ & -> & _).
  rewrite total_count_tally, length_fmap. unfold planned, moves. fold D.
  apply omap_length_filter. intros f _.
  destruct (is_reg (st_fs s0) (D ++ [f])).
  - destruct (classify f folders) as [F|] eqn:Ec.
    + symmetry. apply bool_decide_eq_true. by eexists.
    + exfalso. rewrite classify_None in Ec.
      specialize (Ec F0 exts EmptyString HF Hext).
      by rewrite endswith_empty in Ec.
  - symmetry. apply bool_decide_eq_false. by intros [? ?].
Qed.

(** X7. For a configuration of plain paths: after a completed organize
    stage a regular file that is still an entry of the download directory
    and ends with a configured suffix belongs to a folder that is the
    download directory itself, or its content was already at the place
    it was to be moved to: every other matched file has left. *)
Theorem organize_clears_the_matched_files folders dd s0 counts s1 f c r F :
  wf s0 -> plain_config dd folders ->
  FileFix.organize_files folders dd s0 = (inr counts, s1) ->
  let D := abspath (st_cwd s0) (PurePath dd) in
  stat (st_fs s1) (D ++ [f]) = inr (File c r) ->
  classify f folders = Some F ->
  folder_loc (st_cwd s0) dd F = D ∨
  exists r', fs_lookup (st_fs s0) (folder_loc (st_cwd s0) dd F ++ [f])
             = Some (File c r').
Proof.
  intros Hwf _ Hrun D Hf Hc. left.
  destruct (organize_files_ok _ _ _ _ _ Hwf Hrun)
    as (sm & Hg & Hwfm & Hwf1 & Hcwd & Hsd & Hdd & HD & _ & _ & _ & Hframe & Htg).
  fold D in HD, Hframe, Htg. apply stat_lookup in Hf.
  set (mv := planned folders dd s0) in *.
  destruct (decide (Exists (fun m => m.1 = f) mv)) as [Hm|Hm].
  - apply Exists_exists in Hm as ([g G] & Hin & Hg'). simpl in Hg'. subst g.
    pose proof Hin as Hin'. apply elem_of_moves in Hin' as (_ & _ & Hc').
    rewrite Hc in Hc'. injection Hc' as <-.
    destruct (Htg f F Hin) as (c0 & r0 & _ & _ & Hgone & Hhome).
    apply Hhome.
    destruct (decide (move_target (st_fs sm) (folder_loc (st_cwd s0) dd F ++ [f]) f
                      = D ++ [f])) as [|Hne]; [done|].
    rewrite (Hgone Hne) in Hf. done.
  - exfalso. rewrite Hframe in Hf.
    + apply (grows_file _ _ _ _ _ Hg) in Hf. apply Hm, Exists_exists.
      exists (f, F). split; [|done].
      apply (planned_intro _ _ _ _ c r); [|done].
      apply wf_stat; [apply Hwf|done].
    + intros g G Hin. split.
      * intros Hx. apply app_inj_tail in Hx as [_ <-].
        apply Hm, Exists_exists. by exists (f, G).
      * intros Hx.
        destruct (move_target_last (st_fs sm) (folder_loc (st_cwd s0) dd G) g)
          as [q Hq].
        rewrite Hq in Hx. apply app_inj_tail in Hx as [_ <-].
        apply Hm, Exists_exists. by exists (f, G).
Qed.

(** ** Making directories with their parents *)

(** No location on the way to [l], [l] included, is a regular file. *)
Definition no_file_above (fs : filesystem) (l : loc) : Prop :=
  forall p c r, p `prefix_of` l -> fs_lookup fs p <> Some (File c r).

Lemma no_file_above_prefix fs p l :
  p `prefix_of` l -> no_file_above fs l -> no_file_above fs p.
Proof. intros Hp H q c r Hq. apply H. by etrans. Qed.

Lemma stat_no_file fs l :
  no_file_above fs l ->
  stat fs l = inr Dir ∨ stat fs l = inl FileNotFoundError.
Proof.
  induction l as [|a l IH] using rev_ind; intros H.
  - left. apply stat_nil.
  - rewrite stat_snoc.
    destruct IH as [->| ->]; [by eapply no_file_above_prefix, H; apply prefix_app_r| |by right].
    destruct (fs_lookup fs (l ++ [a])) as [[c r|]|] eqn:E; [|by left|by right].
    by destruct (H (l ++ [a]) c r).
Qed.

Lemma os_mkdir_exists p s n :
  stat (st_fs s) (abspath (st_cwd s) p) = inr n ->
  os_mkdir p s = (inl FileExistsError, s).
Proof.
  intros H. unfold os_mkdir, mutate, update.
  by rewrite (sys_mkdir_exists _ _ _ H).
Qed.

Lemma os_mkdir_fresh p s :
  wf s -> abspath (st_cwd s) p <> [] ->
  fs_lookup (st_fs s) (removelast (abspath (st_cwd s) p)) = Some Dir ->
  fs_lookup (st_fs s) (abspath (st_cwd s) p) = None ->
  os_mkdir p s =
  (inr tt, mkState (st_cwd s) (st_fs s ++ [(abspath (st_cwd s) p, Dir)]) (st_log s)).
Proof.
  intros Hwf Hne Hp Hnone.
  unfold os_mkdir, mutate, update, sys_mkdir.
  destruct (abspath (st_cwd s) p) as [|a l] eqn:E; [done|].
  rewrite (wf_stat _ _ _ (proj1 Hwf) Hp). by rewrite Hnone.
Qed.

Lemma mkdir_parents_total a rp :
  forall ok s,
  wf s -> Forall valid_name rp ->
  stat (st_fs s) (st_cwd s) = inr Dir ->
  let L := abspath (st_cwd s) (mkPath a (rev rp)) in
  no_file_above (st_fs s) L ->
  (ok = true ∨ fs_lookup (st_fs s) L = None) ->
  exists s',
    mkdir_parents a rp ok s = (inr tt, s') ∧
    fs_lookup (st_fs s') L = Some Dir ∧
    (forall l, fs_lookup (st_fs s') l = fs_lookup (st_fs s) l ∨
               (l `prefix_of` L ∧ fs_lookup (st_fs s') l = Some Dir)).
Proof.
  induction rp as [|c rp IH]; intros ok s Hwf Hv Hcwd L Hnf Hok.
  - assert (stat (st_fs s) L = inr Dir) as HL.
    { unfold L, abspath. simpl. destruct a; [apply stat_nil|].
      by rewrite app_nil_r. }
    exists s. split_and!; [|by apply stat_lookup|by left].
    simpl. unfold catch. rewrite (os_mkdir_exists (mkPath a []) s Dir HL).
    unfold is_dir. rewrite bind_unfold, query_eq.
    change (abspath (st_cwd s) {| anchor := a; parts := [] |}) with L. rewrite HL.
    destruct Hok as [->|Hn]; [done|]. apply stat_lookup in HL. congruence.
  - set (L' := abspath (st_cwd s) (mkPath a (rev rp))).
    assert (L = L' ++ [c]) as HLL.
    { unfold L, L', abspath. simpl. destruct a; by rewrite ?app_assoc. }
    assert (no_file_above (st_fs s) L') as Hnf'.
    { eapply no_file_above_prefix; [|exact Hnf]. rewrite HLL. apply prefix_app_r. done. }
    cbn [mkdir_parents]. unfold catch.
    destruct (stat_no_file _ _ Hnf') as [HD|HD].
    + destruct (fs_lookup (st_fs s) L) as [n|] eqn:EL.
      * assert (n = Dir) as ->.
        { destruct n as [c0 r0|]; [|done]. by destruct (Hnf L c0 r0). }
        assert (stat (st_fs s) L = inr Dir) as HsL.
        { rewrite HLL, stat_child by done. by rewrite <- HLL, EL. }
        exists s. split_and!; [|done|by left].
        rewrite (os_mkdir_exists (mkPath a (rev (c :: rp))) s Dir HsL).
        unfold is_dir. rewrite bind_unfold, query_eq. 
        change (abspath (st_cwd s) {| anchor := a; parts := rev (c :: rp) |}) with L.
        rewrite HsL. destruct Hok as [->|Hn]; [done|congruence].
      * eexists. split_and!.
        -- rewrite os_mkdir_fresh; [done|done|..].
           ++ change (abspath (st_cwd s) {| anchor := a; parts := rev (c :: rp) |}) with L.
              rewrite HLL. by destruct L'.
           ++ change (abspath (st_cwd s) {| anchor := a; parts := rev (c :: rp) |}) with L.
              rewrite HLL, removelast_last. by apply stat_lookup.
           ++ done.
        -- cbn [st_fs]. rewrite fs_lookup_app. 
           change (abspath (st_cwd s) {| anchor := a; parts := rev (c :: rp) |}) with L.
           rewrite EL. rewrite fs_lookup_single, decide_True; [done..|].
           rewrite HLL. by destruct L'.
        -- intros l. cbn [st_fs]. rewrite fs_lookup_app.
           change (abspath (st_cwd s) {| anchor := a; parts := rev (c :: rp) |}) with L.
           destruct (fs_lookup (st_fs s) l) eqn:El; [by left|].
           destruct (decide (l = L)) as [->|Hne].
           ++ right. split; [done|]. rewrite fs_lookup_single, decide_True; [done..|].
              rewrite HLL. by destruct L'.
           ++ left. destruct l; [done|]. rewrite fs_lookup_single by done.
              by rewrite decide_False.
    + assert (os_mkdir (mkPath a (rev (c :: rp))) s = (inl FileNotFoundError, s)) as ->.
      { unfold os_mkdir, mutate, update, sys_mkdir.
        change (abspath (st_cwd s) {| anchor := a; parts := rev (c :: rp) |}) with L.
        rewrite HLL. destruct (L' ++ [c]) eqn:E; [by destruct L'|].
        rewrite <- E, removelast_last, HD. done. }
      destruct (IH true s Hwf) as (s1 & Hrun & HL1 & Hfr1); [by inversion Hv|done|done|by left|].
      fold L' in HL1, Hfr1.
      rewrite bind_unfold, Hrun.
      assert (grows s s1) as Hg.
      { eapply mkdir_parents_grows; [|exact Hrun]. by inversion Hv. }
      assert (wf s1) as Hwf1 by (by apply Hg).
      assert (st_cwd s1 = st_cwd s) as Hc1 by apply Hg.
      assert (fs_lookup (st_fs s) L = None) as EL.
      { destruct (fs_lookup (st_fs s) L) eqn:E; [|done].
        apply (wf_parent_dir _ _ _ (proj1 Hwf)) in E.
        rewrite HLL, removelast_last in E.
        apply (wf_stat _ _ _ (proj1 Hwf)) in E. congruence. }
      assert (fs_lookup (st_fs s1) L = None) as EL1.
      { destruct (Hfr1 L) as [->|[Hp _]]; [done|].
        apply prefix_length in Hp. rewrite HLL, length_app in Hp. simpl in Hp. lia. }
      assert (abspath (st_cwd s1) (mkPath a (rev (c :: rp))) = L) as Hself.
      { by rewrite Hc1. }
      eexists. split_and!.
      * unfold mkdir_one, catch. rewrite os_mkdir_fresh; [done|done|..].
        -- rewrite Hself, HLL. by destruct L'.
        -- by rewrite Hself, HLL, removelast_last.
        -- by rewrite Hself.
      * cbn [st_fs]. rewrite fs_lookup_app. rewrite Hself, EL1.
        rewrite fs_lookup_single, decide_True; [done..|].
        rewrite HLL. by destruct L'.
      * intros l. cbn [st_fs]. rewrite fs_lookup_app, Hself.
        destruct (decide (l = L)) as [->|Hne].
        -- right. split; [done|]. rewrite EL1.
           rewrite fs_lookup_single, decide_True; [done..|].
           rewrite HLL. by destruct L'.
        -- destruct l as [|x l]; [by left|].
           rewrite fs_lookup_single, decide_False by done.
           destruct (Hfr1 (x :: l)) as [Heq|[Hp Hd]].
           ++ left. rewrite <- Heq. by destruct (fs_lookup (st_fs s1) (x :: l)).
           ++ right. split; [|by rewrite Hd].
              etrans; [exact Hp|]. rewrite HLL. by apply prefix_app_r.
Qed.

Lemma no_file_above_grows s s' l :
  grows s s' -> no_file_above (st_fs s) l -> no_file_above (st_fs s') l.
Proof.
  intros Hg H p c r Hp Hl. apply (grows_file _ _ _ _ _ Hg) in Hl. by eapply H.
Qed.

Lemma path_mkdir_parents_total p s :
  wf s -> valid_path p -> stat (st_fs s) (st_cwd s) = inr Dir ->
  no_file_above (st_fs s) (abspath (st_cwd s) p) ->
  fs_lookup (st_fs s) (abspath (st_cwd s) p) = None ->
  exists s', path_mkdir_parents p s = (inr tt, s').
Proof.
  intros Hwf Hv Hcwd Hnf Hnone. unfold path_mkdir_parents.
  destruct (mkdir_parents_total (anchor p) (rev (parts p)) false s)
    as (s' & H & _); try done.
  - by apply Forall_rev.
  - rewrite rev_involutive. by destruct p.
  - right. rewrite rev_involutive. by destruct p.
  - by exists s'.
Qed.

(** The first loop of [organize_files] completes when no folder has a
    regular file on its way. *)
Lemma make_folders_no_file fp folders :
  (forall F, valid_path (fp F)) ->
  forall s, wf s -> stat (st_fs s) (st_cwd s) = inr Dir ->
  (forall F, F ∈ folders.*1 ->
     no_file_above (st_fs s) (abspath (st_cwd s) (fp F))) ->
  exists s', make_folders fp folders s = (inr tt, s').
Proof.
  intros Hv. induction folders as [|[F0 exts] folders IH]; intros s Hwf Hcwd Hnf.
  - by exists s.
  - assert (exists s1, (e ← path_exists (fp F0);
                        if e : bool then mret tt else path_mkdir_parents (fp F0)) s
                       = (inr tt, s1)) as [s1 H1].
    { rewrite bind_unfold. unfold path_exists. rewrite query_eq.
      destruct (stat (st_fs s) (abspath (st_cwd s) (fp F0))) as [e|n] eqn:E.
      - apply path_mkdir_parents_total; [done..| |].
        + apply Hnf. by left.
        + destruct (fs_lookup (st_fs s) (abspath (st_cwd s) (fp F0))) eqn:El; [|done].
          apply (wf_stat _ _ _ (proj1 Hwf)) in El. congruence.
      - by eexists. }
    assert (grows s s1) as Hg.
    { revert H1. apply steps_bind; [apply grows_trans | apply path_exists_grows|].
      intros []; [apply (steps_ret _ grows_refl) | by apply path_mkdir_parents_grows]. }
    pose proof Hg as (Hc & _).
    destruct (IH s1) as [s' Hs'].
    + by apply Hg.
    + rewrite Hc. apply wf_stat; [by apply Hg|].
      apply (grows_lookup _ _ _ _ Hg). by apply stat_lookup.
    + intros F HF. rewrite Hc. apply (no_file_above_grows _ _ _ Hg).
      apply Hnf. by right.
    + exists s'. unfold make_folders. simpl. rewrite bind_unfold, H1. exact Hs'.
Qed.

Lemma relative_folder_loc cwd dd F :
  anchor (PurePath F) = false ->
  folder_loc cwd dd F = abspath cwd (PurePath dd) ++ parts (PurePath F).
Proof.
  intros H. unfold folder_loc, truediv. rewrite H.
  unfold abspath. cbn [anchor parts].
  destruct (anchor (PurePath dd)); by rewrite ?app_assoc.
Qed.

Lemma wf_below_missing fs D l :
  wf_fs fs -> fs_lookup fs D = None -> D `prefix_of` l -> fs_lookup fs l = None.
Proof.
  intros Hwf HD [k ->]. induction k as [|x k IH] using rev_ind.
  - by rewrite app_nil_r.
  - destruct (fs_lookup fs (D ++ k ++ [x])) eqn:E; [|done].
    apply (wf_parent_dir _ _ _ Hwf) in E.
    rewrite app_assoc, removelast_last in E. congruence.
Qed.

(** The organize stage at a download directory that does not exist: the
    first loop makes it on the way to the folders, and the file loop finds
    no regular file. *)
Lemma organize_missing_dir folders dd s0 :
  wf s0 -> stat (st_fs s0) (st_cwd s0) = inr Dir -> dd <> EmptyString ->
  let D := abspath (st_cwd s0) (PurePath dd) in
  fs_lookup (st_fs s0) D = None -> no_file_above (st_fs s0) D ->
  folders <> [] ->
  (forall F, F ∈ folders.*1 -> anchor (PurePath F) = false) ->
  exists s1,
    FileFix.organize_files folders dd s0 = (inr ∅, s1) ∧
    grows s0 s1 ∧
    fs_lookup (st_fs s1) D = Some Dir ∧
    (forall F, F ∈ folders.*1 ->
       fs_lookup (st_fs s1) (folder_loc (st_cwd s0) dd F) = Some Dir).
Proof.
  intros Hwf Hcwd Hdd D HD Hnf Hne Hrel.
  set (fp := fun folder => PurePath dd </> folder).
  assert (forall F, valid_path (fp F)) as Hv.
  { intros F. apply valid_path_truediv, valid_path_PurePath. }
  destruct (make_folders_no_file fp folders Hv s0 Hwf Hcwd) as [sm Hmk].
  { intros F HF. change (abspath (st_cwd s0) (fp F)) with (folder_loc (st_cwd s0) dd F).
    rewrite relative_folder_loc by auto. fold D.
    intros p c r Hp Hl.
    destruct (decide (D `prefix_of` p)) as [HDp|HDp].
    - by rewrite (wf_below_missing _ _ _ (proj1 Hwf) HD HDp) in Hl.
    - apply (Hnf p c r); [|done].
      by destruct (prefix_weak_total _ _ _ Hp
                    (prefix_app_r D D (parts (PurePath F)) (reflexivity D))). }
  assert (grows s0 sm) as Hg by (by eapply make_folders_grows).
  pose proof Hg as (Hcm & Hlm & (new & Hfs & Hnew) & Hwfm). specialize (Hwfm Hwf).
  assert (forall F, F ∈ folders.*1 ->
            fs_lookup (st_fs sm) (folder_loc (st_cwd s0) dd F) = Some Dir) as Hfol.
  { intros F HF.
    destruct (make_folders_ok fp folders _ _ Hv Hmk F HF) as [n Hn].
    change (abspath (st_cwd s0) (fp F)) with (folder_loc (st_cwd s0) dd F) in Hn.
    destruct (grows_lookup_inv _ _ (folder_loc (st_cwd s0) dd F) Hg) as [Heq|[_ ?]]; [|done].
    rewrite Heq, (wf_below_missing _ D) in Hn; [done|apply Hwf|done|].
    rewrite relative_folder_loc by auto. by apply prefix_app_r. }
  assert (fs_lookup (st_fs sm) D = Some Dir) as HDm.
  { destruct folders as [|[F0 e0] folders]; [done|].
    assert (fs_lookup (st_fs sm) (folder_loc (st_cwd s0) dd F0) = Some Dir) as H0
      by (apply Hfol; left).
    apply (wf_stat _ _ _ (proj1 Hwfm)) in H0.
    rewrite stat_Dir_lookups in H0. apply H0.
    rewrite relative_folder_loc by (apply Hrel; left). by apply prefix_app_r. }
  assert (stat (st_fs sm) D = inr Dir) as HsD by (by apply wf_stat; [apply Hwfm|]).
  exists sm. split_and!; [|done..].
  rewrite organize_files_unfold. fold fp. rewrite bind_unfold, Hmk.
  rewrite bind_unfold, os_listdir_str_ok by (by rewrite ?Hcm).
  rewrite bind_unfold, os_listdir_str_ok by (by rewrite ?Hcm).
  apply organize_loop_idle.
  - apply Forall_forall. intros f Hf. rewrite Hcm in Hf. fold D in Hf.
    apply elem_of_children in Hf.
    apply (wf_fs_key _ _ (proj1 Hwfm)) in Hf as [Hvf _].
    apply Forall_app in Hvf as [_ Hvf]. by inversion Hvf.
  - intros f _ Hreg. exfalso. rewrite Hcm in Hreg. fold D in Hreg.
    rewrite (grows_is_reg _ _ _ Hwf Hg) in Hreg.
    rewrite is_reg_lookup in Hreg by apply Hwf.
    rewrite (wf_below_missing _ D) in Hreg; [done|apply Hwf|done|].
    by apply prefix_app_r.
Qed.

(** X8. For a configuration of plain paths: a download directory that
    does not exist is made on the way to the folders:
    [mkdir(parents=True)] makes the missing directories on the way to each
    folder, the listing that follows finds only these, and nothing is
    moved. *)
Theorem organize_makes_a_missing_download_dir folders dd s0 :
  wf s0 -> plain_config dd folders ->
  stat (st_fs s0) (st_cwd s0) = inr Dir -> dd <> EmptyString ->
  let D := abspath (st_cwd s0) (PurePath dd) in
  fs_lookup (st_fs s0) D = None -> no_file_above (st_fs s0) D ->
  folders <> [] ->
  (forall F, F ∈ folders.*1 -> anchor (PurePath F) = false) ->
  exists s1,
    FileFix.organize_files folders dd s0 = (inr ∅, s1) ∧
    stat (st_fs s1) D = inr Dir ∧
    (forall F, F ∈ folders.*1 ->
       stat (st_fs s1) (folder_loc (st_cwd s0) dd F) = inr Dir) ∧
    st_log s1 = st_log s0 ∧
    (forall l n, fs_lookup (st_fs s0) l = Some n -> fs_lookup (st_fs s1) l = Some n) ∧
    (forall l c r, fs_lookup (st_fs s1) l = Some (File c r) ->
                   fs_lookup (st_fs s0) l = Some (File c r)).
Proof.
  intros Hwf _ Hcwd Hdd D HD Hnf Hne Hrel.
  destruct (organize_missing_dir folders dd s0 Hwf Hcwd Hdd HD Hnf Hne Hrel)
    as (s1 & Hrun & Hg & HD1 & Hfol).
  assert (wf s1) as Hwf1 by (by apply Hg).
  exists s1. split_and!.
  - done.
  - by apply wf_stat; [apply Hwf1|].
  - intros F HF. apply wf_stat; [apply Hwf1|by apply Hfol].
  - apply Hg.
  - intros l n. by apply grows_lookup.
  - intros l c r. by apply (grows_file _ _ _ _ _ Hg).
Qed.

(** ** The deduplicate stage over all folders *)

(** What a pass kept, a later pass keeps. *)
Lemma keep_first_again h es :
  forall s1 s2 : gset string, s1 ⊆ s2 ->
  keep_first h s1 (keep_first h s2 es) = keep_first h s2 es.
Proof.
  induction es as [|[g d] es IH]; intros s1 s2 Hs; simpl; [done|].
  destruct (decide (h d ∈ s2)) as [H2|H2]; [by apply IH|].
  simpl. rewrite decide_False by set_solver. f_equal.
  apply IH. set_solver.
Qed.

Lemma omap_entry_filter fs Q n (l : list string) :
  omap (entry fs Q) (List.filter (fun g => negb (bool_decide (g = n))) l) =
  List.filter (fun e : string * list byte => negb (bool_decide (e.1 = n)))
              (omap (entry fs Q) l).
Proof.
  induction l as [|g l IH]; [done|]. cbn [List.filter].
  destruct (decide (g = n)) as [->|Hne].
  - rewrite bool_decide_true by done. cbn [negb]. rewrite omap_cons_eq.
    destruct (entry fs Q n) as [e|] eqn:E; [|done].
    cbn [List.filter]. apply entry_fst in E. by rewrite bool_decide_true.
  - rewrite bool_decide_false by done. cbn [negb]. rewrite !omap_cons_eq.
    destruct (entry fs Q g) as [e|] eqn:E; [|done].
    cbn [List.filter]. apply entry_fst in E.
    rewrite bool_decide_false by congruence. cbn [negb]. by f_equal.
Qed.

(** The regular files of a directory after a file was removed. *)
Lemma regular_entries_delete fs L c r Q :
  wf_fs fs -> fs_lookup fs L = Some (File c r) ->
  regular_entries (fs_delete L fs) Q =
  match child_name Q L with
  | Some n => List.filter (fun e => negb (bool_decide (e.1 = n)))
                          (regular_entries fs Q)
  | None => regular_entries fs Q
  end.
Proof.
  intros Hwf HL. assert (L <> []) as Hne by (by intros ->).
  pose proof (wf_fs_delete_file _ _ _ _ Hwf HL) as Hwf'.
  unfold regular_entries. rewrite children_delete.
  assert (forall g, Q ++ [g] <> L ->
            entry (fs_delete L fs) Q g = entry fs Q g) as Hent.
  { intros g Hg. rewrite !entry_lookup by done.
    rewrite fs_lookup_delete by done. by rewrite decide_False. }
  destruct (child_name Q L) as [n|] eqn:E.
  - apply child_name_Some in E. rewrite <- omap_entry_filter.
    apply omap_ext_in. intros g Hg. apply Hent.
    apply list_elem_of_In, filter_In in Hg as [_ Hg].
    apply negb_true_iff, bool_decide_eq_false in Hg.
    rewrite E. intros Hx. by apply app_inj_tail in Hx as [_ ?].
  - apply omap_ext_in. intros g _. apply Hent. intros Hx.
    symmetry in Hx. apply child_name_Some in Hx. congruence.
Qed.

(** A pass over one folder leaves the regular files of every other
    directory as they are, however it ends. *)
Lemma dedup_loop_elsewhere h fp folder rest :
  forall s seen res s',
  wf s -> Forall valid_name rest ->
  for_fold rest seen (dedup_body h fp folder) s = (res, s') ->
  forall Q, Q <> abspath (st_cwd s) fp ->
            regular_entries (st_fs s') Q = regular_entries (st_fs s) Q.
Proof.
  induction rest as [|f rest IH]; intros s seen res s' Hwf Hv; cbn [for_fold].
  - by intros [= <- <-].
  - inversion Hv as [|? ? Hvf Hvr]; subst.
    intros [(e & Hb & _)|(seen1 & s1 & Hb & Hrest)]%bind_inv Q HQ;
      pose proof (dedup_step _ _ _ _ _ _ _ _ Hwf Hvf Hb) as Hstep;
      simpl in Hstep;
      destruct (fs_lookup (st_fs s) (abspath (st_cwd s) fp ++ [f]))
        as [[c r|]|] eqn:E;
        try (destruct r; [destruct (decide (h c ∈ seen))|]);
        destruct Hstep as [? ->]; try done;
        try (by eapply IH).
    assert (wf (mkState (st_cwd s)
                  (fs_delete (abspath (st_cwd s) fp ++ [f]) (st_fs s))
                  (st_log s ++ [RemovedDuplicate f folder]))) as Hwf1.
    { split; [|apply Hwf]. simpl. eapply wf_fs_delete_file; [apply Hwf|done]. }
    rewrite (IH _ _ _ _ Hwf1 Hvr Hrest Q) by done.
    simpl. rewrite (regular_entries_delete _ _ c true) by first [apply Hwf|done].
    destruct (child_name Q (abspath (st_cwd s) fp ++ [f])) eqn:Ec; [|done].
    apply child_name_Some, app_inj_tail in Ec as [? _]. congruence.
Qed.

(** One pass of [remove_duplicates], seen from every directory. *)
Lemma dedup_pass h dd folder s0 s1 :
  wf s0 -> FileFix.remove_duplicates_in h dd folder s0 = (inr tt, s1) ->
  let P := folder_loc (st_cwd s0) dd folder in
  wf s1 ∧ st_cwd s1 = st_cwd s0 ∧ prunes s0 s1 ∧
  stat (st_fs s0) P = inr Dir ∧
  (forall l, (forall f, l <> P ++ [f]) ->
             fs_lookup (st_fs s1) l = fs_lookup (st_fs s0) l) ∧
  regular_entries (st_fs s1) P = keep_first h ∅ (regular_entries (st_fs s0) P) ∧
  (forall Q, Q <> P -> regular_entries (st_fs s1) Q = regular_entries (st_fs s0) Q).
Proof.
  intros Hwf H P.
  pose proof (remove_duplicates_in_prunes _ _ _ _ _ _ H) as Hpr.
  rewrite remove_duplicates_in_unfold in H.
  apply bind_inv_ok in H as (files & s' & Hl & H).
  apply os_listdir_inv in Hl as [-> Hfiles].
  destruct (Hfiles files eq_refl) as [HP ->].
  change (abspath (st_cwd s0) (PurePath dd </> folder)) with P in HP.
  apply bind_inv_ok in H as (seen' & s2 & Hloop & Hret). injection Hret as <-.
  assert (Forall valid_name (children (st_fs s0) (abspath (st_cwd s0) (PurePath dd </> folder))))
    as Hv.
  { apply Forall_forall. intros f Hf. apply elem_of_children in Hf.
    apply (wf_fs_key _ _ (proj1 Hwf)) in Hf as [Hv _].
    apply Forall_app in Hv as [_ Hv]. by inversion Hv. }
  pose proof (dedup_loop_elsewhere _ _ _ _ _ _ _ _ Hwf Hv Hloop) as Helse.
  apply dedup_loop in Hloop as (Hwf1 & Hc1 & Hfr & Hch & Hkeep);
    [|done|apply NoDup_children, Hwf|done].
  change (abspath (st_cwd s0) (PurePath dd </> folder)) with P in *.
  split_and!; try done.
  - intros l Hl. apply Hfr. intros f _. apply Hl.
  - unfold regular_entries. by rewrite Hch, Hkeep.
Qed.

Lemma remove_duplicates_cons h F exts folders dd s :
  FileFix.remove_duplicates h ((F, exts) :: folders) dd s =
  (FileFix.remove_duplicates_in h dd F ;; FileFix.remove_duplicates h folders dd) s.
Proof. done. Qed.

Lemma remove_duplicates_entries h folders dd s0 s1 :
  wf s0 -> FileFix.remove_duplicates h folders dd s0 = (inr tt, s1) ->
  forall Q,
    regular_entries (st_fs s1) Q =
    if bool_decide (Q ∈ map (folder_loc (st_cwd s0) dd) folders.*1)
    then keep_first h ∅ (regular_entries (st_fs s0) Q)
    else regular_entries (st_fs s0) Q.
Proof.
  revert s0. induction folders as [|[F exts] folders IH]; intros s0 Hwf Hrun Q.
  - injection Hrun as <-. done.
  - rewrite remove_duplicates_cons in Hrun.
    apply bind_inv_ok in Hrun as ([] & sa & Hpass & Hrest).
    destruct (dedup_pass _ _ _ _ _ Hwf Hpass) as (Hwfa & Hca & _ & _ & _ & HP & Helse).
    rewrite (IH sa Hwfa Hrest Q), Hca. cbn [fmap list_fmap map].
    destruct (decide (Q = folder_loc (st_cwd s0) dd F)) as [->|Hne].
    + rewrite HP. rewrite (bool_decide_true (_ ∈ _ :: _)) by left.
      case_bool_decide; [|done]. by apply keep_first_again.
    + rewrite (Helse Q Hne).
      apply (f_equal (fun b : bool => if b then _ else _)).
      apply bool_decide_ext. rewrite elem_of_cons. naive_solver.
Qed.

(** X9. For a configuration of plain paths: after a completed
    deduplicate stage every configured folder holds, of the regular files
    it held, the first listed of each digest: the folders are
    deduplicated one by one, each with its own set of seen digests, so
    the same content is kept once in every folder that has it.  The
    regular files of every other directory are as they were. *)
Theorem remove_duplicates_keeps_first_in_every_folder h folders dd s0 s1 :
  wf s0 -> plain_config dd folders ->
  FileFix.remove_duplicates h folders dd s0 = (inr tt, s1) ->
  (forall F, F ∈ folders.*1 ->
     let P := folder_loc (st_cwd s0) dd F in
     regular_entries (st_fs s1) P = keep_first h ∅ (regular_entries (st_fs s0) P) ∧
     NoDup (map (fun e => h e.2) (regular_entries (st_fs s1) P))) ∧
  (forall Q, (forall F, F ∈ folders.*1 -> Q <> folder_loc (st_cwd s0) dd F) ->
     regular_entries (st_fs s1) Q = regular_entries (st_fs s0) Q).
Proof.
  intros Hwf _ Hrun.
  pose proof (remove_duplicates_entries _ _ _ _ _ Hwf Hrun) as H. split.
  - intros F HF P.
    assert (regular_entries (st_fs s1) P =
            keep_first h ∅ (regular_entries (st_fs s0) P)) as E.
    { rewrite H, bool_decide_true; [done|].
      apply list_elem_of_In, in_map. by apply list_elem_of_In. }
    split; [done|]. rewrite E. apply keep_first_NoDup.
  - intros Q HQ. rewrite H, bool_decide_false; [done|].
    intros (F & <- & HF)%list_elem_of_In%in_map_iff.
    by apply (HQ F); [apply list_elem_of_In|].
Qed.

(** ** A second deduplicate stage *)

Lemma keep_first_length h seen es : length (keep_first h seen es) <= length es.
Proof.
  revert seen. induction es as [|[f c] es IH]; intros seen; simpl; [done|].
  destruct (decide (h c ∈ seen)); simpl.
  - specialize (IH seen). lia.
  - specialize (IH ({[h c]} ∪ seen)). lia.
Qed.

(** A completed loop has read every regular file it went through. *)
Lemma dedup_loop_readable h fp folder rest :
  forall s seen seen' s',
  wf s -> NoDup rest -> Forall valid_name rest ->
  for_fold rest seen (dedup_body h fp folder) s = (inr seen', s') ->
  forall g c r, g ∈ rest ->
    fs_lookup (st_fs s) (abspath (st_cwd s) fp ++ [g]) = Some (File c r) ->
    r = true.
Proof.
  induction rest as [|f rest IH]; intros s seen seen' s' Hwf Hnd Hv;
    cbn [for_fold].
  - by intros _ g c r ?%elem_of_nil.
  - intros (seen1 & s1 & Hb & Hrest)%bind_inv_ok g c r Hg Hl.
    apply NoDup_cons in Hnd as [Hnin Hnd].
    inversion Hv as [|? ? Hvf Hvr]; subst.
    pose proof (dedup_step _ _ _ _ _ _ _ _ Hwf Hvf Hb) as Hstep. simpl in Hstep.
    apply elem_of_cons in Hg as [->|Hg].
    + rewrite Hl in Hstep. destruct r; [done|]. by destruct Hstep.
    + assert (g <> f) as Hgf by (by intros ->).
      assert (wf s1 ∧ st_cwd s1 = st_cwd s ∧
              fs_lookup (st_fs s1) (abspath (st_cwd s) fp ++ [g]) =
              fs_lookup (st_fs s) (abspath (st_cwd s) fp ++ [g]))
        as (Hwf1 & Hc1 & Hsame).
      { destruct (fs_lookup (st_fs s) (abspath (st_cwd s) fp ++ [f]))
          as [[c0 r0|]|] eqn:E;
          [destruct r0; [destruct (decide (h c0 ∈ seen))|]|..];
          destruct Hstep as [_ ->]; try done.
        split_and!; [|done|].
        - split; [|apply Hwf]. simpl. eapply wf_fs_delete_file; [apply Hwf|done].
        - simpl. rewrite fs_lookup_delete by (by destruct (abspath (st_cwd s) fp)).
          rewrite decide_False; [done|].
          intros Hx. by apply app_inj_tail in Hx as [_ ?]. }
      eapply (IH s1 _ _ _ Hwf1 Hnd Hvr Hrest g c r Hg).
      by rewrite Hc1, Hsame.
Qed.

(** A loop over files that are readable and have pairwise different
    digests, none of them seen, removes nothing. *)
Lemma dedup_loop_fixed h fp folder rest :
  forall s seen,
  wf s -> Forall valid_name rest ->
  let P := abspath (st_cwd s) fp in
  (forall g c r, g ∈ rest ->
     fs_lookup (st_fs s) (P ++ [g]) = Some (File c r) -> r = true) ->
  keep_first h seen (omap (entry (st_fs s) P) rest) =
    omap (entry (st_fs s) P) rest ->
  exists seen', for_fold rest seen (dedup_body h fp folder) s = (inr seen', s).
Proof.
  induction rest as [|f rest IH]; intros s seen Hwf Hv P Hrd Hkeep;
    cbn [for_fold].
  - by exists seen.
  - inversion Hv as [|? ? Hvf Hvr]; subst.
    destruct (dedup_body h fp folder seen f s) as [res s1] eqn:Hb.
    pose proof (dedup_step _ _ _ _ _ _ _ _ Hwf Hvf Hb) as Hstep. simpl in Hstep.
    fold P in Hstep. rewrite omap_cons_eq, entry_lookup in Hkeep by apply Hwf.
    rewrite bind_unfold, Hb.
    destruct (fs_lookup (st_fs s) (P ++ [f])) as [[c r|]|] eqn:E.
    + rewrite (Hrd f c r) in Hstep by (by left || done).
      cbn [keep_first] in Hkeep.
      destruct (decide (h c ∈ seen)) as [Hin|Hin].
      * exfalso.
        pose proof (keep_first_length h seen (omap (entry (st_fs s) P) rest)) as Hlen.
        rewrite Hkeep in Hlen. simpl in Hlen. lia.
      * destruct Hstep as [-> ->]. injection Hkeep as Hkeep.
        apply IH; [done|done| |done].
        intros g c' r' Hg. apply Hrd. by right.
    + destruct Hstep as [-> ->].
      apply IH; [done|done| |done].
      intros g c' r' Hg. apply Hrd. by right.
    + destruct Hstep as [-> ->].
      apply IH; [done|done| |done].
      intros g c' r' Hg. apply Hrd. by right.
Qed.

Lemma wf_children_valid fs l : wf_fs fs -> Forall valid_name (children fs l).
Proof.
  intros Hwf. apply Forall_forall. intros f Hf. apply elem_of_children in Hf.
  apply (wf_fs_key _ _ Hwf) in Hf as [Hv _].
  apply Forall_app in Hv as [_ Hv]. by inversion Hv.
Qed.

Lemma dedup_pass_readable h dd folder s0 s1 g c r :
  wf s0 -> FileFix.remove_duplicates_in h dd folder s0 = (inr tt, s1) ->
  fs_lookup (st_fs s0) (folder_loc (st_cwd s0) dd folder ++ [g]) = Some (File c r) ->
  r = true.
Proof.
  intros Hwf H Hl. rewrite remove_duplicates_in_unfold in H.
  apply bind_inv_ok in H as (files & s' & Hls & H).
  apply os_listdir_inv in Hls as [-> Hfiles].
  destruct (Hfiles files eq_refl) as [HP ->].
  apply bind_inv_ok in H as (seen' & s2 & Hloop & _).
  eapply (dedup_loop_readable _ _ _ _ _ _ _ _ Hwf); [| |exact Hloop| |exact Hl].
  { apply NoDup_children, Hwf. }
  { apply wf_children_valid, Hwf. }
  apply elem_of_children. apply (fs_lookup_key _ _ (File c r)); [|exact Hl].
  by intros [_ [=]]%app_eq_nil.
Qed.

Lemma dedup_pass_fixed h dd folder s :
  wf s ->
  let P := folder_loc (st_cwd s) dd folder in
  stat (st_fs s) P = inr Dir ->
  (forall g c r, fs_lookup (st_fs s) (P ++ [g]) = Some (File c r) -> r = true) ->
  keep_first h ∅ (regular_entries (st_fs s) P) = regular_entries (st_fs s) P ->
  FileFix.remove_duplicates_in h dd folder s = (inr tt, s).
Proof.
  intros Hwf P HP Hrd Hkeep. rewrite remove_duplicates_in_unfold.
  unfold os_listdir. rewrite bind_unfold, call_eq. unfold sys_listdir.
  change (abspath (st_cwd s) (PurePath dd </> folder)) with P. rewrite HP.
  destruct (dedup_loop_fixed h (PurePath dd </> folder) folder
              (children (st_fs s) P) s ∅ Hwf (wf_children_valid _ _ (proj1 Hwf)))
    as [seen' Hloop].
  - intros g c r _. apply Hrd.
  - exact Hkeep.
  - by rewrite bind_unfold, Hloop.
Qed.

Lemma for_each_fixed {A} (xs : list A) body s :
  (forall x, x ∈ xs -> body x s = (inr tt, s)) -> for_each xs body s = (inr tt, s).
Proof.
  induction xs as [|x xs IH]; intros H; [done|].
  cbn [for_each]. rewrite bind_unfold, (H x) by left.
  apply IH. intros y Hy. apply H. by right.
Qed.

(** What a completed stage leaves for each configured folder. *)
Lemma remove_duplicates_passes h folders dd s0 s1 :
  wf s0 -> FileFix.remove_duplicates h folders dd s0 = (inr tt, s1) ->
  prunes s0 s1 ∧ wf s1 ∧
  forall F, F ∈ folders.*1 ->
    stat (st_fs s1) (folder_loc (st_cwd s0) dd F) = inr Dir ∧
    forall g c r,
      fs_lookup (st_fs s1) (folder_loc (st_cwd s0) dd F ++ [g]) = Some (File c r) ->
      r = true.
Proof.
  revert s0. induction folders as [|[F0 exts] folders IH]; intros s0 Hwf Hrun.
  - injection Hrun as <-. split_and!; [apply prunes_refl|done|].
    by intros F ?%elem_of_nil.
  - rewrite remove_duplicates_cons in Hrun.
    apply bind_inv_ok in Hrun as ([] & sa & Hpass & Hrest).
    destruct (dedup_pass _ _ _ _ _ Hwf Hpass) as (Hwfa & Hca & Hpa & HP & _).
    destruct (IH sa Hwfa Hrest) as (Hp1 & Hwf1 & Hfol).
    rewrite Hca in Hfol.
    pose proof (prunes_trans _ _ _ Hpa Hp1) as Hp.
    split_and!; [done|done|].
    intros F [->|HF]%elem_of_cons; [|by apply Hfol]. split.
    + apply wf_stat; [apply Hwf1|]. apply (prunes_dir _ _ _ Hp).
      by apply stat_lookup.
    + intros g c r Hl. simpl in Hl. apply (dedup_pass_readable _ _ _ _ _ g c r Hwf Hpass).
      destruct Hp as (_ & _ & Hp).
      destruct (Hp (folder_loc (st_cwd s0) dd F0 ++ [g])) as [<-|[? _]]; congruence.
Qed.

(** X10. A deduplicate stage run again right after a completed one completes
    as well and changes nothing: no file is removed and nothing is
    logged. *)
Theorem remove_duplicates_again_removes_nothing h folders dd s0 s1 :
  wf s0 -> FileFix.remove_duplicates h folders dd s0 = (inr tt, s1) ->
  FileFix.remove_duplicates h folders dd s1 = (inr tt, s1).
Proof.
  intros Hwf Hrun.
  destruct (remove_duplicates_passes _ _ _ _ _ Hwf Hrun) as (Hp & Hwf1 & Hfol).
  assert (st_cwd s1 = st_cwd s0) as Hc by apply Hp.
  unfold FileFix.remove_duplicates. apply for_each_fixed. intros F HF.
  destruct (Hfol F HF) as [HD Hrd].
  apply dedup_pass_fixed; rewrite ?Hc; try done.
  rewrite (remove_duplicates_entries _ _ _ _ _ Hwf Hrun), bool_decide_true.
  - by apply keep_first_again.
  - apply list_elem_of_In, in_map. by apply list_elem_of_In.
Qed.

(** ** What the deduplicate stage can remove *)

(** The place of a removed duplicate: entry [m.1] of folder [m.2]. *)
Definition duplicate_at (cwd : loc) (dd : string) (m : string * string) : loc :=
  abspath cwd (PurePath dd </> m.2 </> m.1).

(** Between [s] and [s'] the regular files at the places of [removed],
    entries of folders of [Fs], were removed one after the other, each
    with its record in the log, and nothing else changed. *)
Definition removes_logged (cwd : loc) (dd : string) (Fs : list string)
    (s s' : state) : Prop :=
  st_cwd s = cwd ->
  st_cwd s' = cwd ∧
  exists removed : list (string * string),
    st_log s' = st_log s ++ map (fun m => RemovedDuplicate m.1 m.2) removed ∧
    Forall (fun m => m.2 ∈ Fs ∧
                     exists c r, fs_lookup (st_fs s) (duplicate_at cwd dd m)
                                 = Some (File c r)) removed ∧
    NoDup (map (duplicate_at cwd dd) removed) ∧
    forall l, fs_lookup (st_fs s') l =
              if decide (l ∈ map (duplicate_at cwd dd) removed) then None
              else fs_lookup (st_fs s) l.

Lemma removes_logged_refl cwd dd Fs s : removes_logged cwd dd Fs s s.
Proof.
  intros Hc. split; [done|]. exists []. split_and!.
  - by rewrite app_nil_r.
  - constructor.
  - constructor.
  - intros l. case_decide as Hl; [by apply elem_of_nil in Hl|done].
Qed.

Lemma removes_logged_trans cwd dd Fs s1 s2 s3 :
  removes_logged cwd dd Fs s1 s2 -> removes_logged cwd dd Fs s2 s3 ->
  removes_logged cwd dd Fs s1 s3.
Proof.
  intros H1 H2 Hc.
  destruct (H1 Hc) as (Hc2 & rm1 & Hlog1 & Hf1 & Hnd1 & Hl1).
  destruct (H2 Hc2) as (Hc3 & rm2 & Hlog2 & Hf2 & Hnd2 & Hl2).
  split; [done|]. exists (rm1 ++ rm2).
  assert (forall m, m ∈ rm2 ->
            (duplicate_at cwd dd m ∉ map (duplicate_at cwd dd) rm1) ∧
            exists c r, fs_lookup (st_fs s1) (duplicate_at cwd dd m)
                        = Some (File c r)) as Hlater.
  { intros m Hm. rewrite Forall_forall in Hf2.
    destruct (Hf2 m Hm) as (_ & c & r & Hl). rewrite Hl1 in Hl.
    case_decide; [done|]. by eauto. }
  split_and!.
  - by rewrite Hlog2, Hlog1, map_app, app_assoc.
  - apply Forall_app. split; [done|].
    apply Forall_forall. intros m Hm. rewrite Forall_forall in Hf2.
    split; [by apply Hf2|]. by apply Hlater.
  - rewrite map_app. apply NoDup_app. split_and!; [done| |done].
    intros l Hl (m & <- & Hm)%list_elem_of_In%in_map_iff.
    apply list_elem_of_In in Hm. by apply (Hlater m Hm).
  - intros l. rewrite Hl2, Hl1, map_app.
    repeat case_decide; try done; set_solver.
Qed.

(** Removing a duplicate and writing its record: when the removal
    raises nothing is written, and nothing comes between the two. *)
Lemma remove_and_log cwd dd Fs F g {A} (x : A) :
  F ∈ Fs ->
  steps (removes_logged cwd dd Fs)
        (os_remove (PurePath dd </> F </> g) ;;
         logging_info (RemovedDuplicate g F) ;; mret x).
Proof.
  intros HF s r s' H.
  apply bind_inv in H as [(e & H & _)|([] & s1 & H & H2)].
  - apply mutate_inv in H as [(e' & _ & _ & ->)|(fs' & _ & [=] & _)].
    apply removes_logged_refl.
  - apply mutate_inv in H as [(e' & _ & [=] & _)|(fs' & H & _ & ->)].
    injection H2 as <- <-. intros Hc.
    apply sys_unlink_inv in H as (c & r0 & Hst & ->). rewrite Hc in Hst.
    assert (abspath cwd (PurePath dd </> F </> g) <> []) as Hne.
    { intros E. rewrite E in Hst. by rewrite stat_nil in Hst. }
    split; [done|]. exists [(g, F)]. simpl. split_and!.
    + done.
    + constructor; [|constructor]. split; [done|]. exists c, r0.
      by apply stat_lookup.
    + apply NoDup_singleton.
    + intros l. rewrite Hc, fs_lookup_delete by done.
      unfold duplicate_at. simpl.
      repeat case_decide; try done; set_solver.
Qed.

Lemma remove_duplicates_in_removes_logged h cwd dd Fs F :
  F ∈ Fs -> steps (removes_logged cwd dd Fs) (FileFix.remove_duplicates_in h dd F).
Proof.
  intros HF. unfold FileFix.remove_duplicates_in, os_listdir, is_file, read_bytes.
  pose proof (removes_logged_refl cwd dd Fs) as Hrefl.
  pose proof (removes_logged_trans cwd dd Fs) as Htrans.
  apply steps_bind; [done|by apply steps_call|]. intros files.
  apply steps_bind; [done| |intros ?; by apply steps_ret].
  apply steps_for_fold; [done..|]. intros seen g _.
  apply steps_bind; [done|by apply steps_query|]. intros [|]; [|by apply steps_ret].
  apply steps_bind; [done|by apply steps_call|]. intros data.
  case_decide; [by apply remove_and_log|by apply steps_ret].
Qed.

(** X11. For a configuration of plain paths: however the deduplicate
    stage ends, all it has done is remove regular files that were entries
    of configured folders, and its records in the log are these removals,
    one record for each removal and in the same order: a place holds
    nothing afterwards exactly when it is the place of a record, every
    other place holds what it held, and the working directory is the
    same.  So no directory is removed, nothing is created or rewritten,
    and nothing is removed without a record. *)
Theorem remove_duplicates_removes_only_folder_files h folders dd s0 res s1 :
  plain_config dd folders ->
  FileFix.remove_duplicates h folders dd s0 = (res, s1) ->
  st_cwd s1 = st_cwd s0 ∧
  exists removed : list (string * string),
    let place := fun m : string * string =>
                   abspath (st_cwd s0) (PurePath dd </> m.2 </> m.1) in
    st_log s1 = st_log s0 ++ map (fun m => RemovedDuplicate m.1 m.2) removed ∧
    Forall (fun m => m.2 ∈ folders.*1 ∧
                     exists c r, fs_lookup (st_fs s0) (place m) = Some (File c r))
           removed ∧
    NoDup (map place removed) ∧
    forall l, fs_lookup (st_fs s1) l =
              if decide (l ∈ map place removed) then None
              else fs_lookup (st_fs s0) l.
Proof.
  intros _ Hrun.
  assert (steps (removes_logged (st_cwd s0) dd folders.*1)
                (FileFix.remove_duplicates h folders dd)) as H.
  { unfold FileFix.remove_duplicates.
    apply steps_for_each; [apply removes_logged_refl | apply removes_logged_trans|].
    intros F HF. by apply remove_duplicates_in_removes_logged. }
  by apply (H _ _ _ Hrun).
Qed.

(** ** After the cleanup stage *)

(** A completed cleanup stage, seen from the state it ends in. *)
Lemma clean_up_inv dd s0 s1 :
  wf s0 -> FileFix.clean_up_empty_folders dd s0 = (inr tt, s1) ->
  let D := abspath (st_cwd s0) (PurePath dd) in
  dd <> EmptyString ∧ stat (st_fs s0) D = inr Dir ∧
  wf s1 ∧ st_cwd s1 = st_cwd s0 ∧
  (forall l, fs_lookup (st_fs s1) l =
             match child_name D l with
             | Some _ => if empty_dir (st_fs s0) l then None
                         else fs_lookup (st_fs s0) l
             | None => fs_lookup (st_fs s0) l
             end).
Proof.
  intros Hwf Hrun D. rewrite clean_up_unfold in Hrun.
  apply bind_inv_ok in Hrun as (entries & s' & Hl & Hrun).
  apply os_listdir_str_inv in Hl as [-> Hl].
  destruct (Hl entries eq_refl) as (Hdd & HD & ->). fold D in HD, Hrun.
  destruct (cleanup_loop dd (children (st_fs s0) D) s0 Hwf)
    as (s1' & Hrun' & Hwf1 & Hc1 & Hlk & _).
  { apply NoDup_children, Hwf. }
  { apply wf_children_valid, Hwf. }
  fold D in Hrun', Hlk. rewrite Hrun in Hrun'. injection Hrun' as <-.
  split_and!; try done.
  intros l. rewrite Hlk, empty_child_all. by destruct (child_name D l).
Qed.

Lemma children_nonempty_lookup fs l :
  children fs l <> [] <-> exists n, is_Some (fs_lookup fs (l ++ [n])).
Proof.
  split.
  - destruct (children fs l) as [|n ch] eqn:E; [done|]. intros _. exists n.
    assert (n ∈ children fs l) as Hn by (rewrite E; left).
    apply elem_of_children, assoc_is_Some in Hn.
    by destruct l.
  - intros (n & x & Hx) E.
    assert (n ∈ children fs l) as Hn.
    { apply elem_of_children. apply (fs_lookup_key _ _ x); [by destruct l|done]. }
    rewrite E in Hn. by apply elem_of_nil in Hn.
Qed.

Lemma child_name_grandchild D n m : child_name D (D ++ [n] ++ [m]) = None.
Proof.
  destruct (child_name D (D ++ [n] ++ [m])) as [x|] eqn:E; [|done].
  apply child_name_Some in E. apply (f_equal length) in E.
  rewrite !length_app in E. simpl in E. lia.
Qed.

Lemma child_name_self D : child_name D D = None.
Proof.
  destruct (child_name D D) as [x|] eqn:E; [|done].
  apply child_name_Some in E. apply (f_equal length) in E.
  rewrite !length_app in E. simpl in E. lia.
Qed.

Lemma clean_up_leaves_no_empty dd s0 s1 n :
  wf s0 -> FileFix.clean_up_empty_folders dd s0 = (inr tt, s1) ->
  empty_dir (st_fs s1) (abspath (st_cwd s0) (PurePath dd) ++ [n]) = false.
Proof.
  intros Hwf Hrun.
  destruct (clean_up_inv _ _ _ Hwf Hrun) as (_ & _ & Hwf1 & _ & Hlk).
  set (D := abspath (st_cwd s0) (PurePath dd)) in *.
  rewrite empty_dir_lookup by apply Hwf1.
  rewrite Hlk, child_name_snoc.
  destruct (empty_dir (st_fs s0) (D ++ [n])) eqn:E; [done|].
  rewrite empty_dir_lookup in E by apply Hwf.
  destruct (fs_lookup (st_fs s0) (D ++ [n])) as [[c r|]|] eqn:El; [done| |done].
  destruct (children (st_fs s0) (D ++ [n])) as [|m ch] eqn:Ech; [done|].
  assert (children (st_fs s1) (D ++ [n]) <> []) as H1.
  { apply children_nonempty_lookup.
    assert (children (st_fs s0) (D ++ [n]) <> []) as H0 by (by rewrite Ech).
    apply children_nonempty_lookup in H0 as [m' Hm']. exists m'.
    by rewrite Hlk, <- app_assoc, child_name_grandchild, app_assoc. }
  by destruct (children (st_fs s1) (D ++ [n])).
Qed.

(** X12. After a completed cleanup stage no entry of the download directory is
    an empty directory, and a cleanup stage run again completes and
    changes nothing. *)
Theorem cleanup_again_removes_nothing dd s0 s1 :
  wf s0 -> FileFix.clean_up_empty_folders dd s0 = (inr tt, s1) ->
  let D := abspath (st_cwd s0) (PurePath dd) in
  (forall n, empty_dir (st_fs s1) (D ++ [n]) = false) ∧
  FileFix.clean_up_empty_folders dd s1 = (inr tt, s1).
Proof.
  intros Hwf Hrun D.
  destruct (clean_up_inv _ _ _ Hwf Hrun) as (Hdd & HD & Hwf1 & Hc1 & Hlk).
  fold D in HD, Hlk.
  assert (forall n, empty_dir (st_fs s1) (D ++ [n]) = false) as Hne.
  { intros n. by apply (clean_up_leaves_no_empty dd s0). }
  split; [done|].
  rewrite clean_up_unfold, bind_unfold, os_listdir_str_ok; [|done|].
  2:{ rewrite Hc1. fold D. apply wf_stat; [apply Hwf1|].
      rewrite Hlk, child_name_self. by apply stat_lookup. }
  apply for_each_fixed. intros n Hn.
  rewrite cleanup_step.
  - rewrite Hc1. fold D. by rewrite Hne.
  - eapply Forall_forall; [|exact Hn]. apply wf_children_valid, Hwf1.
Qed.

(** ** The state a completed run ends in *)

Lemma omap_entry_filter_dir fs fs' Q n (ch : list string) :
  entry fs Q n = None ->
  (forall g, g <> n -> entry fs' Q g = entry fs Q g) ->
  omap (entry fs' Q) (List.filter (fun g => negb (bool_decide (g = n))) ch) =
  omap (entry fs Q) ch.
Proof.
  intros Hn Hg. induction ch as [|g ch IH]; [done|]. cbn [List.filter].
  destruct (decide (g = n)) as [->|Hne].
  - rewrite bool_decide_true by done. cbn [negb]. by rewrite omap_cons_eq, Hn.
  - rewrite bool_decide_false by done. cbn [negb].
    by rewrite !omap_cons_eq, Hg, IH.
Qed.

(** Removing an empty directory leaves the regular files of every
    directory as they are. *)
Lemma regular_entries_delete_dir fs L Q :
  wf_fs fs -> L <> [] -> fs_lookup fs L = Some Dir -> children fs L = [] ->
  regular_entries (fs_delete L fs) Q = regular_entries fs Q.
Proof.
  intros Hwf Hne HL Hch.
  pose proof (wf_fs_delete_empty _ _ Hwf Hne Hch) as Hwf'.
  unfold regular_entries. rewrite children_delete.
  assert (forall g, Q ++ [g] <> L ->
            entry (fs_delete L fs) Q g = entry fs Q g) as Hent.
  { intros g Hg. rewrite !entry_lookup by done.
    rewrite fs_lookup_delete by done. by rewrite decide_False. }
  destruct (child_name Q L) as [n|] eqn:E.
  - apply child_name_Some in E. subst L. apply omap_entry_filter_dir.
    + rewrite entry_lookup by done. by rewrite HL.
    + intros g Hg. apply Hent. intros Hx. by apply app_inj_tail in Hx as [_ ?].
  - apply omap_ext_in. intros g _. apply Hent. intros Hx.
    symmetry in Hx. apply child_name_Some in Hx. congruence.
Qed.

Definition keeps_files (s s' : state) : Prop :=
  wf s -> wf s' ∧ st_cwd s' = st_cwd s ∧
          forall Q, regular_entries (st_fs s') Q = regular_entries (st_fs s) Q.

Lemma keeps_files_refl s : keeps_files s s.
Proof. by intros Hwf. Qed.

Lemma keeps_files_trans s1 s2 s3 :
  keeps_files s1 s2 -> keeps_files s2 s3 -> keeps_files s1 s3.
Proof.
  intros H1 H2 Hwf. destruct (H1 Hwf) as (Hwf2 & Hc2 & E2).
  destruct (H2 Hwf2) as (Hwf3 & Hc3 & E3). split_and!; [done|congruence|].
  intros Q. by rewrite E3.
Qed.

Lemma cleanup_body_keeps_files dd n :
  valid_name n -> steps keeps_files (cleanup_body dd n).
Proof.
  intros Hv s r s' Hrun Hwf. rewrite cleanup_step in Hrun by done.
  injection Hrun as _ <-.
  destruct (empty_dir (st_fs s) (abspath (st_cwd s) (PurePath dd) ++ [n])) eqn:E;
    [|done].
  rewrite empty_dir_lookup in E by apply Hwf.
  set (L := abspath (st_cwd s) (PurePath dd) ++ [n]) in *.
  assert (L <> []) as Hne by (by intros [_ [=]]%app_eq_nil).
  destruct (fs_lookup (st_fs s) L) as [[|]|] eqn:El; try done.
  destruct (children (st_fs s) L) eqn:Ech; [|done].
  split_and!; [|done|].
  - split; [|apply Hwf]. simpl. apply wf_fs_delete_empty; [apply Hwf|done..].
  - intros Q. simpl. apply regular_entries_delete_dir; [apply Hwf|done..].
Qed.

Lemma clean_up_keeps_files dd :
  steps (fun s s' => wf s -> forall Q,
           regular_entries (st_fs s') Q = regular_entries (st_fs s) Q)
        (FileFix.clean_up_empty_folders dd).
Proof.
  intros s r s' Hrun Hwf. rewrite clean_up_unfold in Hrun.
  apply bind_inv in Hrun as [(e & Hl & _)|(entries & s1 & Hl & Hrun)].
  - by apply os_listdir_str_inv in Hl as [-> _].
  - apply os_listdir_str_inv in Hl as [-> Hl].
    destruct (Hl entries eq_refl) as (_ & _ & ->).
    assert (steps keeps_files
              (for_each (children (st_fs s) (abspath (st_cwd s) (PurePath dd)))
                        (cleanup_body dd))) as H.
    { apply steps_for_each; [apply keeps_files_refl | apply keeps_files_trans|].
      intros n Hn. apply cleanup_body_keeps_files.
      eapply Forall_forall; [|exact Hn]. apply wf_children_valid, Hwf. }
    by apply (H _ _ _ Hrun Hwf).
Qed.

(** X13. A completed run ends in a state where no configured folder holds two
    regular files of the same digest and no entry of the download
    directory is an empty directory. *)
Theorem completed_run_has_no_duplicates_and_no_empty_folders
    h folders dd s0 s3 :
  wf s0 ->
  FileFix.main h (mkConfig (Some folders) (Some dd)) s0 = (inr tt, s3) ->
  let D := abspath (st_cwd s0) (PurePath dd) in
  (forall F, F ∈ folders.*1 ->
     NoDup (map (fun e => h e.2)
                (regular_entries (st_fs s3) (folder_loc (st_cwd s0) dd F)))) ∧
  (forall n, empty_dir (st_fs s3) (D ++ [n]) = false).
Proof.
  intros Hwf Hrun D. rewrite main_unfold in Hrun.
  apply bind_inv_ok in Hrun as (counts & s1 & Horg & Hrun).
  apply bind_inv_ok in Hrun as ([] & s2 & Hdd & Hrun).
  apply bind_inv_ok in Hrun as ([] & s3' & Hcl & Hsum). injection Hsum as <-.
  destruct (organize_files_ok _ _ _ _ _ Hwf Horg) as (_ & _ & _ & Hwf1 & Hc1 & _).
  destruct (remove_duplicates_passes _ _ _ _ _ Hwf1 Hdd) as (Hp2 & Hwf2 & _).
  assert (st_cwd s2 = st_cwd s0) as Hc2.
  { destruct Hp2 as [-> _]. done. }
  split.
  - intros F HF. rewrite (clean_up_keeps_files dd _ _ _ Hcl Hwf2).
    rewrite (remove_duplicates_entries _ _ _ _ _ Hwf1 Hdd), Hc1, bool_decide_true.
    + apply keep_first_NoDup.
    + apply list_elem_of_In, in_map. by apply list_elem_of_In.
  - intros n. unfold D. rewrite <- Hc2.
    by apply (clean_up_leaves_no_empty dd s2).
Qed.

(** ** An organize stage that raises *)

Lemma moves_prefix folders fs D l1 l2 :
  l1 `prefix_of` l2 -> moves folders fs D l1 `prefix_of` moves folders fs D l2.
Proof. intros [k ->]. rewrite moves_app. by apply prefix_app_r. Qed.

Lemma planned_source_grows folders dd s0 s f F :
  wf s0 -> grows s0 s -> (f, F) ∈ planned folders dd s0 ->
  fs_lookup (st_fs s) (abspath (st_cwd s0) (PurePath dd) ++ [f]) =
  fs_lookup (st_fs s0) (abspath (st_cwd s0) (PurePath dd) ++ [f]).
Proof.
  intros Hwf Hg Hin. apply elem_of_moves in Hin as (_ & Hr & _).
  rewrite is_reg_lookup in Hr by apply Hwf.
  destruct (fs_lookup (st_fs s0) (abspath (st_cwd s0) (PurePath dd) ++ [f]))
    as [[c r|]|] eqn:E; try done.
  by apply (grows_file _ _ _ _ _ Hg).
Qed.

(** X14. However the organize stage ends, the moves it has made are the first
    of the moves it would make, in order, and the files of the other
    ones are where they were: a stage that raises stops at the file it
    could not move. *)
Theorem organize_stops_where_it_fails folders dd s0 res s1 :
  wf s0 -> FileFix.organize_files folders dd s0 = (res, s1) ->
  let D := abspath (st_cwd s0) (PurePath dd) in
  exists made rest,
    planned folders dd s0 = made ++ rest ∧
    st_log s1 = st_log s0 ++ map (fun m => Moved m.1 m.2) made ∧
    (forall f F, (f, F) ∈ rest ->
       fs_lookup (st_fs s1) (D ++ [f]) = fs_lookup (st_fs s0) (D ++ [f])) ∧
    (forall counts, res = inr counts -> rest = []).
Proof.
  intros Hwf Hrun D. rewrite organize_files_unfold in Hrun.
  assert (forall e, res = inl e -> grows s0 s1 ->
            exists made rest,
              planned folders dd s0 = made ++ rest ∧
              st_log s1 = st_log s0 ++ map (fun m => Moved m.1 m.2) made ∧
              (forall f F, (f, F) ∈ rest ->
                 fs_lookup (st_fs s1) (D ++ [f]) = fs_lookup (st_fs s0) (D ++ [f])) ∧
              (forall counts, res = inr counts -> rest = [])) as Hearly.
  { intros e -> Hg. exists [], (planned folders dd s0).
    split_and!; [done| |..|done].
    - destruct Hg as (_ & -> & _). by rewrite app_nil_r.
    - intros f F Hin. by eapply planned_source_grows. }
  apply bind_inv in Hrun as [(e & Hmk & ->)|([] & sm & Hmk & Hrun)].
  { apply (Hearly e eq_refl). eapply make_folders_grows; [|exact Hmk].
    intros F. apply valid_path_truediv, valid_path_PurePath. }
  assert (grows s0 sm) as Hg.
  { eapply make_folders_grows; [|exact Hmk].
    intros F. apply valid_path_truediv, valid_path_PurePath. }
  pose proof Hg as (Hcm & Hlm & _ & Hwfm). specialize (Hwfm Hwf).
  apply bind_inv in Hrun as [(e & Hl & ->)|(total & s' & Hl & Hrun)].
  { apply os_listdir_str_inv in Hl as [-> _]. by apply (Hearly e). }
  apply os_listdir_str_inv in Hl as [-> _].
  apply bind_inv in Hrun as [(e & Hl & ->)|(files & s' & Hl & Hrun)].
  { apply os_listdir_str_inv in Hl as [-> _]. by apply (Hearly e). }
  clear Hearly.
  apply os_listdir_str_inv in Hl as [-> Hl].
  destruct (Hl files eq_refl) as (_ & _ & ->). rewrite Hcm in Hrun. fold D in Hrun.
  destruct (organize_loop folders dd sm (children (st_fs sm) D) [] sm ∅ res s1)
    as (done' & Hpre & Hinv & Hok); [done| | |by apply org_inv_start|done|].
  { apply NoDup_children, Hwfm. }
  { apply wf_children_valid, Hwfm. }
  rewrite Hcm in Hok. fold D in Hok.
  destruct Hpre as [later Hlater]. simpl in Hlater.
  pose proof (planned_grows folders dd s0 sm Hwf Hg) as Hpl. fold D in Hpl.
  exists (moves folders (st_fs sm) D done'), (moves folders (st_fs sm) D later).
  split_and!.
  - by rewrite <- Hpl, Hlater, moves_app.
  - destruct Hinv as (_ & _ & _ & Hlog & _). rewrite Hcm in Hlog. fold D in Hlog.
    by rewrite Hlog, Hlm.
  - intros f F Hin.
    assert (fs_lookup (st_fs sm) (D ++ [f]) = fs_lookup (st_fs s0) (D ++ [f])) as <-.
    { apply (planned_source_grows folders dd s0 sm f F Hwf Hg).
      rewrite <- Hpl, Hlater, moves_app. apply elem_of_app. by right. }
    pose proof (org_inv_untouched _ _ _ _ _ f Hinv) as Hu.
    rewrite Hcm in Hu. fold D in Hu. apply Hu.
    intros Hf%moves_fst_subset. apply elem_of_moves in Hin as (Hf' & _).
    assert (NoDup (done' ++ later)) as Hnd.
    { rewrite <- Hlater. apply NoDup_children, Hwfm. }
    apply NoDup_app in Hnd as (_ & Hdis & _). by apply (Hdis f).
  - intros counts ->. destruct (Hok counts eq_refl) as [Hd _].
    simpl in Hd. rewrite Hd in Hlater.
    assert (later = []) as ->.
    { apply (f_equal length) in Hlater. rewrite length_app in Hlater.
      destruct later; [done|]. simpl in Hlater. lia. }
    done.
Qed.

(** ** Unmatched files through the whole run *)

Lemma elem_of_regular_entries fs P f c :
  wf_fs fs ->
  (f, c) ∈ regular_entries fs P <->
  exists r, fs_lookup fs (P ++ [f]) = Some (File c r).
Proof.
  intros Hwf. unfold regular_entries. rewrite list_elem_of_omap. split.
  - intros (g & Hg & He). pose proof (entry_fst _ _ _ _ He) as E. simpl in E.
    subst g. rewrite entry_lookup in He by done.
    destruct (fs_lookup fs (P ++ [f])) as [[c' r|]|]; try done.
    injection He as <-. by eauto.
  - intros [r Hl]. exists f. split.
    + apply elem_of_children. apply (fs_lookup_key _ _ (File c r)); [|done].
      by intros [_ [=]]%app_eq_nil.
    + rewrite entry_lookup by done. by rewrite Hl.
Qed.

(** X15. For a configuration of plain paths: a regular file of the
    download directory that ends with no configured suffix is still
    there, with its content, after a completed run, when no configured
    folder is the download directory itself.  (A folder that is the
    download directory is deduplicated like any other, and an unmatched
    file in it can be removed as a duplicate.) *)
Theorem run_keeps_the_unmatched_files h folders dd s0 s3 f c r :
  wf s0 -> plain_config dd folders ->
  FileFix.main h (mkConfig (Some folders) (Some dd)) s0 = (inr tt, s3) ->
  let D := abspath (st_cwd s0) (PurePath dd) in
  (forall F, F ∈ folders.*1 -> folder_loc (st_cwd s0) dd F <> D) ->
  stat (st_fs s0) (D ++ [f]) = inr (File c r) ->
  classify f folders = None ->
  stat (st_fs s3) (D ++ [f]) = inr (File c r).
Proof.
  intros Hwf _ Hrun D Hfol Hf Hc. rewrite main_unfold in Hrun.
  apply bind_inv_ok in Hrun as (counts & s1 & Horg & Hrun).
  apply bind_inv_ok in Hrun as ([] & s2 & Hdd & Hrun).
  apply bind_inv_ok in Hrun as ([] & s3' & Hcl & Hsum). injection Hsum as <-.
  destruct (organize_files_ok _ _ _ _ _ Hwf Horg)
    as (sm & Hg & Hwfm & Hwf1 & Hc1 & _ & _ & _ & _ & _ & _ & Hframe & _).
  fold D in Hframe. apply stat_lookup in Hf.
  assert (fs_lookup (st_fs s1) (D ++ [f]) = Some (File c r)) as H1.
  { rewrite Hframe; [by apply (grows_lookup _ _ _ _ Hg)|].
    intros g G Hin. pose proof Hin as Hin'.
    apply elem_of_moves in Hin' as (_ & _ & Hcg). split.
    - intros Hx. apply app_inj_tail in Hx as [_ <-]. congruence.
    - intros Hx.
      destruct (move_target_last (st_fs sm) (folder_loc (st_cwd s0) dd G) g)
        as [q Hq].
      rewrite Hq in Hx. apply app_inj_tail in Hx as [_ <-]. congruence. }
  destruct (remove_duplicates_passes _ _ _ _ _ Hwf1 Hdd) as (Hp2 & Hwf2 & _).
  assert (fs_lookup (st_fs s2) (D ++ [f]) = Some (File c r)) as H2.
  { assert ((f, c) ∈ regular_entries (st_fs s2) D) as Hin.
    { rewrite (remove_duplicates_entries _ _ _ _ _ Hwf1 Hdd), Hc1.
      rewrite bool_decide_false.
      - apply elem_of_regular_entries; [apply Hwf1|by eauto].
      - intros (F & HF & Hin)%list_elem_of_In%in_map_iff.
        by apply (Hfol F); [apply list_elem_of_In|]. }
    apply elem_of_regular_entries in Hin as [r' Hr']; [|apply Hwf2].
    destruct Hp2 as (_ & _ & Hp2).
    destruct (Hp2 (D ++ [f])) as [E|[E _]]; congruence. }
  assert (st_cwd s2 = st_cwd s0) as Hc2.
  { destruct Hp2 as [-> _]. done. }
  destruct (clean_up_inv _ _ _ Hwf2 Hcl) as (_ & _ & Hwf3 & _ & Hlk).
  rewrite Hc2 in Hlk. fold D in Hlk.
  apply wf_stat; [apply Hwf3|]. rewrite Hlk, child_name_snoc.
  rewrite empty_dir_lookup by apply Hwf2. by rewrite H2.
Qed.

(** ** The working-directory variant on its own *)

Lemma abspath_dot cwd : abspath cwd (PurePath ".") = cwd.
Proof. unfold abspath. simpl. apply app_nil_r. Qed.

Lemma folder_loc_dot cwd F : folder_loc cwd "." F = abspath cwd (PurePath F).
Proof. unfold folder_loc. symmetry. apply home_folder, abspath_dot. Qed.

(** X16. The cleanup stage of the variant does not look at the download
    directory: it removes the entries of the working directory that are
    empty directories, and nothing else. *)
Theorem test_cleanup_cleans_the_working_directory s0 entries :
  wf s0 ->
  sys_listdir (st_fs s0) (st_cwd s0) = inr entries ->
  exists s1,
    TestFileFix.clean_up_empty_folders s0 = (inr tt, s1) ∧
    (forall l, fs_lookup (st_fs s1) l =
               match child_name (st_cwd s0) l with
               | Some _ => if empty_dir (st_fs s0) l then None
                           else fs_lookup (st_fs s0) l
               | None => fs_lookup (st_fs s0) l
               end) ∧
    st_log s1 = st_log s0 ++
      map RemovedEmpty
          (List.filter (fun n => empty_dir (st_fs s0) (st_cwd s0 ++ [n])) entries).
Proof.
  intros Hwf Hlist.
  assert (stat (st_fs s0) (st_cwd s0) = inr Dir ∧
          entries = children (st_fs s0) (st_cwd s0)) as [HD ->].
  { unfold sys_listdir in Hlist.
    destruct (stat (st_fs s0) (st_cwd s0)) as [|[|]]; try done.
    by injection Hlist as <-. }
  destruct (cleanup_loop "." (children (st_fs s0) (st_cwd s0)) s0 Hwf)
    as (s1 & Hrun & _ & _ & Hlk & Hlog).
  { apply NoDup_children, Hwf. }
  { apply wf_children_valid, Hwf. }
  rewrite abspath_dot in Hlk, Hlog.
  exists s1. split_and!.
  - rewrite (clean_up_agree "." s0 Hwf (abspath_dot _)) by done.
    rewrite clean_up_unfold, bind_unfold, os_listdir_str_ok;
      rewrite ?abspath_dot; done.
  - intros l. rewrite Hlk, empty_child_all. by destruct (child_name (st_cwd s0) l).
  - done.
Qed.

(** X17. The deduplicate stage of the variant works on the folders under the
    working directory: after a completed stage each of them holds the
    first listed file of each digest. *)
Theorem test_remove_duplicates_keeps_first_under_cwd h folders s0 s1 :
  wf s0 -> TestFileFix.remove_duplicates h folders s0 = (inr tt, s1) ->
  (forall F, F ∈ folders.*1 -> F <> EmptyString) ->
  forall F, F ∈ folders.*1 ->
    let P := abspath (st_cwd s0) (PurePath F) in
    regular_entries (st_fs s1) P = keep_first h ∅ (regular_entries (st_fs s0) P) ∧
    NoDup (map (fun e => h e.2) (regular_entries (st_fs s1) P)).
Proof.
  intros Hwf Hrun Hne F HF P.
  rewrite (remove_duplicates_agree h folders "." s0 (abspath_dot _) Hne) in Hrun.
  pose proof (remove_duplicates_entries _ _ _ _ _ Hwf Hrun P) as E.
  rewrite bool_decide_true in E.
  - split; [done|]. rewrite E. apply keep_first_NoDup.
  - unfold P. rewrite <- folder_loc_dot.
    apply list_elem_of_In, in_map. by apply list_elem_of_In.
Qed.

(** X18. [os.listdir("")] raises: with a folder named by the empty string the
    deduplicate stage of the variant, and so its run, never completes. *)
Theorem test_run_fails_on_the_empty_folder_name h folders dd s :
  EmptyString ∈ folders.*1 ->
  (exists e s', TestFileFix.remove_duplicates h folders s = (inl e, s')) ∧
  (exists e s', TestFileFix.main h (mkConfig (Some folders) (Some dd)) s = (inl e, s')).
Proof.
  intros Hin.
  assert (forall s, exists e s',
            TestFileFix.remove_duplicates h folders s = (inl e, s')) as Hst.
  { clear s. unfold TestFileFix.remove_duplicates.
    induction folders.*1 as [|F Fs IH]; intros s; [by apply elem_of_nil in Hin|].
    cbn [for_each]. rewrite bind_unfold.
    destruct (TestFileFix.remove_duplicates_in h F s) as [[e|[]] s1] eqn:E;
      [by eauto|].
    apply elem_of_cons in Hin as [<-|Hin]; [done|]. by apply IH. }
  split; [apply Hst|].
  rewrite test_main_unfold, bind_unfold.
  destruct (TestFileFix.organize_files folders dd s) as [[e|counts] s1]; [by eauto|].
  rewrite bind_unfold. destruct (Hst s1) as (e & s' & ->). by eauto.
Qed.

(** ** Folders given by absolute paths *)

Lemma truediv_absolute p F : anchor (PurePath F) = true -> p </> F = PurePath F.
Proof. intros H. unfold truediv. by rewrite H. Qed.

Lemma absolute_nonempty F : anchor (PurePath F) = true -> F <> EmptyString.
Proof. by intros H ->. Qed.

Lemma move_to_first_absolute dd file fp folders counts s :
  (forall F, F ∈ folders.*1 -> anchor (PurePath F) = true) ->
  TestFileFix.move_to_first file fp folders counts s =
  FileFix.move_to_first dd file fp folders counts s.
Proof.
  induction folders as [|[F exts] folders IH]; intros Habs; [done|].
  cbn [TestFileFix.move_to_first FileFix.move_to_first].
  destruct (any_endswith file exts).
  - by rewrite (truediv_absolute (PurePath dd) F) by (apply Habs; left).
  - apply IH. intros G HG. apply Habs. by right.
Qed.

Lemma for_each_ext_in {A} (b1 b2 : A -> M unit) xs s :
  (forall x s, x ∈ xs -> b1 x s = b2 x s) ->
  for_each xs b1 s = for_each xs b2 s.
Proof.
  intros H. apply (for_each_agree (fun _ => True)); auto.
Qed.

(** X19. [Path(download_dir) / folder] is [Path(folder)] when [folder] is an
    absolute path: with such folders the organize and deduplicate stages
    of the two variants are the same computation, whatever the working
    directory is, and the files leave the download directory for the
    folders named. *)
Theorem variants_agree_on_absolute_folders h folders dd s :
  (forall F, F ∈ folders.*1 -> anchor (PurePath F) = true) ->
  TestFileFix.organize_files folders dd s = FileFix.organize_files folders dd s ∧
  TestFileFix.remove_duplicates h folders s =
    FileFix.remove_duplicates h folders dd s ∧
  (forall F, F ∈ folders.*1 ->
     folder_loc (st_cwd s) dd F = parts (PurePath F)).
Proof.
  intros Habs. split_and!.
  - rewrite test_organize_files_unfold, organize_files_unfold.
    assert (make_folders PurePath folders s =
            make_folders (fun folder => PurePath dd </> folder) folders s) as Hmk.
    { apply for_each_ext_in. intros [F exts] s' HF.
      rewrite (truediv_absolute (PurePath dd) F); [done|].
      apply Habs, list_elem_of_fmap. by exists (F, exts). }
    rewrite !bind_unfold, Hmk.
    clear Hmk. destruct (make_folders (fun folder => PurePath dd </> folder) folders s) as [[e|[]] s1]; [done|].
    rewrite !bind_unfold. destruct (os_listdir_str dd s1) as [[e|total] s2]; [done|].
    rewrite !bind_unfold. destruct (os_listdir_str dd s2) as [[e|files] s3]; [done|].
    apply (for_fold_agree (fun _ => True)); [|done|done].
    intros acc f s' _ _. unfold test_organize_body, organize_body.
    rewrite !bind_unfold. destruct (is_file _ s') as [[e|[]] s'']; try done.
    by apply move_to_first_absolute.
  - unfold TestFileFix.remove_duplicates, FileFix.remove_duplicates.
    apply for_each_ext_in. intros F s' HF.
    rewrite test_remove_duplicates_in_unfold, remove_duplicates_in_unfold.
    rewrite (truediv_absolute (PurePath dd) F) by auto.
    rewrite !bind_unfold.
    by rewrite os_listdir_str_nonempty by (apply absolute_nonempty; auto).
  - intros F HF. unfold folder_loc.
    rewrite (truediv_absolute (PurePath dd) F) by auto.
    unfold abspath. by rewrite (Habs F HF).
Qed.

(** ** The configuration is taken as it is *)

Lemma regular_entries_nil fs P :
  (forall g c r, fs_lookup fs (P ++ [g]) <> Some (File c r)) ->
  regular_entries fs P = [].
Proof.
  intros H. unfold regular_entries.
  induction (children fs P) as [|g gs IH]; [done|].
  rewrite omap_cons_eq, IH. unfold entry.
  destruct (stat fs (P ++ [g])) as [e|[c r|]] eqn:E; try done.
  apply stat_lookup in E. by destruct (H g c r).
Qed.

(** C4, as the code has it.  A configuration that lacks [folders] or
    [download_dir] ends the run with [KeyError] before anything is
    changed.  Nothing else is checked.  With no folder configured the run
    is the cleanup stage alone when the download directory can be listed,
    and it ends, nothing changed, with the exception of the listing when
    it cannot.  With relative folders of plain paths (at least one), a
    download directory that does not exist is made by the organize stage
    and the run completes: the directory is there afterwards and
    everything that existed is unchanged. *)
Theorem missing_key_ends_the_run_unchanged h cfg s :
  (cfg_folders cfg = None ∨ cfg_download_dir cfg = None ->
   FileFix.main h cfg s = (inl KeyError, s)) ∧
  (forall dd e,
     cfg_folders cfg = Some [] -> cfg_download_dir cfg = Some dd ->
     os_listdir_str dd s = (inl e, s) ->
     FileFix.main h cfg s = (inl e, s)) ∧
  (forall dd,
     cfg_folders cfg = Some [] -> cfg_download_dir cfg = Some dd ->
     wf s -> dd <> EmptyString ->
     stat (st_fs s) (abspath (st_cwd s) (PurePath dd)) = inr Dir ->
     exists s',
       FileFix.clean_up_empty_folders dd s = (inr tt, s') ∧
       FileFix.main h cfg s = (inr tt, s')) ∧
  (forall folders dd,
     cfg_folders cfg = Some folders -> cfg_download_dir cfg = Some dd ->
     wf s -> plain_config dd folders ->
     stat (st_fs s) (st_cwd s) = inr Dir -> dd <> EmptyString ->
     let D := abspath (st_cwd s) (PurePath dd) in
     fs_lookup (st_fs s) D = None -> no_file_above (st_fs s) D ->
     folders <> [] ->
     (forall F, F ∈ folders.*1 -> anchor (PurePath F) = false) ->
     exists s',
       FileFix.main h cfg s = (inr tt, s') ∧
       stat (st_fs s') D = inr Dir ∧
       (forall l n, fs_lookup (st_fs s) l = Some n ->
                    fs_lookup (st_fs s') l = Some n)).
Proof.
  split_and!.
  - destruct cfg as [[folders|] [dd|]]; simpl; by intros [?|?].
  - destruct cfg as [[folders|] [dd|]]; simpl; try done.
    intros dd' e [= ->] [= <-] Hl.
    rewrite main_unfold, bind_unfold, organize_files_unfold.
    cbn [make_folders for_each]. rewrite !bind_unfold. unfold ret at 1.
    by rewrite bind_unfold, Hl.
  - destruct cfg as [[folders|] [dd|]]; simpl; try done.
    intros dd' [= ->] [= <-] Hwf Hdd HD.
    set (D := abspath (st_cwd s) (PurePath dd)) in *.
    assert (Forall valid_name (children (st_fs s) D)) as Hval.
    { apply Forall_forall. intros f Hf. apply elem_of_children in Hf.
      apply (wf_fs_key _ _ (proj1 Hwf)) in Hf as [Hvf _].
      apply Forall_app in Hvf as [_ Hvf]. by inversion Hvf. }
    destruct (cleanup_loop dd (children (st_fs s) D) s Hwf) as (s' & Hrun & _);
      [apply NoDup_children, Hwf|done|].
    assert (FileFix.clean_up_empty_folders dd s = (inr tt, s')) as Hcl.
    { by rewrite clean_up_unfold, bind_unfold, os_listdir_str_ok. }
    exists s'. split; [done|].
    rewrite main_unfold, bind_unfold, organize_files_unfold.
    cbn [make_folders for_each]. rewrite !bind_unfold. unfold ret at 1.
    rewrite bind_unfold, os_listdir_str_ok by done.
    rewrite bind_unfold, os_listdir_str_ok by done. fold D.
    rewrite organize_loop_idle; [|done|done].
    unfold FileFix.remove_duplicates. cbn [fmap list_fmap for_each].
    rewrite bind_unfold. unfold ret at 1. by rewrite bind_unfold, Hcl.
  - intros folders dd Hfo Hdo. destruct cfg as [fo do]. simpl in Hfo, Hdo. subst fo do.
    intros Hwf _ Hcwd Hdd D HD Hnf Hne Hrel.
    destruct (organize_missing_dir folders dd s Hwf Hcwd Hdd HD Hnf Hne Hrel)
      as (s1 & Horg & Hg & HD1 & Hfol).
    pose proof Hg as (Hc1 & _ & _ & Hwf1). specialize (Hwf1 Hwf).
    assert (forall l c r, D `prefix_of` l -> fs_lookup (st_fs s1) l <> Some (File c r))
      as Hnofile.
    { intros l c r Hl E. apply (grows_file _ _ _ _ _ Hg) in E.
      by rewrite (wf_below_missing _ D) in E; [|apply Hwf|..]. }
    assert (FileFix.remove_duplicates h folders dd s1 = (inr tt, s1)) as Hdd1.
    { apply for_each_fixed. intros F HF. apply dedup_pass_fixed; [done| | |].
      - rewrite Hc1. apply wf_stat; [apply Hwf1|by apply Hfol].
      - rewrite Hc1. intros g c r E. exfalso. revert E. apply Hnofile.
        rewrite relative_folder_loc by auto. rewrite <- app_assoc. by apply prefix_app_r.
      - rewrite Hc1. rewrite regular_entries_nil; [done|].
        intros g c r. apply Hnofile.
        rewrite relative_folder_loc by auto. rewrite <- app_assoc. by apply prefix_app_r. }
    assert (Forall valid_name (children (st_fs s1) D)) as Hval.
    { apply Forall_forall. intros f Hf. apply elem_of_children in Hf.
      apply (wf_fs_key _ _ (proj1 Hwf1)) in Hf as [Hvf _].
      apply Forall_app in Hvf as [_ Hvf]. by inversion Hvf. }
    destruct (cleanup_loop dd (children (st_fs s1) D) s1 Hwf1)
      as (s' & Hrun & Hwf' & _ & Hlk & _); [apply NoDup_children, Hwf1|done|].
    rewrite Hc1 in Hlk. fold D in Hlk.
    exists s'. split_and!.
    + rewrite main_unfold, bind_unfold, Horg, bind_unfold, Hdd1, bind_unfold.
      rewrite clean_up_unfold, bind_unfold, os_listdir_str_ok;
        [|done|by rewrite Hc1; apply wf_stat; [apply Hwf1|]].
      rewrite Hc1. fold D. by rewrite Hrun.
    + apply wf_stat; [apply Hwf'|]. rewrite Hlk, empty_child_all.
      by rewrite child_name_self.
    + intros l n Hl. rewrite Hlk, empty_child_all.
      destruct (child_name D l) as [m|] eqn:Em.
      * apply child_name_Some in Em. subst l.
        rewrite (wf_below_missing _ D) in Hl; [done|apply Hwf|done|].
        by apply prefix_app_r.
      * by apply (grows_lookup _ _ _ _ Hg).
Qed.

(** * Examples *)

Definition bytes_of (s : string) : list byte := list_byte_of_string s.

(** In the examples the digest of a content is the content itself. *)
Definition plain_digest (c : list byte) : string := string_of_list_byte c.

Ltac by_computation := apply (bool_decide_unpack _); by vm_compute.

(** ** The scenario of the specification *)

Definition scenario_rules : rules :=
  [("images", [".jpg"; ".png"]); ("docs", [".pdf"])].

Definition scenario_state : state := mkState []
  [ (["tmp"], Dir); (["tmp"; "src"], Dir);
    (["tmp"; "src"; "a.jpg"], File (bytes_of "AAA") true);
    (["tmp"; "src"; "b.pdf"], File (bytes_of "BBB") true);
    (["tmp"; "src"; "c.txt"], File (bytes_of "CCC") true);
    (["tmp"; "src"; "images"], Dir);
    (["tmp"; "src"; "images"; "a.jpg"], File (bytes_of "AAA") true) ]
  [].

Definition scenario_organized : state := mkState []
  [ (["tmp"], Dir); (["tmp"; "src"], Dir);
    (["tmp"; "src"; "c.txt"], File (bytes_of "CCC") true);
    (["tmp"; "src"; "images"], Dir);
    (["tmp"; "src"; "images"; "a.jpg"], File (bytes_of "AAA") true);
    (["tmp"; "src"; "docs"], Dir);
    (["tmp"; "src"; "docs"; "b.pdf"], File (bytes_of "BBB") true) ]
  [Moved "a.jpg" "images"; Moved "b.pdf" "docs"].

Lemma scenario_wf : wf scenario_state.
Proof. by_computation. Qed.

Lemma scenario_organize :
  FileFix.organize_files scenario_rules "/tmp/src" scenario_state =
  (inr (tally ["images"; "docs"]), scenario_organized).
Proof. vm_compute. reflexivity. Qed.

Lemma scenario_run :
  FileFix.main plain_digest (mkConfig (Some scenario_rules) (Some "/tmp/src"))
               scenario_state =
  (inr tt, scenario_organized).
Proof. vm_compute. reflexivity. Qed.

Lemma scenario_plain : plain_config "/tmp/src" scenario_rules.
Proof. by_computation. Qed.

Lemma organize_routes_matched_witness :
  wf scenario_state ∧
  plain_config "/tmp/src" scenario_rules ∧
  FileFix.organize_files scenario_rules "/tmp/src" scenario_state =
    (inr (tally ["images"; "docs"]), scenario_organized) ∧
  stat (st_fs scenario_organized) ["tmp"; "src"; "images"; "a.jpg"] =
    inr (File (bytes_of "AAA") true) ∧
  stat (st_fs scenario_organized) ["tmp"; "src"; "docs"; "b.pdf"] =
    inr (File (bytes_of "BBB") true) ∧
  stat (st_fs scenario_organized) ["tmp"; "src"; "b.pdf"] = inl FileNotFoundError ∧
  count_of (tally ["images"; "docs"]) "images" = 1.
Proof.
  split; [exact scenario_wf|]. split; [exact scenario_plain|].
  split; [exact scenario_organize|].
  destruct (organize_routes_matched _ _ _ _ _ scenario_wf scenario_plain
              scenario_organize) as [Hfile Hcount].
  split.
  { exact (proj1 (Hfile "a.jpg" (bytes_of "AAA") true "images" []
                        [".jpg"; ".png"] [("docs", [".pdf"])]
                        eq_refl eq_refl eq_refl (List.Forall_nil _))). }
  destruct (Hfile "b.pdf" (bytes_of "BBB") true "docs" [("images", [".jpg"; ".png"])]
                  [".pdf"] [] eq_refl eq_refl eq_refl)
    as [Hthere Hgone]; [by repeat constructor|].
  split; [exact Hthere|]. split; [|exact (Hcount "images")].
  apply Hgone.
  - vm_compute. discriminate.
  - intros r'. vm_compute. discriminate.
Defined.

Lemma organize_moves_each_file_once_witness :
  wf scenario_state ∧
  FileFix.organize_files scenario_rules "/tmp/src" scenario_state =
    (inr (tally ["images"; "docs"]), scenario_organized) ∧
  exists moved : list (string * string),
    st_log scenario_organized =
      st_log scenario_state ++ map (fun m => Moved m.1 m.2) moved ∧
    NoDup moved.*1 ∧
    total_count (tally ["images"; "docs"]) = length moved.
Proof.
  split; [exact scenario_wf|]. split; [exact scenario_organize|].
  destruct (organize_moves_each_file_once _ _ _ _ _ scenario_wf scenario_organize)
    as (moved & Hlog & Hnd & _ & _ & Hdone).
  destruct (Hdone _ eq_refl) as (_ & _ & Htotal).
  exists moved. exact (conj Hlog (conj Hnd Htotal)).
Defined.

Lemma txt_has_no_folder folder exts ext :
  (folder, exts) ∈ scenario_rules -> ext ∈ exts -> endswith "c.txt" ext = false.
Proof. by apply classify_None. Qed.

Lemma organize_leaves_unmatched_witness :
  wf scenario_state ∧
  stat (st_fs scenario_state) ["tmp"; "src"; "c.txt"] =
    inr (File (bytes_of "CCC") true) ∧
  stat (st_fs scenario_organized) ["tmp"; "src"; "c.txt"] =
    inr (File (bytes_of "CCC") true).
Proof.
  split; [exact scenario_wf|]. split; [reflexivity|].
  exact (proj1 (organize_leaves_unmatched scenario_rules "/tmp/src" scenario_state
                  _ scenario_organized "c.txt" (bytes_of "CCC") true
                  scenario_wf scenario_organize eq_refl txt_has_no_folder)).
Defined.

(** ** A folder with duplicates *)

Definition docs_state : state := mkState []
  [ (["tmp"], Dir); (["tmp"; "src"], Dir);
    (["tmp"; "src"; "docs"], Dir);
    (["tmp"; "src"; "docs"; "b.pdf"], File (bytes_of "X") true);
    (["tmp"; "src"; "docs"; "c.pdf"], File (bytes_of "X") true);
    (["tmp"; "src"; "docs"; "d.pdf"], File (bytes_of "Y") true);
    (["tmp"; "src"; "old"], Dir) ]
  [].

Definition docs_deduplicated : state := mkState []
  [ (["tmp"], Dir); (["tmp"; "src"], Dir);
    (["tmp"; "src"; "docs"], Dir);
    (["tmp"; "src"; "docs"; "b.pdf"], File (bytes_of "X") true);
    (["tmp"; "src"; "docs"; "d.pdf"], File (bytes_of "Y") true);
    (["tmp"; "src"; "old"], Dir) ]
  [RemovedDuplicate "c.pdf" "docs"].

Lemma docs_wf : wf docs_state.
Proof. by_computation. Qed.

Lemma docs_pass :
  FileFix.remove_duplicates_in plain_digest "/tmp/src" "docs" docs_state =
  (inr tt, docs_deduplicated).
Proof. vm_compute. reflexivity. Qed.

Lemma dedup_keeps_first_listed_witness :
  wf docs_state ∧
  FileFix.remove_duplicates_in plain_digest "/tmp/src" "docs" docs_state =
    (inr tt, docs_deduplicated) ∧
  regular_entries (st_fs docs_deduplicated) ["tmp"; "src"; "docs"] =
    keep_first plain_digest ∅
      (regular_entries (st_fs docs_state) ["tmp"; "src"; "docs"]) ∧
  regular_entries (st_fs docs_deduplicated) ["tmp"; "src"; "docs"] =
    [("b.pdf", bytes_of "X"); ("d.pdf", bytes_of "Y")].
Proof.
  split; [exact docs_wf|]. split; [exact docs_pass|].
  split; [|reflexivity].
  exact (proj1 (proj2 (dedup_keeps_first_listed _ _ _ _ _ docs_wf docs_pass))).
Defined.

Lemma cleanup_removes_the_empty_entries_witness :
  wf docs_state ∧
  sys_listdir (st_fs docs_state) ["tmp"; "src"] = inr ["docs"; "old"] ∧
  exists s1,
    FileFix.clean_up_empty_folders "/tmp/src" docs_state = (inr tt, s1) ∧
    fs_lookup (st_fs s1) ["tmp"; "src"; "old"] = None ∧
    fs_lookup (st_fs s1) ["tmp"; "src"; "docs"] = Some Dir.
Proof.
  split; [exact docs_wf|]. split; [reflexivity|].
  destruct (cleanup_removes_the_empty_entries "/tmp/src" docs_state ["docs"; "old"]
              docs_wf ltac:(discriminate) eq_refl) as (s1 & Hrun & Hlook & _).
  exists s1. split; [exact Hrun|].
  exact (conj (Hlook ["tmp"; "src"; "old"]) (Hlook ["tmp"; "src"; "docs"])).
Defined.

(** ** A file that cannot be read *)

Definition locked_state : state := mkState []
  [ (["tmp"], Dir); (["tmp"; "src"], Dir);
    (["tmp"; "src"; "docs"], Dir);
    (["tmp"; "src"; "docs"; "a.pdf"], File (bytes_of "S") false);
    (["tmp"; "src"; "docs"; "b.pdf"], File (bytes_of "X") true);
    (["tmp"; "src"; "docs"; "c.pdf"], File (bytes_of "X") true);
    (["tmp"; "src"; "old"], Dir) ]
  [].

Lemma locked_wf : wf locked_state.
Proof. by_computation. Qed.

(** C3 fails on the code: the file [a.pdf] of [docs] cannot be read; the
    run ends with [PermissionError] in the deduplicate stage, the
    duplicate [c.pdf] listed after it is still there, and so is the empty
    directory [old], which the cleanup stage would have removed. *)
Lemma unreadable_file_counterexample :
  wf locked_state ∧
  FileFix.main plain_digest (mkConfig (Some [("docs", [".pdf"])]) (Some "/tmp/src"))
               locked_state =
    (inl PermissionError, locked_state) ∧
  stat (st_fs locked_state) ["tmp"; "src"; "docs"; "b.pdf"] =
    inr (File (bytes_of "X") true) ∧
  stat (st_fs locked_state) ["tmp"; "src"; "docs"; "c.pdf"] =
    inr (File (bytes_of "X") true) ∧
  empty_dir (st_fs locked_state) ["tmp"; "src"; "old"] = true.
Proof.
  split; [exact locked_wf|]. split; [vm_compute; reflexivity|].
  split; [reflexivity|]. split; reflexivity.
Qed.

Lemma locked_readable_before g c r :
  g ∈ @nil string ->
  stat (st_fs locked_state) (folder_loc (st_cwd locked_state) "/tmp/src" "docs" ++ [g])
  = inr (File c r) -> r = true.
Proof. by intros ?%elem_of_nil. Qed.

Lemma unreadable_file_ends_the_run_witness :
  wf locked_state ∧
  exists s1,
    FileFix.remove_duplicates_in plain_digest "/tmp/src" "docs" locked_state =
      (inl PermissionError, s1) ∧
    stat (st_fs s1) ["tmp"; "src"; "docs"; "a.pdf"] =
      inr (File (bytes_of "S") false).
Proof.
  split; [exact locked_wf|].
  destruct (unreadable_file_ends_the_run plain_digest "/tmp/src" "docs" locked_state
              [] "a.pdf" (bytes_of "S") ["b.pdf"; "c.pdf"]
              locked_wf eq_refl locked_readable_before eq_refl)
    as (s1 & Hrun & Hkept & _).
  exists s1. exact (conj Hrun Hkept).
Defined.

(** ** A directory where the file should go *)

Definition taken_state : state := mkState []
  [ (["tmp"], Dir); (["tmp"; "src"], Dir);
    (["tmp"; "src"; "a.jpg"], File (bytes_of "AAA") true);
    (["tmp"; "src"; "images"], Dir);
    (["tmp"; "src"; "images"; "a.jpg"], Dir) ]
  [].

Definition taken_organized : state := mkState []
  [ (["tmp"], Dir); (["tmp"; "src"], Dir);
    (["tmp"; "src"; "images"], Dir);
    (["tmp"; "src"; "images"; "a.jpg"], Dir);
    (["tmp"; "src"; "images"; "a.jpg"; "a.jpg"], File (bytes_of "AAA") true) ]
  [Moved "a.jpg" "images"].

(** C1 fails on the code: [images/a.jpg] is a directory, and
    [shutil.move] puts the file [a.jpg] inside it; after the stage no
    regular file [a.jpg] is in [images]. *)
Lemma organize_into_directory_counterexample :
  wf taken_state ∧
  stat (st_fs taken_state) ["tmp"; "src"; "a.jpg"] = inr (File (bytes_of "AAA") true) ∧
  classify "a.jpg" [("images", [".jpg"])] = Some "images" ∧
  FileFix.organize_files [("images", [".jpg"])] "/tmp/src" taken_state =
    (inr (tally ["images"]), taken_organized) ∧
  regular_entries (st_fs taken_organized) ["tmp"; "src"; "images"] = [] ∧
  stat (st_fs taken_organized) ["tmp"; "src"; "images"; "a.jpg"; "a.jpg"] =
    inr (File (bytes_of "AAA") true).
Proof.
  split; [by_computation|]. split; [reflexivity|]. split; [reflexivity|].
  split; [vm_compute; reflexivity|]. split; reflexivity.
Qed.

(** ** A configuration that is not checked *)

Definition bare_state : state := mkState [] [ (["tmp"], Dir) ] [].

Definition stale_state : state := mkState []
  [ (["tmp"], Dir); (["tmp"; "src"], Dir); (["tmp"; "src"; "old"], Dir) ] [].

(** C4 fails on the code: with a download directory that does not exist
    the run completes and has made the directory; with no folder
    configured the run completes and has removed an empty directory. *)
Lemma config_not_checked_counterexample :
  stat (st_fs bare_state) ["tmp"; "src"] = inl FileNotFoundError ∧
  FileFix.main plain_digest (mkConfig (Some [("images", [".jpg"])]) (Some "/tmp/src"))
               bare_state =
    (inr tt, mkState [] [ (["tmp"], Dir); (["tmp"; "src"], Dir) ]
                     [RemovedEmpty "images"]) ∧
  FileFix.main plain_digest (mkConfig (Some []) (Some "/tmp/src")) stale_state =
    (inr tt, mkState [] [ (["tmp"], Dir); (["tmp"; "src"], Dir) ]
                     [RemovedEmpty "old"]).
Proof.
  split; [reflexivity|]. split; vm_compute; reflexivity.
Qed.

(** ** A folder that is the download directory *)

Definition dot_state : state := mkState []
  [ (["tmp"], Dir); (["tmp"; "src"], Dir);
    (["tmp"; "src"; "a.jpg"], File (bytes_of "AAA") true) ]
  [].

Definition dot_organized : state := mkState []
  [ (["tmp"], Dir); (["tmp"; "src"], Dir);
    (["tmp"; "src"; "a.jpg"], File (bytes_of "AAA") true) ]
  [Moved "a.jpg" "."].

Definition dot_organized_again : state := mkState []
  [ (["tmp"], Dir); (["tmp"; "src"], Dir);
    (["tmp"; "src"; "a.jpg"], File (bytes_of "AAA") true) ]
  [Moved "a.jpg" "."; Moved "a.jpg" "."].

(** C5 fails on the code: the folder [.] is the download directory; the
    file is renamed onto itself and counted, in the first stage and
    again in the second. *)
Lemma organize_again_counterexample :
  wf dot_state ∧
  FileFix.organize_files [(".", [".jpg"])] "/tmp/src" dot_state =
    (inr (tally ["."]), dot_organized) ∧
  FileFix.organize_files [(".", [".jpg"])] "/tmp/src" dot_organized =
    (inr (tally ["."]), dot_organized_again) ∧
  count_of (tally ["."]) "." = 1.
Proof.
  split; [by_computation|]. split; [vm_compute; reflexivity|].
  split; [vm_compute; reflexivity|]. reflexivity.
Qed.

(** ** A nested folder *)

Definition empty_source : state := mkState []
  [ (["tmp"], Dir); (["tmp"; "src"], Dir) ] [].

Definition nested_made : state := mkState []
  [ (["tmp"], Dir); (["tmp"; "src"], Dir);
    (["tmp"; "src"; "a"], Dir); (["tmp"; "src"; "a"; "b"], Dir) ] [].

(** C8 fails on the code: the folder [a/b] did not exist, nothing is
    routed into it and it holds no entry, but after the run it exists:
    the cleanup stage looks at [a], which is not empty. *)
Lemma nested_folder_counterexample :
  wf empty_source ∧
  stat (st_fs empty_source) ["tmp"; "src"; "a"; "b"] = inl FileNotFoundError ∧
  FileFix.organize_files [("a/b", [".jpg"])] "/tmp/src" empty_source =
    (inr ∅, nested_made) ∧
  children (st_fs nested_made) ["tmp"; "src"; "a"; "b"] = [] ∧
  FileFix.main plain_digest (mkConfig (Some [("a/b", [".jpg"])]) (Some "/tmp/src"))
               empty_source =
    (inr tt, nested_made) ∧
  stat (st_fs nested_made) ["tmp"; "src"; "a"; "b"] = inr Dir.
Proof.
  split; [by_computation|]. split; [reflexivity|].
  split; [vm_compute; reflexivity|]. split; [reflexivity|].
  split; [vm_compute; reflexivity|]. reflexivity.
Qed.

Definition one_image : state := mkState []
  [ (["tmp"], Dir); (["tmp"; "src"], Dir);
    (["tmp"; "src"; "a.jpg"], File (bytes_of "AAA") true) ]
  [].

Definition one_image_organized : state := mkState []
  [ (["tmp"], Dir); (["tmp"; "src"], Dir);
    (["tmp"; "src"; "images"], Dir); (["tmp"; "src"; "docs"], Dir);
    (["tmp"; "src"; "images"; "a.jpg"], File (bytes_of "AAA") true) ]
  [Moved "a.jpg" "images"].

Definition one_image_done : state := mkState []
  [ (["tmp"], Dir); (["tmp"; "src"], Dir);
    (["tmp"; "src"; "images"], Dir);
    (["tmp"; "src"; "images"; "a.jpg"], File (bytes_of "AAA") true) ]
  [Moved "a.jpg" "images"; RemovedEmpty "docs"].

Lemma one_image_wf : wf one_image.
Proof. by_computation. Qed.

Lemma one_image_organize :
  FileFix.organize_files scenario_rules "/tmp/src" one_image =
  (inr (tally ["images"]), one_image_organized).
Proof. vm_compute. reflexivity. Qed.

Lemma one_image_run :
  FileFix.main plain_digest (mkConfig (Some scenario_rules) (Some "/tmp/src"))
               one_image =
  (inr tt, one_image_done).
Proof. vm_compute. reflexivity. Qed.

Lemma one_image_folders_below F :
  F ∈ scenario_rules.*1 ->
  folder_loc (st_cwd one_image) "/tmp/src" F <>
  abspath (st_cwd one_image) (PurePath "/tmp/src").
Proof.
  intros HF.
  repeat (apply elem_of_cons in HF as [->|HF]; [by vm_compute|]).
  by apply elem_of_nil in HF.
Qed.

Lemma one_image_nothing_there f F c r :
  stat (st_fs one_image) (abspath (st_cwd one_image) (PurePath "/tmp/src") ++ [f])
  = inr (File c r) ->
  classify f scenario_rules = Some F ->
  forall r', fs_lookup (st_fs one_image)
                       (folder_loc (st_cwd one_image) "/tmp/src" F ++ [f])
             <> Some (File c r').
Proof.
  intros _ HF%classify_folder r'.
  enough (fs_lookup (st_fs one_image)
                    (folder_loc (st_cwd one_image) "/tmp/src" F ++ [f]) = None)
    as -> by done.
  apply (wf_below_missing _ (folder_loc (st_cwd one_image) "/tmp/src" F));
    [apply one_image_wf| |by apply prefix_app_r].
  repeat (apply elem_of_cons in HF as [->|HF]; [by vm_compute|]).
  by apply elem_of_nil in HF.
Qed.

Lemma organize_again_moves_nothing_witness :
  wf one_image ∧
  plain_config "/tmp/src" scenario_rules ∧
  FileFix.organize_files scenario_rules "/tmp/src" one_image =
    (inr (tally ["images"]), one_image_organized) ∧
  exists s2,
    FileFix.organize_files scenario_rules "/tmp/src" one_image_organized = (inr ∅, s2) ∧
    st_log s2 = st_log one_image_organized.
Proof.
  split; [exact one_image_wf|]. split; [exact scenario_plain|].
  split; [exact one_image_organize|].
  destruct (organize_again_moves_nothing _ _ _ _ _ one_image_wf scenario_plain
              one_image_organize one_image_folders_below one_image_nothing_there)
    as (s2 & Hrun & _ & Hlog & _).
  exists s2. exact (conj Hrun Hlog).
Defined.

Lemma docs_is_configured : "docs" ∈ scenario_rules.*1.
Proof. by_computation. Qed.

Lemma unused_folder_is_made_and_removed_witness :
  wf one_image ∧
  plain_config "/tmp/src" scenario_rules ∧
  stat (st_fs one_image_organized) ["tmp"; "src"; "docs"] = inr Dir ∧
  fs_lookup (st_fs one_image_done) ["tmp"; "src"; "docs"] = None.
Proof.
  split; [exact one_image_wf|]. split; [exact scenario_plain|].
  exact (unused_folder_is_made_and_removed plain_digest scenario_rules "/tmp/src"
           one_image _ one_image_organized one_image_done "docs" "docs"
           one_image_wf scenario_plain one_image_organize one_image_run
           docs_is_configured eq_refl eq_refl eq_refl).
Defined.

(** ** The working directory as download directory *)

Definition home_state : state := mkState ["tmp"; "src"]
  [ (["tmp"], Dir); (["tmp"; "src"], Dir);
    (["tmp"; "src"; "a.jpg"], File (bytes_of "AAA") true);
    (["tmp"; "src"; "old"], Dir) ]
  [].

Lemma home_wf : wf home_state.
Proof. by_computation. Qed.

(** C9 fails on the code: with the folder name [""] the first variant
    lists the download directory in the deduplicate stage and goes on to
    remove the empty directory [old]; the second variant calls
    [os.listdir("")], which raises, and [old] is still there. *)
Lemma empty_folder_name_counterexample :
  wf home_state ∧
  abspath (st_cwd home_state) (PurePath "/tmp/src") = st_cwd home_state ∧
  FileFix.main plain_digest (mkConfig (Some [("", [".jpg"])]) (Some "/tmp/src"))
               home_state =
    (inr tt,
     mkState ["tmp"; "src"]
       [ (["tmp"], Dir); (["tmp"; "src"], Dir);
         (["tmp"; "src"; "a.jpg"], File (bytes_of "AAA") true) ]
       [Moved "a.jpg" ""; RemovedEmpty "old"]) ∧
  TestFileFix.main plain_digest (mkConfig (Some [("", [".jpg"])]) (Some "/tmp/src"))
                   home_state =
    (inl FileNotFoundError,
     mkState ["tmp"; "src"]
       [ (["tmp"], Dir); (["tmp"; "src"], Dir);
         (["tmp"; "src"; "a.jpg"], File (bytes_of "AAA") true);
         (["tmp"; "src"; "old"], Dir) ]
       [Moved "a.jpg" ""]).
Proof.
  split; [exact home_wf|]. split; [reflexivity|].
  split; vm_compute; reflexivity.
Qed.

Lemma scenario_names_nonempty F : F ∈ scenario_rules.*1 -> F <> EmptyString.
Proof.
  intros HF.
  repeat (apply elem_of_cons in HF as [->|HF]; [discriminate|]).
  by apply elem_of_nil in HF.
Qed.

Lemma variants_agree_at_home_witness :
  wf home_state ∧
  TestFileFix.organize_files scenario_rules "/tmp/src" home_state =
    FileFix.organize_files scenario_rules "/tmp/src" home_state ∧
  TestFileFix.main plain_digest (mkConfig (Some scenario_rules) (Some "/tmp/src"))
                   home_state =
    FileFix.main plain_digest (mkConfig (Some scenario_rules) (Some "/tmp/src"))
                 home_state.
Proof.
  split; [exact home_wf|].
  exact (variants_agree_at_home plain_digest scenario_rules "/tmp/src" home_state
           home_wf eq_refl eq_refl scenario_names_nonempty).
Defined.

(** ** More of the scenario *)

Lemma organize_keeps_directories_witness :
  wf scenario_state ∧
  fs_lookup (st_fs scenario_state) ["tmp"; "src"; "images"] = Some Dir ∧
  fs_lookup (st_fs scenario_organized) ["tmp"; "src"; "images"] = Some Dir ∧
  st_cwd scenario_organized = st_cwd scenario_state.
Proof.
  split; [exact scenario_wf|]. split; [reflexivity|].
  exact (organize_keeps_directories scenario_rules "/tmp/src" scenario_state _
           scenario_organized ["tmp"; "src"; "images"]
           scenario_wf scenario_organize eq_refl).
Defined.

Lemma organize_keeps_names_and_contents_witness :
  wf scenario_state ∧
  fs_lookup (st_fs scenario_organized) ["tmp"; "src"; "docs"; "b.pdf"] =
    Some (File (bytes_of "BBB") true) ∧
  exists origin : loc -> loc,
    last (origin ["tmp"; "src"; "docs"; "b.pdf"]) =
      last ["tmp"; "src"; "docs"; "b.pdf"] ∧
    fs_lookup (st_fs scenario_state) (origin ["tmp"; "src"; "docs"; "b.pdf"]) =
      Some (File (bytes_of "BBB") true).
Proof.
  split; [exact scenario_wf|]. split; [reflexivity|].
  destruct (organize_keeps_names_and_contents scenario_rules "/tmp/src"
              scenario_state _ scenario_organized scenario_wf scenario_organize)
    as (origin & Hfrom & _).
  exists origin.
  exact (Hfrom ["tmp"; "src"; "docs"; "b.pdf"] (bytes_of "BBB") true eq_refl).
Defined.

Lemma pdf_is_planned :
  ("b.pdf", "docs") ∈ planned scenario_rules "/tmp/src" scenario_state.
Proof. by_computation. Qed.

Lemma organize_counts_the_used_folders_witness :
  wf scenario_state ∧
  exists n,
    tally ["images"; "docs"] !! "docs" = Some n ∧ 0 < n ∧
    "docs" ∈ scenario_rules.*1 ∧
    exists f, Moved f "docs" ∈ st_log scenario_organized.
Proof.
  split; [exact scenario_wf|].
  pose proof (organize_counts_the_used_folders scenario_rules "/tmp/src"
                scenario_state _ scenario_organized "docs"
                scenario_wf scenario_organize) as H.
  destruct (tally ["images"; "docs"] !! "docs") as [n|].
  - exists n. exact (conj eq_refl H).
  - destruct (H "b.pdf" pdf_is_planned).
Defined.

Lemma completed_run_has_no_duplicates_and_no_empty_folders_witness :
  wf scenario_state ∧
  NoDup (map (fun e => plain_digest e.2)
             (regular_entries (st_fs scenario_organized) ["tmp"; "src"; "images"])) ∧
  empty_dir (st_fs scenario_organized) ["tmp"; "src"; "docs"] = false.
Proof.
  split; [exact scenario_wf|].
  destruct (completed_run_has_no_duplicates_and_no_empty_folders plain_digest
              scenario_rules "/tmp/src" scenario_state scenario_organized
              scenario_wf scenario_run) as [Hdup Hempty].
  split.
  - apply (Hdup "images"). by_computation.
  - exact (Hempty "docs").
Defined.

Lemma scenario_folders_below F :
  F ∈ scenario_rules.*1 ->
  folder_loc (st_cwd scenario_state) "/tmp/src" F <>
  abspath (st_cwd scenario_state) (PurePath "/tmp/src").
Proof.
  intros HF.
  repeat (apply elem_of_cons in HF as [->|HF]; [by vm_compute|]).
  by apply elem_of_nil in HF.
Qed.

Lemma run_keeps_the_unmatched_files_witness :
  wf scenario_state ∧
  plain_config "/tmp/src" scenario_rules ∧
  stat (st_fs scenario_state) ["tmp"; "src"; "c.txt"] =
    inr (File (bytes_of "CCC") true) ∧
  stat (st_fs scenario_organized) ["tmp"; "src"; "c.txt"] =
    inr (File (bytes_of "CCC") true).
Proof.
  split; [exact scenario_wf|]. split; [exact scenario_plain|].
  split; [reflexivity|].
  exact (run_keeps_the_unmatched_files plain_digest scenario_rules "/tmp/src"
           scenario_state scenario_organized "c.txt" (bytes_of "CCC") true
           scenario_wf scenario_plain scenario_run scenario_folders_below
           eq_refl eq_refl).
Defined.

(** ** A name that is taken in the folder *)

Definition collision_state : state := mkState []
  [ (["tmp"], Dir); (["tmp"; "src"], Dir);
    (["tmp"; "src"; "a.jpg"], File (bytes_of "NEW") true);
    (["tmp"; "src"; "images"], Dir);
    (["tmp"; "src"; "images"; "a.jpg"], File (bytes_of "OLD") true) ]
  [].

Definition collision_organized : state := mkState []
  [ (["tmp"], Dir); (["tmp"; "src"], Dir);
    (["tmp"; "src"; "images"], Dir);
    (["tmp"; "src"; "images"; "a.jpg"], File (bytes_of "NEW") true) ]
  [Moved "a.jpg" "images"].

Lemma collision_wf : wf collision_state.
Proof. by_computation. Qed.

Lemma collision_organize :
  FileFix.organize_files [("images", [".jpg"])] "/tmp/src" collision_state =
  (inr (tally ["images"]), collision_organized).
Proof. vm_compute. reflexivity. Qed.

Lemma images_plain : plain_config "/tmp/src" [("images", [".jpg"])].
Proof. by_computation. Qed.

Lemma old_is_not_new : bytes_of "OLD" <> bytes_of "NEW".
Proof. by vm_compute. Qed.

Lemma organize_replaces_same_name_witness :
  wf collision_state ∧
  plain_config "/tmp/src" [("images", [".jpg"])] ∧
  stat (st_fs collision_state) ["tmp"; "src"; "images"; "a.jpg"] =
    inr (File (bytes_of "OLD") true) ∧
  stat (st_fs collision_organized) ["tmp"; "src"; "images"; "a.jpg"] =
    inr (File (bytes_of "NEW") true) ∧
  stat (st_fs collision_organized) ["tmp"; "src"; "a.jpg"] = inl FileNotFoundError.
Proof.
  split; [exact collision_wf|]. split; [exact images_plain|].
  split; [reflexivity|].
  exact (organize_replaces_same_name [("images", [".jpg"])] "/tmp/src"
           collision_state _ collision_organized "a.jpg" (bytes_of "NEW") true
           "images" (bytes_of "OLD") true
           collision_wf images_plain collision_organize eq_refl eq_refl eq_refl
           ltac:(discriminate) old_is_not_new).
Defined.

(** ** A regular file where a folder should be *)

Definition blocked_state : state := mkState []
  [ (["tmp"], Dir); (["tmp"; "src"], Dir);
    (["tmp"; "src"; "a.jpg"], File (bytes_of "AAA") true);
    (["tmp"; "src"; "images"], File (bytes_of "III") true) ]
  [].

Lemma blocked_wf : wf blocked_state.
Proof. by_computation. Qed.

Lemma organize_stops_at_a_file_for_a_folder_witness :
  wf blocked_state ∧
  stat (st_fs blocked_state) ["tmp"; "src"; "images"] =
    inr (File (bytes_of "III") true) ∧
  exists e s1,
    FileFix.organize_files [("images", [".jpg"])] "/tmp/src" blocked_state =
      (inl e, s1) ∧
    stat (st_fs s1) ["tmp"; "src"; "a.jpg"] = inr (File (bytes_of "AAA") true).
Proof.
  split; [exact blocked_wf|]. split; [reflexivity|].
  exact (organize_stops_at_a_file_for_a_folder [("images", [".jpg"])] "/tmp/src"
           blocked_state "a.jpg" (bytes_of "AAA") true "images" (bytes_of "III") true
           blocked_wf eq_refl eq_refl eq_refl).
Defined.

Lemma organize_stops_where_it_fails_witness :
  wf blocked_state ∧
  exists res s1 made rest,
    FileFix.organize_files [("images", [".jpg"])] "/tmp/src" blocked_state =
      (res, s1) ∧
    planned [("images", [".jpg"])] "/tmp/src" blocked_state = made ++ rest ∧
    st_log s1 = st_log blocked_state ++ map (fun m => Moved m.1 m.2) made.
Proof.
  split; [exact blocked_wf|].
  destruct (FileFix.organize_files [("images", [".jpg"])] "/tmp/src" blocked_state)
    as [res s1] eqn:Hrun.
  destruct (organize_stops_where_it_fails _ _ _ _ _ blocked_wf Hrun)
    as (made & rest & Hp & Hlog & _).
  exists res, s1, made, rest. exact (conj eq_refl (conj Hp Hlog)).
Defined.

(** ** A folder for every file *)

Definition mixed_state : state := mkState []
  [ (["tmp"], Dir); (["tmp"; "src"], Dir);
    (["tmp"; "src"; "a.jpg"], File (bytes_of "AAA") true);
    (["tmp"; "src"; "notes"], File (bytes_of "NNN") true);
    (["tmp"; "src"; "sub"], Dir) ]
  [].

Definition mixed_organized : state := mkState []
  [ (["tmp"], Dir); (["tmp"; "src"], Dir);
    (["tmp"; "src"; "sub"], Dir); (["tmp"; "src"; "all"], Dir);
    (["tmp"; "src"; "all"; "a.jpg"], File (bytes_of "AAA") true);
    (["tmp"; "src"; "all"; "notes"], File (bytes_of "NNN") true) ]
  [Moved "a.jpg" "all"; Moved "notes" "all"].

Lemma mixed_wf : wf mixed_state.
Proof. by_computation. Qed.

Lemma mixed_organize :
  FileFix.organize_files [("all", [""])] "/tmp/src" mixed_state =
  (inr (tally ["all"; "all"]), mixed_organized).
Proof. vm_compute. reflexivity. Qed.

Lemma organize_moves_every_file_with_an_empty_suffix_witness :
  wf mixed_state ∧
  total_count (tally ["all"; "all"]) =
  length (List.filter (fun f => is_reg (st_fs mixed_state) (["tmp"; "src"] ++ [f]))
                      (children (st_fs mixed_state) ["tmp"; "src"])).
Proof.
  split; [exact mixed_wf|].
  apply (organize_moves_every_file_with_an_empty_suffix [("all", [""])] "/tmp/src"
           mixed_state _ mixed_organized "all" [""] mixed_wf mixed_organize).
  - by_computation.
  - by_computation.
Defined.

(** ** The download directory as a folder *)

Lemma dot_wf : wf dot_state.
Proof. by_computation. Qed.

Lemma dot_organize :
  FileFix.organize_files [(".", [".jpg"])] "/tmp/src" dot_state =
  (inr (tally ["."]), dot_organized).
Proof. vm_compute. reflexivity. Qed.

Lemma dot_plain : plain_config "/tmp/src" [(".", [".jpg"])].
Proof. by_computation. Qed.

Lemma organize_clears_the_matched_files_witness :
  wf dot_state ∧
  plain_config "/tmp/src" [(".", [".jpg"])] ∧
  stat (st_fs dot_organized) ["tmp"; "src"; "a.jpg"] =
    inr (File (bytes_of "AAA") true) ∧
  (folder_loc (st_cwd dot_state) "/tmp/src" "." = ["tmp"; "src"] ∨
   exists r', fs_lookup (st_fs dot_state)
                (folder_loc (st_cwd dot_state) "/tmp/src" "." ++ ["a.jpg"])
              = Some (File (bytes_of "AAA") r')).
Proof.
  split; [exact dot_wf|]. split; [exact dot_plain|]. split; [reflexivity|].
  exact (organize_clears_the_matched_files [(".", [".jpg"])] "/tmp/src" dot_state
           _ dot_organized "a.jpg" (bytes_of "AAA") true "."
           dot_wf dot_plain dot_organize eq_refl eq_refl).
Defined.

(** ** A download directory to be made *)

Lemma no_file_above_dirs fs l :
  Forall (fun kn : loc * node => kn.2 = Dir) fs -> no_file_above fs l.
Proof.
  intros H p c r _ Hl. destruct p as [|x p]; [done|].
  by apply (lookup_all_dirs _ _ _ H) in Hl.
Qed.

Lemma bare_wf : wf bare_state.
Proof. by_computation. Qed.

Lemma bare_no_file l : no_file_above (st_fs bare_state) l.
Proof. apply no_file_above_dirs. by repeat constructor. Qed.

Lemma nested_rules_relative F :
  F ∈ [("images", [".jpg"]); ("docs/old", [".pdf"])].*1 ->
  anchor (PurePath F) = false.
Proof.
  intros HF.
  repeat (apply elem_of_cons in HF as [->|HF]; [reflexivity|]).
  by apply elem_of_nil in HF.
Qed.

Lemma nested_rules_plain :
  plain_config "/tmp/src/new" [("images", [".jpg"]); ("docs/old", [".pdf"])].
Proof. by_computation. Qed.

Lemma organize_makes_a_missing_download_dir_witness :
  wf bare_state ∧
  plain_config "/tmp/src/new" [("images", [".jpg"]); ("docs/old", [".pdf"])] ∧
  fs_lookup (st_fs bare_state) ["tmp"; "src"; "new"] = None ∧
  exists s1,
    FileFix.organize_files [("images", [".jpg"]); ("docs/old", [".pdf"])]
                           "/tmp/src/new" bare_state = (inr ∅, s1) ∧
    stat (st_fs s1) ["tmp"; "src"; "new"] = inr Dir ∧
    stat (st_fs s1) ["tmp"; "src"; "new"; "docs"; "old"] = inr Dir.
Proof.
  split; [exact bare_wf|]. split; [exact nested_rules_plain|].
  split; [reflexivity|].
  destruct (organize_makes_a_missing_download_dir
              [("images", [".jpg"]); ("docs/old", [".pdf"])] "/tmp/src/new"
              bare_state bare_wf nested_rules_plain eq_refl ltac:(discriminate)
              eq_refl (bare_no_file _)
              ltac:(discriminate) nested_rules_relative)
    as (s1 & Hrun & HD & Hfol & _).
  exists s1. split; [exact Hrun|]. split; [exact HD|].
  apply (Hfol "docs/old"). by_computation.
Defined.

Lemma missing_key_ends_the_run_unchanged_witness :
  FileFix.main plain_digest (mkConfig (Some scenario_rules) None) scenario_state =
    (inl KeyError, scenario_state) ∧
  wf bare_state ∧
  plain_config "/tmp/src/new" [("images", [".jpg"]); ("docs/old", [".pdf"])] ∧
  fs_lookup (st_fs bare_state) ["tmp"; "src"; "new"] = None ∧
  exists s',
    FileFix.main plain_digest
      (mkConfig (Some [("images", [".jpg"]); ("docs/old", [".pdf"])])
                (Some "/tmp/src/new")) bare_state = (inr tt, s') ∧
    stat (st_fs s') ["tmp"; "src"; "new"] = inr Dir ∧
    fs_lookup (st_fs s') ["tmp"] = Some Dir.
Proof.
  split.
  { exact (proj1 (missing_key_ends_the_run_unchanged plain_digest
                    (mkConfig (Some scenario_rules) None) scenario_state)
                 (or_intror eq_refl)). }
  split; [exact bare_wf|]. split; [exact nested_rules_plain|].
  split; [reflexivity|].
  destruct (proj2 (proj2 (proj2 (missing_key_ends_the_run_unchanged plain_digest
              (mkConfig (Some [("images", [".jpg"]); ("docs/old", [".pdf"])])
                        (Some "/tmp/src/new")) bare_state)))
              [("images", [".jpg"]); ("docs/old", [".pdf"])] "/tmp/src/new"
              eq_refl eq_refl bare_wf nested_rules_plain eq_refl
              ltac:(discriminate) eq_refl (bare_no_file _)
              ltac:(discriminate) nested_rules_relative)
    as (s' & Hrun & HD & Hkeep).
  exists s'. split; [exact Hrun|]. split; [exact HD|].
  exact (Hkeep ["tmp"] Dir eq_refl).
Defined.

(** ** More of the folder with duplicates *)

Lemma docs_stage :
  FileFix.remove_duplicates plain_digest [("docs", [".pdf"])] "/tmp/src" docs_state =
  (inr tt, docs_deduplicated).
Proof. vm_compute. reflexivity. Qed.

Lemma docs_plain : plain_config "/tmp/src" [("docs", [".pdf"])].
Proof. by_computation. Qed.

Lemma remove_duplicates_keeps_first_in_every_folder_witness :
  wf docs_state ∧
  plain_config "/tmp/src" [("docs", [".pdf"])] ∧
  regular_entries (st_fs docs_deduplicated) ["tmp"; "src"; "docs"] =
    keep_first plain_digest ∅
      (regular_entries (st_fs docs_state) ["tmp"; "src"; "docs"]) ∧
  regular_entries (st_fs docs_deduplicated) ["tmp"; "src"] =
    regular_entries (st_fs docs_state) ["tmp"; "src"].
Proof.
  split; [exact docs_wf|]. split; [exact docs_plain|].
  destruct (remove_duplicates_keeps_first_in_every_folder plain_digest
              [("docs", [".pdf"])] "/tmp/src" docs_state docs_deduplicated
              docs_wf docs_plain docs_stage) as [Hfol Helse].
  split.
  - apply (Hfol "docs"). by_computation.
  - apply (Helse ["tmp"; "src"]). intros F HF.
    repeat (apply elem_of_cons in HF as [->|HF]; [discriminate|]).
    by apply elem_of_nil in HF.
Defined.

Lemma remove_duplicates_again_removes_nothing_witness :
  wf docs_state ∧
  FileFix.remove_duplicates plain_digest [("docs", [".pdf"])] "/tmp/src"
                            docs_deduplicated =
  (inr tt, docs_deduplicated).
Proof.
  split; [exact docs_wf|].
  exact (remove_duplicates_again_removes_nothing plain_digest [("docs", [".pdf"])]
           "/tmp/src" docs_state docs_deduplicated docs_wf docs_stage).
Defined.

Lemma remove_duplicates_removes_only_folder_files_witness :
  plain_config "/tmp/src" [("docs", [".pdf"])] ∧
  st_cwd docs_deduplicated = st_cwd docs_state ∧
  exists removed : list (string * string),
    st_log docs_deduplicated =
      st_log docs_state ++ map (fun m => RemovedDuplicate m.1 m.2) removed ∧
    fs_lookup (st_fs docs_deduplicated) ["tmp"; "src"; "docs"; "c.pdf"] =
      (if decide (["tmp"; "src"; "docs"; "c.pdf"] ∈
                  map (fun m : string * string =>
                         abspath (st_cwd docs_state)
                                 (PurePath "/tmp/src" </> m.2 </> m.1)) removed)
       then None
       else fs_lookup (st_fs docs_state) ["tmp"; "src"; "docs"; "c.pdf"]).
Proof.
  split; [exact docs_plain|].
  destruct (remove_duplicates_removes_only_folder_files plain_digest
              [("docs", [".pdf"])] "/tmp/src" docs_state _ docs_deduplicated
              docs_plain docs_stage) as (Hc & removed & Hlog & _ & _ & Hl).
  split; [exact Hc|]. exists removed.
  exact (conj Hlog (Hl ["tmp"; "src"; "docs"; "c.pdf"])).
Defined.

Definition docs_cleaned : state := mkState []
  [ (["tmp"], Dir); (["tmp"; "src"], Dir);
    (["tmp"; "src"; "docs"], Dir);
    (["tmp"; "src"; "docs"; "b.pdf"], File (bytes_of "X") true);
    (["tmp"; "src"; "docs"; "c.pdf"], File (bytes_of "X") true);
    (["tmp"; "src"; "docs"; "d.pdf"], File (bytes_of "Y") true) ]
  [RemovedEmpty "old"].

Lemma docs_cleanup :
  FileFix.clean_up_empty_folders "/tmp/src" docs_state = (inr tt, docs_cleaned).
Proof. vm_compute. reflexivity. Qed.

Lemma cleanup_again_removes_nothing_witness :
  wf docs_state ∧
  empty_dir (st_fs docs_cleaned) (["tmp"; "src"] ++ ["docs"]) = false ∧
  FileFix.clean_up_empty_folders "/tmp/src" docs_cleaned = (inr tt, docs_cleaned).
Proof.
  split; [exact docs_wf|].
  destruct (cleanup_again_removes_nothing "/tmp/src" docs_state docs_cleaned
              docs_wf docs_cleanup) as [Hne Hagain].
  exact (conj (Hne "docs") Hagain).
Defined.

(** ** The variant at work *)

Lemma test_cleanup_cleans_the_working_directory_witness :
  wf home_state ∧
  sys_listdir (st_fs home_state) (st_cwd home_state) = inr ["a.jpg"; "old"] ∧
  exists s1,
    TestFileFix.clean_up_empty_folders home_state = (inr tt, s1) ∧
    fs_lookup (st_fs s1) ["tmp"; "src"; "old"] = None ∧
    fs_lookup (st_fs s1) ["tmp"; "src"; "a.jpg"] = Some (File (bytes_of "AAA") true).
Proof.
  split; [exact home_wf|]. split; [reflexivity|].
  destruct (test_cleanup_cleans_the_working_directory home_state ["a.jpg"; "old"]
              home_wf eq_refl) as (s1 & Hrun & Hlk & _).
  exists s1. split; [exact Hrun|].
  exact (conj (Hlk ["tmp"; "src"; "old"]) (Hlk ["tmp"; "src"; "a.jpg"])).
Defined.

Definition home_docs_state : state :=
  mkState ["tmp"; "src"] (st_fs docs_state) [].

Definition home_docs_deduplicated : state :=
  mkState ["tmp"; "src"] (st_fs docs_deduplicated) [RemovedDuplicate "c.pdf" "docs"].

Lemma home_docs_wf : wf home_docs_state.
Proof. by_computation. Qed.

Lemma home_docs_stage :
  TestFileFix.remove_duplicates plain_digest [("docs", [".pdf"])] home_docs_state =
  (inr tt, home_docs_deduplicated).
Proof. vm_compute. reflexivity. Qed.

Lemma docs_is_named F : F ∈ [("docs", [".pdf"])].*1 -> F <> EmptyString.
Proof.
  intros HF.
  repeat (apply elem_of_cons in HF as [->|HF]; [discriminate|]).
  by apply elem_of_nil in HF.
Qed.

Lemma test_remove_duplicates_keeps_first_under_cwd_witness :
  wf home_docs_state ∧
  regular_entries (st_fs home_docs_deduplicated) ["tmp"; "src"; "docs"] =
    [("b.pdf", bytes_of "X"); ("d.pdf", bytes_of "Y")] ∧
  regular_entries (st_fs home_docs_deduplicated) ["tmp"; "src"; "docs"] =
    keep_first plain_digest ∅
      (regular_entries (st_fs home_docs_state) ["tmp"; "src"; "docs"]).
Proof.
  split; [exact home_docs_wf|]. split; [reflexivity|].
  apply (test_remove_duplicates_keeps_first_under_cwd plain_digest
           [("docs", [".pdf"])] home_docs_state home_docs_deduplicated
           home_docs_wf home_docs_stage docs_is_named "docs").
  by_computation.
Defined.

Lemma test_run_fails_on_the_empty_folder_name_witness :
  exists e s',
    TestFileFix.main plain_digest (mkConfig (Some [("", [".jpg"])]) (Some "/tmp/src"))
                     home_state = (inl e, s').
Proof.
  apply (test_run_fails_on_the_empty_folder_name plain_digest [("", [".jpg"])]
           "/tmp/src" home_state).
  by_computation.
Defined.

Lemma out_is_absolute F :
  F ∈ [("/tmp/out", [".jpg"])].*1 -> anchor (PurePath F) = true.
Proof.
  intros HF.
  repeat (apply elem_of_cons in HF as [->|HF]; [reflexivity|]).
  by apply elem_of_nil in HF.
Qed.

Lemma variants_agree_on_absolute_folders_witness :
  TestFileFix.organize_files [("/tmp/out", [".jpg"])] "/tmp/src" home_state =
    FileFix.organize_files [("/tmp/out", [".jpg"])] "/tmp/src" home_state ∧
  folder_loc (st_cwd home_state) "/tmp/src" "/tmp/out" = ["tmp"; "out"].
Proof.
  destruct (variants_agree_on_absolute_folders plain_digest
              [("/tmp/out", [".jpg"])] "/tmp/src" home_state out_is_absolute)
    as (Horg & _ & Hloc).
  split; [exact Horg|]. apply (Hloc "/tmp/out"). by_computation.
Defined.
